(** * Digital health records backend: upload pipeline, verification polling,
      correction merge and lenient JSON payload extraction

    A shallow embedding of
      - controllers/healthRecordController.js (uploadHealthRecord,
        getCallVerificationStatus),
      - services/documentAIService.js, services/retellService.js,
      - the Groq structuring service (processHealthRecord, processTranscript),
      - the HealthRecord schema,
    followed by the properties of the pipeline that the specification states.

    JavaScript strings are sequences of UTF-16 code units and are modelled as
    [list N]; [js "..."] turns an ASCII literal into such a sequence.  Dates
    are millisecond time stamps in [Z].  External collaborators (the Document
    AI engine, the Retell and Groq HTTP endpoints, S3, MongoDB) answer through
    an environment record of oracles; everything the repository's own code
    does with their answers is written out. *)

From Stdlib Require Import ZArith NArith List String Ascii Bool Lia.
From stdpp Require Import gmap list.

Set Warnings "-register-all".
Local Open Scope Z_scope.

(** ** JavaScript strings *)

Module JS.

Abbreviation jsstring := (list N).

Definition js (s : string) : jsstring :=
  map N_of_ascii (list_ascii_of_string s).
Arguments js s%_string : simpl never.

(** Truthiness of a string value: only the empty string is falsy. *)
Definition truthy (s : jsstring) : bool :=
  match s with [] => false | _ :: _ => true end.
Arguments truthy : simpl never.

(** [a || b] on strings. *)
Definition or_else (a b : jsstring) : jsstring :=
  if truthy a then a else b.

(** [a || b] where [a] may be [undefined]. *)
Definition or_default (a : option jsstring) (b : jsstring) : jsstring :=
  match a with
  | Some s => or_else s b
  | None => b
  end.

(** Code units stripped by [String.prototype.trim]: ECMAScript WhiteSpace
    and LineTerminator. *)
Definition isTrimSpace (c : N) : bool :=
  (existsb (N.eqb c)
     [9; 10; 11; 12; 13; 32; 160; 5760; 8232; 8233; 8239; 8287; 12288; 65279]
   || ((8192 <=? c) && (c <=? 8202)))%N.

Fixpoint trimStart (s : jsstring) : jsstring :=
  match s with
  | [] => []
  | c :: r => if isTrimSpace c then trimStart r else s
  end.

Definition trimEnd (s : jsstring) : jsstring := rev (trimStart (rev s)).

Definition trim (s : jsstring) : jsstring := trimEnd (trimStart s).

(** [s.indexOf(c)] for a one-unit search string; -1 when absent. *)
Fixpoint indexOf_from (c : N) (s : jsstring) (i : Z) : Z :=
  match s with
  | [] => -1
  | x :: r => if N.eqb x c then i else indexOf_from c r (i + 1)
  end.

Definition indexOf (c : N) (s : jsstring) : Z := indexOf_from c s 0.

(** [s.lastIndexOf(c)]; -1 when absent. *)
Fixpoint lastIndexOf_from (c : N) (s : jsstring) (i best : Z) : Z :=
  match s with
  | [] => best
  | x :: r => lastIndexOf_from c r (i + 1) (if N.eqb x c then i else best)
  end.

Definition lastIndexOf (c : N) (s : jsstring) : Z :=
  lastIndexOf_from c s 0 (-1).

(** [s.substring(a, b)]: both indices are clamped to [0, length] and
    swapped when out of order. *)
Definition substring (s : jsstring) (a b : Z) : jsstring :=
  let len := Z.of_nat (length s) in
  let a' := Z.max 0 (Z.min a len) in
  let b' := Z.max 0 (Z.min b len) in
  let lo := Z.min a' b' in
  let hi := Z.max a' b' in
  take (Z.to_nat (hi - lo)) (drop (Z.to_nat lo) s).

Fixpoint startsWith (p s : jsstring) : bool :=
  match p, s with
  | [], _ => true
  | _ :: _, [] => false
  | a :: p', b :: s' => N.eqb a b && startsWith p' s'
  end.

(** [s.includes(p)]. *)
Fixpoint includes (p s : jsstring) : bool :=
  startsWith p s ||
  match s with
  | [] => false
  | _ :: r => includes p r
  end.

(** ** JSON values *)

(** Numbers keep their lexeme: no claim depends on their numeric value
    beyond being zero or not. *)
Inductive json :=
| JNull
| JBool (b : bool)
| JNum (lexeme : jsstring)
| JStr (s : jsstring)
| JArr (items : list json)
| JObj (props : list (jsstring * json)).

Definition isDigit (c : N) : bool := ((48 <=? c) && (c <=? 57))%N.
Arguments isDigit : simpl never.

(** A number lexeme denotes zero when no digit of its mantissa (the part
    before an exponent mark) differs from 0. *)
Fixpoint mantissa_zero (s : jsstring) : bool :=
  match s with
  | [] => true
  | c :: r =>
      if (N.eqb c 101 || N.eqb c 69)%bool then true
      else if (isDigit c && negb (N.eqb c 48))%bool then false
      else mantissa_zero r
  end.

(** Truthiness of a value ([undefined] is [None]). *)
Definition json_truthy (v : option json) : bool :=
  match v with
  | None => false
  | Some JNull => false
  | Some (JBool b) => b
  | Some (JNum l) => negb (mantissa_zero l)
  | Some (JStr s) => truthy s
  | Some (JArr _) => true
  | Some (JObj _) => true
  end.

(** Own-property read and write on a property list. *)
Fixpoint getProp (k : jsstring) (ps : list (jsstring * json)) : option json :=
  match ps with
  | [] => None
  | (k', v) :: r => if decide (k' = k) then Some v else getProp k r
  end.

Fixpoint setProp (k : jsstring) (v : json) (ps : list (jsstring * json))
  : list (jsstring * json) :=
  match ps with
  | [] => [(k, v)]
  | (k', v') :: r =>
      if decide (k' = k) then (k, v) :: r else (k', v') :: setProp k v r
  end.

(** [o.k] for a value [o]: only objects carry properties here. *)
Definition member (k : jsstring) (o : json) : option json :=
  match o with
  | JObj ps => getProp k ps
  | _ => None
  end.

(** [o.k = v] in sloppy mode.  On an object it defines or overwrites the
    property.  On a primitive it is silently ignored; on an array it would
    add a non-index property, which is not part of the array's elements and
    is dropped when the value is serialised, so the array is unchanged. *)
Definition assignMember (k : jsstring) (v : json) (o : json) : json :=
  match o with
  | JObj ps => JObj (setProp k v ps)
  | _ => o
  end.

(** ** [JSON.parse]

    The grammar of ECMA-404: white space is space, tab, line feed and
    carriage return; strings reject raw control characters and decode the
    escapes; numbers follow [-? int frac? exp?]; a duplicated key keeps its
    first position and its last value.  The parser runs on fuel, one unit
    per call; [JSON_parse] supplies two units per code unit and one more,
    which is always enough. *)

Inductive presult (A : Type) :=
| Parsed (a : A) (rest : jsstring)
| SyntaxError
| OutOfFuel.
Arguments Parsed {A} a rest.
Arguments SyntaxError {A}.
Arguments OutOfFuel {A}.

Definition isJsonWs (c : N) : bool := existsb (N.eqb c) [9; 10; 13; 32]%N.
Arguments isJsonWs : simpl never.

Fixpoint skip_ws (s : jsstring) : jsstring :=
  match s with
  | [] => []
  | c :: r => if isJsonWs c then skip_ws r else s
  end.

Fixpoint strip_prefix (p s : jsstring) : option jsstring :=
  match p with
  | [] => Some s
  | a :: p' =>
      match s with
      | [] => None
      | b :: s' => if N.eqb a b then strip_prefix p' s' else None
      end
  end.

Fixpoint span_digits (s : jsstring) : jsstring * jsstring :=
  match s with
  | [] => ([], [])
  | c :: r =>
      if isDigit c
      then let '(ds, rest) := span_digits r in (c :: ds, rest)
      else ([], s)
  end.

Definition hexval (c : N) : option N :=
  (if (48 <=? c) && (c <=? 57) then Some (c - 48)
   else if (97 <=? c) && (c <=? 102) then Some (c - 87)
   else if (65 <=? c) && (c <=? 70) then Some (c - 55)
   else None)%N.

Arguments hexval : simpl never.

Definition hex4 (a b c d : N) : option N :=
  match hexval a, hexval b, hexval c, hexval d with
  | Some x, Some y, Some z, Some w => Some (((x * 16 + y) * 16 + z) * 16 + w)%N
  | _, _, _, _ => None
  end.

(** The character after a backslash, other than [u]. *)
Definition simple_escape (e : N) : option N :=
  (if N.eqb e 34 then Some 34        (* quote *)
   else if N.eqb e 92 then Some 92   (* backslash *)
   else if N.eqb e 47 then Some 47   (* slash *)
   else if N.eqb e 98 then Some 8    (* b *)
   else if N.eqb e 102 then Some 12  (* f *)
   else if N.eqb e 110 then Some 10  (* n *)
   else if N.eqb e 114 then Some 13  (* r *)
   else if N.eqb e 116 then Some 9   (* t *)
   else None)%N.

Arguments hex4 : simpl never.
Arguments simple_escape : simpl never.

(** The body of a string, after its opening quote. *)
Fixpoint lex_string (s acc : jsstring) : option (jsstring * jsstring) :=
  match s with
  | [] => None
  | c :: r =>
      if N.eqb c 34 then Some (rev acc, r)
      else if N.eqb c 92 then
        match r with
        | [] => None
        | e :: r' =>
            if N.eqb e 117 then
              match r' with
              | h1 :: h2 :: h3 :: h4 :: r'' =>
                  match hex4 h1 h2 h3 h4 with
                  | Some u => lex_string r'' (u :: acc)
                  | None => None
                  end
              | _ => None
              end
            else
              match simple_escape e with
              | Some u => lex_string r' (u :: acc)
              | None => None
              end
        end
      else if (c <? 32)%N then None
      else lex_string r (c :: acc)
  end.

(** A number: its lexeme and the remaining input. *)
Definition lex_number (s : jsstring) : option (jsstring * jsstring) :=
  let '(sign, s1) :=
    match s with
    | c :: r => if N.eqb c 45 then ([c], r) else ([], s)
    | [] => ([], s)
    end in
  match s1 with
  | [] => None
  | c :: r =>
      if isDigit c then
        let '(int, s2) :=
          if N.eqb c 48 then ([c], r)
          else let '(ds, r') := span_digits r in (c :: ds, r') in
        let frac :=
          match s2 with
          | d :: r2 =>
              if N.eqb d 46 then
                match span_digits r2 with
                | ([], _) => None
                | (ds, r3) => Some (d :: ds, r3)
                end
              else Some ([], s2)
          | [] => Some ([], s2)
          end in
        match frac with
        | None => None
        | Some (fr, s3) =>
            match s3 with
            | e :: r3 =>
                if (N.eqb e 101 || N.eqb e 69)%bool then
                  let '(sg, r4) :=
                    match r3 with
                    | g :: r4 =>
                        if (N.eqb g 43 || N.eqb g 45)%bool
                        then ([g], r4) else ([], r3)
                    | [] => ([], r3)
                    end in
                  match span_digits r4 with
                  | ([], _) => None
                  | (ds, r5) => Some (sign ++ int ++ fr ++ e :: sg ++ ds, r5)
                  end
                else Some (sign ++ int ++ fr, s3)
            | [] => Some (sign ++ int ++ fr, s3)
            end
        end
      else None
  end.

Definition parse_literal (s : jsstring) : presult json :=
  match strip_prefix (js "true") s with
  | Some r => Parsed (JBool true) r
  | None =>
  match strip_prefix (js "false") s with
  | Some r => Parsed (JBool false) r
  | None =>
  match strip_prefix (js "null") s with
  | Some r => Parsed JNull r
  | None =>
  match lex_number s with
  | Some (l, r) => Parsed (JNum l) r
  | None => SyntaxError
  end end end end.

Fixpoint parse_value (fuel : nat) (s : jsstring) {struct fuel} : presult json :=
  match fuel with
  | O => OutOfFuel
  | S f =>
      match skip_ws s with
      | [] => SyntaxError
      | c :: r =>
          if N.eqb c 123 then                       (* left brace *)
            match skip_ws r with
            | [] => SyntaxError
            | c2 :: r2 =>
                if N.eqb c2 125 then Parsed (JObj []) r2
                else parse_members f (c2 :: r2) []
            end
          else if N.eqb c 91 then                   (* left bracket *)
            match skip_ws r with
            | [] => SyntaxError
            | c2 :: r2 =>
                if N.eqb c2 93 then Parsed (JArr []) r2
                else parse_elements f (c2 :: r2) []
            end
          else if N.eqb c 34 then                   (* quote *)
            match lex_string r [] with
            | Some (str, r') => Parsed (JStr str) r'
            | None => SyntaxError
            end
          else parse_literal (c :: r)
      end
  end
with parse_members (fuel : nat) (s : jsstring) (acc : list (jsstring * json))
       {struct fuel} : presult json :=
  match fuel with
  | O => OutOfFuel
  | S f =>
      match skip_ws s with
      | [] => SyntaxError
      | c :: r =>
          if N.eqb c 34 then
            match lex_string r [] with
            | None => SyntaxError
            | Some (k, r1) =>
                match skip_ws r1 with
                | [] => SyntaxError
                | c3 :: r3 =>
                    if N.eqb c3 58 then             (* colon *)
                      match parse_value f r3 with
                      | Parsed v r4 =>
                          match skip_ws r4 with
                          | [] => SyntaxError
                          | c5 :: r5 =>
                              if N.eqb c5 44 then   (* comma *)
                                parse_members f r5 (setProp k v acc)
                              else if N.eqb c5 125 then
                                Parsed (JObj (setProp k v acc)) r5
                              else SyntaxError
                          end
                      | SyntaxError => SyntaxError
                      | OutOfFuel => OutOfFuel
                      end
                    else SyntaxError
                end
            end
          else SyntaxError
      end
  end
with parse_elements (fuel : nat) (s : jsstring) (acc : list json)
       {struct fuel} : presult json :=
  match fuel with
  | O => OutOfFuel
  | S f =>
      match parse_value f s with
      | Parsed v r1 =>
          match skip_ws r1 with
          | [] => SyntaxError
          | c :: r2 =>
              if N.eqb c 44 then parse_elements f r2 (acc ++ [v])
              else if N.eqb c 93 then Parsed (JArr (acc ++ [v])) r2
              else SyntaxError
          end
      | SyntaxError => SyntaxError
      | OutOfFuel => OutOfFuel
      end
  end.

(** [JSON.parse(s)]; [None] when it throws a SyntaxError. *)
Definition JSON_parse (s : jsstring) : option json :=
  match parse_value (S (2 * length s)) s with
  | Parsed v r =>
      match skip_ws r with
      | [] => Some v
      | _ :: _ => None
      end
  | SyntaxError => None
  | OutOfFuel => None
  end.

End JS.

(** ** The data model (models/HealthRecord.js and the objects the services
       exchange) *)

Module Model.
Import JS.

(** The values of [processingStatus]: the literals of the schema's enum and
    those the controller writes. *)
Inductive ProcessingStatus :=
| uploaded
| document_ai_complete
| verification_initiated
| verification_ended
| verification_ended_no_transcript
| verification_complete
| processing_complete
| groq_processing_complete
| complete.

#[global] Instance ProcessingStatus_eq_dec : EqDecision ProcessingStatus.
Proof. solve_decision. Defined.

(** The schema's [enum] for [processingStatus].  Updates go through
    [findByIdAndUpdate], which does not run validators, so the enum does not
    restrict what the controller stores. *)
Definition schema_processingStatus_enum : list ProcessingStatus :=
  [uploaded; document_ai_complete; verification_initiated;
   verification_complete; groq_processing_complete; complete].

(** One page of extracted text. *)
Record Page := {
  pageNumber : Z;
  page_text : jsstring
}.

(** [extractedData]: the full text and the per-page text. *)
Record ParsedData := {
  text : jsstring;
  pages : list Page
}.

(** A correction the patient asserted during the call. *)
Record Correction := {
  field : jsstring;
  incorrect : jsstring;
  correct : jsstring
}.

(** One speaker turn of a structured transcript. *)
Record Turn := {
  role : jsstring;
  turn_text : jsstring
}.

#[global] Instance Correction_eq_dec : EqDecision Correction.
Proof. solve_decision. Defined.

(** The body of a Retell reply ([response.data]) as far as the code reads it.
    An absent string property is the empty string ([call_id], [call_status])
    or [None]; [transcript_object] is [Some] exactly when the property is an
    array; [call_successful] is the truthiness of
    [call_analysis?.call_successful]. *)
Record RetellCall := {
  call_id : jsstring;
  call_status : jsstring;
  start_timestamp : option Z;
  end_timestamp : option Z;
  call_duration_ms : option Z;
  rc_transcript : option jsstring;
  transcript_object : option (list Turn);
  recording_url : option jsstring;
  call_successful : bool
}.

(** The [verificationCall] sub-document; [metadata] is [None] for the
    default empty object. *)
Record VerificationCall := {
  callId : option jsstring;
  status : jsstring;
  startTime : option Z;
  endTime : option Z;
  transcript : option jsstring;
  transcriptObject : option (list Turn);
  recordingUrl : option jsstring;
  verificationComplete : bool;
  corrections : list Correction;
  additionalInfo : jsstring;
  summary : jsstring;
  metadata : option RetellCall
}.

(** The schema defaults of [verificationCall]. *)
Definition default_verificationCall : VerificationCall :=
  {| callId := None; status := js "not_initiated"; startTime := None;
     endTime := None; transcript := None; transcriptObject := None;
     recordingUrl := None; verificationComplete := false; corrections := [];
     additionalInfo := []; summary := []; metadata := None |}.

Definition set_callId (v : option jsstring) (c : VerificationCall)
  : VerificationCall :=
  {| callId := v; status := status c; startTime := startTime c; endTime :=
     endTime c; transcript := transcript c; transcriptObject :=
     transcriptObject c; recordingUrl := recordingUrl c;
     verificationComplete := verificationComplete c; corrections :=
     corrections c; additionalInfo := additionalInfo c; summary := summary
     c; metadata := metadata c |}.

Definition set_status (v : jsstring) (c : VerificationCall)
  : VerificationCall :=
  {| callId := callId c; status := v; startTime := startTime c; endTime :=
     endTime c; transcript := transcript c; transcriptObject :=
     transcriptObject c; recordingUrl := recordingUrl c;
     verificationComplete := verificationComplete c; corrections :=
     corrections c; additionalInfo := additionalInfo c; summary := summary
     c; metadata := metadata c |}.

Definition set_startTime (v : option Z) (c : VerificationCall)
  : VerificationCall :=
  {| callId := callId c; status := status c; startTime := v; endTime :=
     endTime c; transcript := transcript c; transcriptObject :=
     transcriptObject c; recordingUrl := recordingUrl c;
     verificationComplete := verificationComplete c; corrections :=
     corrections c; additionalInfo := additionalInfo c; summary := summary
     c; metadata := metadata c |}.

Definition set_endTime (v : option Z) (c : VerificationCall)
  : VerificationCall :=
  {| callId := callId c; status := status c; startTime := startTime c;
     endTime := v; transcript := transcript c; transcriptObject :=
     transcriptObject c; recordingUrl := recordingUrl c;
     verificationComplete := verificationComplete c; corrections :=
     corrections c; additionalInfo := additionalInfo c; summary := summary
     c; metadata := metadata c |}.

Definition set_transcript (v : option jsstring) (c : VerificationCall)
  : VerificationCall :=
  {| callId := callId c; status := status c; startTime := startTime c;
     endTime := endTime c; transcript := v; transcriptObject :=
     transcriptObject c; recordingUrl := recordingUrl c;
     verificationComplete := verificationComplete c; corrections :=
     corrections c; additionalInfo := additionalInfo c; summary := summary
     c; metadata := metadata c |}.

Definition set_transcriptObject (v : option (list Turn)) (c : VerificationCall)
  : VerificationCall :=
  {| callId := callId c; status := status c; startTime := startTime c;
     endTime := endTime c; transcript := transcript c; transcriptObject :=
     v; recordingUrl := recordingUrl c; verificationComplete :=
     verificationComplete c; corrections := corrections c; additionalInfo :=
     additionalInfo c; summary := summary c; metadata := metadata c |}.

Definition set_recordingUrl (v : option jsstring) (c : VerificationCall)
  : VerificationCall :=
  {| callId := callId c; status := status c; startTime := startTime c;
     endTime := endTime c; transcript := transcript c; transcriptObject :=
     transcriptObject c; recordingUrl := v; verificationComplete :=
     verificationComplete c; corrections := corrections c; additionalInfo :=
     additionalInfo c; summary := summary c; metadata := metadata c |}.

Definition set_verificationComplete (v : bool) (c : VerificationCall)
  : VerificationCall :=
  {| callId := callId c; status := status c; startTime := startTime c;
     endTime := endTime c; transcript := transcript c; transcriptObject :=
     transcriptObject c; recordingUrl := recordingUrl c;
     verificationComplete := v; corrections := corrections c; additionalInfo
     := additionalInfo c; summary := summary c; metadata := metadata c |}.

Definition set_corrections (v : list Correction) (c : VerificationCall)
  : VerificationCall :=
  {| callId := callId c; status := status c; startTime := startTime c;
     endTime := endTime c; transcript := transcript c; transcriptObject :=
     transcriptObject c; recordingUrl := recordingUrl c;
     verificationComplete := verificationComplete c; corrections := v;
     additionalInfo := additionalInfo c; summary := summary c; metadata :=
     metadata c |}.

Definition set_additionalInfo (v : jsstring) (c : VerificationCall)
  : VerificationCall :=
  {| callId := callId c; status := status c; startTime := startTime c;
     endTime := endTime c; transcript := transcript c; transcriptObject :=
     transcriptObject c; recordingUrl := recordingUrl c;
     verificationComplete := verificationComplete c; corrections :=
     corrections c; additionalInfo := v; summary := summary c; metadata :=
     metadata c |}.

Definition set_summary (v : jsstring) (c : VerificationCall)
  : VerificationCall :=
  {| callId := callId c; status := status c; startTime := startTime c;
     endTime := endTime c; transcript := transcript c; transcriptObject :=
     transcriptObject c; recordingUrl := recordingUrl c;
     verificationComplete := verificationComplete c; corrections :=
     corrections c; additionalInfo := additionalInfo c; summary := v;
     metadata := metadata c |}.

Definition set_metadata (v : option RetellCall) (c : VerificationCall)
  : VerificationCall :=
  {| callId := callId c; status := status c; startTime := startTime c;
     endTime := endTime c; transcript := transcript c; transcriptObject :=
     transcriptObject c; recordingUrl := recordingUrl c;
     verificationComplete := verificationComplete c; corrections :=
     corrections c; additionalInfo := additionalInfo c; summary := summary
     c; metadata := v |}.

(** [processingTimeline]: per-stage start and end times and the source of
    the stage's data. *)
Record Timeline := {
  documentAI_startTime : option Z;
  documentAI_endTime : option Z;
  documentAI_source : jsstring;
  verification_startTime : option Z;
  verification_endTime : option Z;
  verification_status : jsstring;
  verification_error : option jsstring;
  groqAI_startTime : option Z;
  groqAI_endTime : option Z;
  groqAI_source : jsstring;
  s3Upload_startTime : option Z;
  s3Upload_endTime : option Z
}.

Definition set_documentAI_endTime (v : option Z) (t : Timeline) : Timeline :=
  {| documentAI_startTime := documentAI_startTime t; documentAI_endTime :=
     v; documentAI_source := documentAI_source t; verification_startTime :=
     verification_startTime t; verification_endTime := verification_endTime
     t; verification_status := verification_status t; verification_error :=
     verification_error t; groqAI_startTime := groqAI_startTime t;
     groqAI_endTime := groqAI_endTime t; groqAI_source := groqAI_source t;
     s3Upload_startTime := s3Upload_startTime t; s3Upload_endTime :=
     s3Upload_endTime t |}.

Definition set_documentAI_source (v : jsstring) (t : Timeline) : Timeline :=
  {| documentAI_startTime := documentAI_startTime t; documentAI_endTime :=
     documentAI_endTime t; documentAI_source := v; verification_startTime :=
     verification_startTime t; verification_endTime := verification_endTime
     t; verification_status := verification_status t; verification_error :=
     verification_error t; groqAI_startTime := groqAI_startTime t;
     groqAI_endTime := groqAI_endTime t; groqAI_source := groqAI_source t;
     s3Upload_startTime := s3Upload_startTime t; s3Upload_endTime :=
     s3Upload_endTime t |}.

Definition set_verification_startTime (v : option Z) (t : Timeline)
  : Timeline :=
  {| documentAI_startTime := documentAI_startTime t; documentAI_endTime :=
     documentAI_endTime t; documentAI_source := documentAI_source t;
     verification_startTime := v; verification_endTime :=
     verification_endTime t; verification_status := verification_status t;
     verification_error := verification_error t; groqAI_startTime :=
     groqAI_startTime t; groqAI_endTime := groqAI_endTime t; groqAI_source
     := groqAI_source t; s3Upload_startTime := s3Upload_startTime t;
     s3Upload_endTime := s3Upload_endTime t |}.

Definition set_verification_endTime (v : option Z) (t : Timeline)
  : Timeline :=
  {| documentAI_startTime := documentAI_startTime t; documentAI_endTime :=
     documentAI_endTime t; documentAI_source := documentAI_source t;
     verification_startTime := verification_startTime t;
     verification_endTime := v; verification_status := verification_status
     t; verification_error := verification_error t; groqAI_startTime :=
     groqAI_startTime t; groqAI_endTime := groqAI_endTime t; groqAI_source
     := groqAI_source t; s3Upload_startTime := s3Upload_startTime t;
     s3Upload_endTime := s3Upload_endTime t |}.

Definition set_verification_status (v : jsstring) (t : Timeline) : Timeline :=
  {| documentAI_startTime := documentAI_startTime t; documentAI_endTime :=
     documentAI_endTime t; documentAI_source := documentAI_source t;
     verification_startTime := verification_startTime t;
     verification_endTime := verification_endTime t; verification_status :=
     v; verification_error := verification_error t; groqAI_startTime :=
     groqAI_startTime t; groqAI_endTime := groqAI_endTime t; groqAI_source
     := groqAI_source t; s3Upload_startTime := s3Upload_startTime t;
     s3Upload_endTime := s3Upload_endTime t |}.

Definition set_verification_error (v : option jsstring) (t : Timeline)
  : Timeline :=
  {| documentAI_startTime := documentAI_startTime t; documentAI_endTime :=
     documentAI_endTime t; documentAI_source := documentAI_source t;
     verification_startTime := verification_startTime t;
     verification_endTime := verification_endTime t; verification_status :=
     verification_status t; verification_error := v; groqAI_startTime :=
     groqAI_startTime t; groqAI_endTime := groqAI_endTime t; groqAI_source
     := groqAI_source t; s3Upload_startTime := s3Upload_startTime t;
     s3Upload_endTime := s3Upload_endTime t |}.

Definition set_groqAI_startTime (v : option Z) (t : Timeline) : Timeline :=
  {| documentAI_startTime := documentAI_startTime t; documentAI_endTime :=
     documentAI_endTime t; documentAI_source := documentAI_source t;
     verification_startTime := verification_startTime t;
     verification_endTime := verification_endTime t; verification_status :=
     verification_status t; verification_error := verification_error t;
     groqAI_startTime := v; groqAI_endTime := groqAI_endTime t;
     groqAI_source := groqAI_source t; s3Upload_startTime :=
     s3Upload_startTime t; s3Upload_endTime := s3Upload_endTime t |}.

Definition set_groqAI_endTime (v : option Z) (t : Timeline) : Timeline :=
  {| documentAI_startTime := documentAI_startTime t; documentAI_endTime :=
     documentAI_endTime t; documentAI_source := documentAI_source t;
     verification_startTime := verification_startTime t;
     verification_endTime := verification_endTime t; verification_status :=
     verification_status t; verification_error := verification_error t;
     groqAI_startTime := groqAI_startTime t; groqAI_endTime := v;
     groqAI_source := groqAI_source t; s3Upload_startTime :=
     s3Upload_startTime t; s3Upload_endTime := s3Upload_endTime t |}.

Definition set_groqAI_source (v : jsstring) (t : Timeline) : Timeline :=
  {| documentAI_startTime := documentAI_startTime t; documentAI_endTime :=
     documentAI_endTime t; documentAI_source := documentAI_source t;
     verification_startTime := verification_startTime t;
     verification_endTime := verification_endTime t; verification_status :=
     verification_status t; verification_error := verification_error t;
     groqAI_startTime := groqAI_startTime t; groqAI_endTime :=
     groqAI_endTime t; groqAI_source := v; s3Upload_startTime :=
     s3Upload_startTime t; s3Upload_endTime := s3Upload_endTime t |}.

Definition set_s3Upload_startTime (v : option Z) (t : Timeline) : Timeline :=
  {| documentAI_startTime := documentAI_startTime t; documentAI_endTime :=
     documentAI_endTime t; documentAI_source := documentAI_source t;
     verification_startTime := verification_startTime t;
     verification_endTime := verification_endTime t; verification_status :=
     verification_status t; verification_error := verification_error t;
     groqAI_startTime := groqAI_startTime t; groqAI_endTime :=
     groqAI_endTime t; groqAI_source := groqAI_source t; s3Upload_startTime
     := v; s3Upload_endTime := s3Upload_endTime t |}.

Definition set_s3Upload_endTime (v : option Z) (t : Timeline) : Timeline :=
  {| documentAI_startTime := documentAI_startTime t; documentAI_endTime :=
     documentAI_endTime t; documentAI_source := documentAI_source t;
     verification_startTime := verification_startTime t;
     verification_endTime := verification_endTime t; verification_status :=
     verification_status t; verification_error := verification_error t;
     groqAI_startTime := groqAI_startTime t; groqAI_endTime :=
     groqAI_endTime t; groqAI_source := groqAI_source t; s3Upload_startTime
     := s3Upload_startTime t; s3Upload_endTime := v |}.

Record FileInfo := {
  originalName : jsstring;
  size : Z;
  mimeType : jsstring;
  extension : jsstring
}.

Record ProcessingMetadata := {
  fileInfo : FileInfo;
  timeline : Timeline;
  extractedTextLength : Z;
  pageCount : Z;
  storageLocation : option jsstring
}.

Definition set_timeline (v : Timeline) (m : ProcessingMetadata)
  : ProcessingMetadata :=
  {| fileInfo := fileInfo m; timeline := v; extractedTextLength :=
     extractedTextLength m; pageCount := pageCount m; storageLocation :=
     storageLocation m |}.

Definition set_storageLocation (v : option jsstring) (m : ProcessingMetadata)
  : ProcessingMetadata :=
  {| fileInfo := fileInfo m; timeline := timeline m; extractedTextLength :=
     extractedTextLength m; pageCount := pageCount m; storageLocation := v
     |}.

(** A stored record.  [createdAt] and [updatedAt] are left out: no operation
    below reads them. *)
Record HealthRecord := {
  user : N;
  title : jsstring;
  description : jsstring;
  documentType : jsstring;
  patientName : jsstring;
  patientPhone : jsstring;
  fileUrl : option jsstring;
  filePath : option jsstring;
  extractedData : option ParsedData;
  structuredData : option json;
  processingMetadata : ProcessingMetadata;
  verificationCall : VerificationCall;
  processingStatus : ProcessingStatus
}.

Definition set_title (v : jsstring) (r : HealthRecord) : HealthRecord :=
  {| user := user r; title := v; description := description r; documentType
     := documentType r; patientName := patientName r; patientPhone :=
     patientPhone r; fileUrl := fileUrl r; filePath := filePath r;
     extractedData := extractedData r; structuredData := structuredData r;
     processingMetadata := processingMetadata r; verificationCall :=
     verificationCall r; processingStatus := processingStatus r |}.

Definition set_description (v : jsstring) (r : HealthRecord) : HealthRecord :=
  {| user := user r; title := title r; description := v; documentType :=
     documentType r; patientName := patientName r; patientPhone :=
     patientPhone r; fileUrl := fileUrl r; filePath := filePath r;
     extractedData := extractedData r; structuredData := structuredData r;
     processingMetadata := processingMetadata r; verificationCall :=
     verificationCall r; processingStatus := processingStatus r |}.

Definition set_patientName (v : jsstring) (r : HealthRecord) : HealthRecord :=
  {| user := user r; title := title r; description := description r;
     documentType := documentType r; patientName := v; patientPhone :=
     patientPhone r; fileUrl := fileUrl r; filePath := filePath r;
     extractedData := extractedData r; structuredData := structuredData r;
     processingMetadata := processingMetadata r; verificationCall :=
     verificationCall r; processingStatus := processingStatus r |}.

Definition set_patientPhone (v : jsstring) (r : HealthRecord)
  : HealthRecord :=
  {| user := user r; title := title r; description := description r;
     documentType := documentType r; patientName := patientName r;
     patientPhone := v; fileUrl := fileUrl r; filePath := filePath r;
     extractedData := extractedData r; structuredData := structuredData r;
     processingMetadata := processingMetadata r; verificationCall :=
     verificationCall r; processingStatus := processingStatus r |}.

Definition set_fileUrl (v : option jsstring) (r : HealthRecord)
  : HealthRecord :=
  {| user := user r; title := title r; description := description r;
     documentType := documentType r; patientName := patientName r;
     patientPhone := patientPhone r; fileUrl := v; filePath := filePath r;
     extractedData := extractedData r; structuredData := structuredData r;
     processingMetadata := processingMetadata r; verificationCall :=
     verificationCall r; processingStatus := processingStatus r |}.

Definition set_filePath (v : option jsstring) (r : HealthRecord)
  : HealthRecord :=
  {| user := user r; title := title r; description := description r;
     documentType := documentType r; patientName := patientName r;
     patientPhone := patientPhone r; fileUrl := fileUrl r; filePath := v;
     extractedData := extractedData r; structuredData := structuredData r;
     processingMetadata := processingMetadata r; verificationCall :=
     verificationCall r; processingStatus := processingStatus r |}.

Definition set_structuredData (v : option json) (r : HealthRecord)
  : HealthRecord :=
  {| user := user r; title := title r; description := description r;
     documentType := documentType r; patientName := patientName r;
     patientPhone := patientPhone r; fileUrl := fileUrl r; filePath :=
     filePath r; extractedData := extractedData r; structuredData := v;
     processingMetadata := processingMetadata r; verificationCall :=
     verificationCall r; processingStatus := processingStatus r |}.

Definition set_processingMetadata (v : ProcessingMetadata) (r : HealthRecord)
  : HealthRecord :=
  {| user := user r; title := title r; description := description r;
     documentType := documentType r; patientName := patientName r;
     patientPhone := patientPhone r; fileUrl := fileUrl r; filePath :=
     filePath r; extractedData := extractedData r; structuredData :=
     structuredData r; processingMetadata := v; verificationCall :=
     verificationCall r; processingStatus := processingStatus r |}.

Definition set_verificationCall (v : VerificationCall) (r : HealthRecord)
  : HealthRecord :=
  {| user := user r; title := title r; description := description r;
     documentType := documentType r; patientName := patientName r;
     patientPhone := patientPhone r; fileUrl := fileUrl r; filePath :=
     filePath r; extractedData := extractedData r; structuredData :=
     structuredData r; processingMetadata := processingMetadata r;
     verificationCall := v; processingStatus := processingStatus r |}.

Definition set_processingStatus (v : ProcessingStatus) (r : HealthRecord)
  : HealthRecord :=
  {| user := user r; title := title r; description := description r;
     documentType := documentType r; patientName := patientName r;
     patientPhone := patientPhone r; fileUrl := fileUrl r; filePath :=
     filePath r; extractedData := extractedData r; structuredData :=
     structuredData r; processingMetadata := processingMetadata r;
     verificationCall := verificationCall r; processingStatus := v |}.

(** A path of an update document passed to [findByIdAndUpdate], with the
    value assigned to it. *)
Inductive FieldUpdate :=
| U_patientName (v : jsstring)
| U_patientPhone (v : jsstring)
| U_description (v : jsstring)
| U_structuredData (v : json)
| U_fileUrl (v : jsstring)
| U_filePath (v : jsstring)
| U_timeline (v : Timeline)
| U_storageLocation (v : jsstring)
| U_processingStatus (v : ProcessingStatus)
| U_vc_callId (v : jsstring)
| U_vc_status (v : jsstring)
| U_vc_startTime (v : Z)
| U_vc_endTime (v : Z)
| U_vc_transcript (v : option jsstring)
| U_vc_transcriptObject (v : option (list Turn))
| U_vc_recordingUrl (v : option jsstring)
| U_vc_metadata (v : RetellCall)
| U_vc_verificationComplete (v : bool)
| U_vc_corrections (v : list Correction)
| U_vc_additionalInfo (v : jsstring)
| U_vc_summary (v : jsstring).

Definition on_call (f : VerificationCall -> VerificationCall)
    (r : HealthRecord) : HealthRecord :=
  set_verificationCall (f (verificationCall r)) r.

Definition on_metadata (f : ProcessingMetadata -> ProcessingMetadata)
    (r : HealthRecord) : HealthRecord :=
  set_processingMetadata (f (processingMetadata r)) r.

(** The effect of one path of an update.  The schema declares
    [trim: true] for [description], [patientName] and [patientPhone], and
    setters run on updates. *)
Definition apply_update (u : FieldUpdate) (r : HealthRecord) : HealthRecord :=
  match u with
  | U_patientName v => set_patientName (trim v) r
  | U_patientPhone v => set_patientPhone (trim v) r
  | U_description v => set_description (trim v) r
  | U_structuredData v => set_structuredData (Some v) r
  | U_fileUrl v => set_fileUrl (Some v) r
  | U_filePath v => set_filePath (Some v) r
  | U_timeline v => on_metadata (set_timeline v) r
  | U_storageLocation v => on_metadata (set_storageLocation (Some v)) r
  | U_processingStatus v => set_processingStatus v r
  | U_vc_callId v => on_call (set_callId (Some v)) r
  | U_vc_status v => on_call (set_status v) r
  | U_vc_startTime v => on_call (set_startTime (Some v)) r
  | U_vc_endTime v => on_call (set_endTime (Some v)) r
  | U_vc_transcript v => on_call (set_transcript v) r
  | U_vc_transcriptObject v => on_call (set_transcriptObject v) r
  | U_vc_recordingUrl v => on_call (set_recordingUrl v) r
  | U_vc_metadata v => on_call (set_metadata (Some v)) r
  | U_vc_verificationComplete v => on_call (set_verificationComplete v) r
  | U_vc_corrections v => on_call (set_corrections v) r
  | U_vc_additionalInfo v => on_call (set_additionalInfo v) r
  | U_vc_summary v => on_call (set_summary v) r
  end.

(** An update document is applied path by path, in order. *)
Definition apply_updates (us : list FieldUpdate) (r : HealthRecord)
  : HealthRecord :=
  fold_left (fun acc u => apply_update u acc) us r.

(** What [create] stores: the document with its trimmed string paths. *)
Definition schema_cast (r : HealthRecord) : HealthRecord :=
  set_title (trim (title r))
    (set_description (trim (description r))
       (set_patientName (trim (patientName r))
          (set_patientPhone (trim (patientPhone r)) r))).

End Model.

(** ** Values exchanged with the services, and the handler's variables *)

Module Runtime.
Import JS Model.

(** What [getCallStatus] returns (and the call data [processCallTranscript]
    takes).  [callDuration] and [metadata] only reach log lines and the
    analysis prompt and are left out; [cs_call_successful] is the truthiness
    of [callAnalysis?.call_successful]. *)
Record CallStatus := {
  cs_callId : jsstring;
  cs_status : jsstring;
  cs_startTime : option Z;
  cs_endTime : option Z;
  cs_transcript : option jsstring;
  cs_transcriptObject : option (list Turn);
  cs_recordingUrl : option jsstring;
  cs_call_successful : bool;
  cs_retellData : option RetellCall
}.

(** What [initiateVerificationCall] returns. *)
Record VerificationResult := {
  vr_callId : jsstring;
  vr_status : jsstring;
  vr_startTime : Z;
  vr_retellData : RetellCall
}.

(** What [processTranscript] returns. *)
Record Analysis := {
  an_corrections : list Correction;
  an_additionalInfo : jsstring;
  an_summary : jsstring;
  an_verificationComplete : bool;
  an_raw : jsstring
}.

(** What [processCallTranscript] returns, as far as the controller reads
    it. *)
Record TranscriptResult := {
  tr_success : bool;
  tr_transcriptAnalysis : option Analysis;
  tr_corrections : list Correction;
  tr_additionalInfo : jsstring;
  tr_verificationSuccessful : bool
}.

(** The variables of [uploadHealthRecord], under their own names.
    [healthRecord] holds the [_id] of the created document. *)
Module Vars.

Record t := {
  fileExtension : jsstring;
  parsedData : option ParsedData;
  documentAISource : jsstring;
  processingTimeline : Timeline;
  healthRecord : option positive;
  verificationResult : option VerificationResult;
  verificationCallId : option jsstring;
  callTranscript : option jsstring;
  callTranscriptObject : option (list Turn);
  callRecordingUrl : option jsstring;
  transcriptResult : option TranscriptResult;
  completeCallData : option CallStatus;
  startTime : Z;
  callEnded : bool;
  callStatus : option CallStatus;
  structuredData : option json;
  fileUrl : option jsstring
}.

Definition set_fileExtension (v : jsstring) (x : t) : t :=
  {| fileExtension := v; parsedData := parsedData x; documentAISource :=
     documentAISource x; processingTimeline := processingTimeline x;
     healthRecord := healthRecord x; verificationResult :=
     verificationResult x; verificationCallId := verificationCallId x;
     callTranscript := callTranscript x; callTranscriptObject :=
     callTranscriptObject x; callRecordingUrl := callRecordingUrl x;
     transcriptResult := transcriptResult x; completeCallData :=
     completeCallData x; startTime := startTime x; callEnded := callEnded x;
     callStatus := callStatus x; structuredData := structuredData x; fileUrl
     := fileUrl x |}.

Definition set_parsedData (v : option ParsedData) (x : t) : t :=
  {| fileExtension := fileExtension x; parsedData := v; documentAISource :=
     documentAISource x; processingTimeline := processingTimeline x;
     healthRecord := healthRecord x; verificationResult :=
     verificationResult x; verificationCallId := verificationCallId x;
     callTranscript := callTranscript x; callTranscriptObject :=
     callTranscriptObject x; callRecordingUrl := callRecordingUrl x;
     transcriptResult := transcriptResult x; completeCallData :=
     completeCallData x; startTime := startTime x; callEnded := callEnded x;
     callStatus := callStatus x; structuredData := structuredData x; fileUrl
     := fileUrl x |}.

Definition set_documentAISource (v : jsstring) (x : t) : t :=
  {| fileExtension := fileExtension x; parsedData := parsedData x;
     documentAISource := v; processingTimeline := processingTimeline x;
     healthRecord := healthRecord x; verificationResult :=
     verificationResult x; verificationCallId := verificationCallId x;
     callTranscript := callTranscript x; callTranscriptObject :=
     callTranscriptObject x; callRecordingUrl := callRecordingUrl x;
     transcriptResult := transcriptResult x; completeCallData :=
     completeCallData x; startTime := startTime x; callEnded := callEnded x;
     callStatus := callStatus x; structuredData := structuredData x; fileUrl
     := fileUrl x |}.

Definition set_processingTimeline (v : Timeline) (x : t) : t :=
  {| fileExtension := fileExtension x; parsedData := parsedData x;
     documentAISource := documentAISource x; processingTimeline := v;
     healthRecord := healthRecord x; verificationResult :=
     verificationResult x; verificationCallId := verificationCallId x;
     callTranscript := callTranscript x; callTranscriptObject :=
     callTranscriptObject x; callRecordingUrl := callRecordingUrl x;
     transcriptResult := transcriptResult x; completeCallData :=
     completeCallData x; startTime := startTime x; callEnded := callEnded x;
     callStatus := callStatus x; structuredData := structuredData x; fileUrl
     := fileUrl x |}.

Definition set_healthRecord (v : option positive) (x : t) : t :=
  {| fileExtension := fileExtension x; parsedData := parsedData x;
     documentAISource := documentAISource x; processingTimeline :=
     processingTimeline x; healthRecord := v; verificationResult :=
     verificationResult x; verificationCallId := verificationCallId x;
     callTranscript := callTranscript x; callTranscriptObject :=
     callTranscriptObject x; callRecordingUrl := callRecordingUrl x;
     transcriptResult := transcriptResult x; completeCallData :=
     completeCallData x; startTime := startTime x; callEnded := callEnded x;
     callStatus := callStatus x; structuredData := structuredData x; fileUrl
     := fileUrl x |}.

Definition set_verificationResult (v : option VerificationResult) (x : t)
  : t :=
  {| fileExtension := fileExtension x; parsedData := parsedData x;
     documentAISource := documentAISource x; processingTimeline :=
     processingTimeline x; healthRecord := healthRecord x;
     verificationResult := v; verificationCallId := verificationCallId x;
     callTranscript := callTranscript x; callTranscriptObject :=
     callTranscriptObject x; callRecordingUrl := callRecordingUrl x;
     transcriptResult := transcriptResult x; completeCallData :=
     completeCallData x; startTime := startTime x; callEnded := callEnded x;
     callStatus := callStatus x; structuredData := structuredData x; fileUrl
     := fileUrl x |}.

Definition set_verificationCallId (v : option jsstring) (x : t) : t :=
  {| fileExtension := fileExtension x; parsedData := parsedData x;
     documentAISource := documentAISource x; processingTimeline :=
     processingTimeline x; healthRecord := healthRecord x;
     verificationResult := verificationResult x; verificationCallId := v;
     callTranscript := callTranscript x; callTranscriptObject :=
     callTranscriptObject x; callRecordingUrl := callRecordingUrl x;
     transcriptResult := transcriptResult x; completeCallData :=
     completeCallData x; startTime := startTime x; callEnded := callEnded x;
     callStatus := callStatus x; structuredData := structuredData x; fileUrl
     := fileUrl x |}.

Definition set_callTranscript (v : option jsstring) (x : t) : t :=
  {| fileExtension := fileExtension x; parsedData := parsedData x;
     documentAISource := documentAISource x; processingTimeline :=
     processingTimeline x; healthRecord := healthRecord x;
     verificationResult := verificationResult x; verificationCallId :=
     verificationCallId x; callTranscript := v; callTranscriptObject :=
     callTranscriptObject x; callRecordingUrl := callRecordingUrl x;
     transcriptResult := transcriptResult x; completeCallData :=
     completeCallData x; startTime := startTime x; callEnded := callEnded x;
     callStatus := callStatus x; structuredData := structuredData x; fileUrl
     := fileUrl x |}.

Definition set_callTranscriptObject (v : option (list Turn)) (x : t) : t :=
  {| fileExtension := fileExtension x; parsedData := parsedData x;
     documentAISource := documentAISource x; processingTimeline :=
     processingTimeline x; healthRecord := healthRecord x;
     verificationResult := verificationResult x; verificationCallId :=
     verificationCallId x; callTranscript := callTranscript x;
     callTranscriptObject := v; callRecordingUrl := callRecordingUrl x;
     transcriptResult := transcriptResult x; completeCallData :=
     completeCallData x; startTime := startTime x; callEnded := callEnded x;
     callStatus := callStatus x; structuredData := structuredData x; fileUrl
     := fileUrl x |}.

Definition set_callRecordingUrl (v : option jsstring) (x : t) : t :=
  {| fileExtension := fileExtension x; parsedData := parsedData x;
     documentAISource := documentAISource x; processingTimeline :=
     processingTimeline x; healthRecord := healthRecord x;
     verificationResult := verificationResult x; verificationCallId :=
     verificationCallId x; callTranscript := callTranscript x;
     callTranscriptObject := callTranscriptObject x; callRecordingUrl := v;
     transcriptResult := transcriptResult x; completeCallData :=
     completeCallData x; startTime := startTime x; callEnded := callEnded x;
     callStatus := callStatus x; structuredData := structuredData x; fileUrl
     := fileUrl x |}.

Definition set_transcriptResult (v : option TranscriptResult) (x : t) : t :=
  {| fileExtension := fileExtension x; parsedData := parsedData x;
     documentAISource := documentAISource x; processingTimeline :=
     processingTimeline x; healthRecord := healthRecord x;
     verificationResult := verificationResult x; verificationCallId :=
     verificationCallId x; callTranscript := callTranscript x;
     callTranscriptObject := callTranscriptObject x; callRecordingUrl :=
     callRecordingUrl x; transcriptResult := v; completeCallData :=
     completeCallData x; startTime := startTime x; callEnded := callEnded x;
     callStatus := callStatus x; structuredData := structuredData x; fileUrl
     := fileUrl x |}.

Definition set_completeCallData (v : option CallStatus) (x : t) : t :=
  {| fileExtension := fileExtension x; parsedData := parsedData x;
     documentAISource := documentAISource x; processingTimeline :=
     processingTimeline x; healthRecord := healthRecord x;
     verificationResult := verificationResult x; verificationCallId :=
     verificationCallId x; callTranscript := callTranscript x;
     callTranscriptObject := callTranscriptObject x; callRecordingUrl :=
     callRecordingUrl x; transcriptResult := transcriptResult x;
     completeCallData := v; startTime := startTime x; callEnded := callEnded
     x; callStatus := callStatus x; structuredData := structuredData x;
     fileUrl := fileUrl x |}.

Definition set_startTime (v : Z) (x : t) : t :=
  {| fileExtension := fileExtension x; parsedData := parsedData x;
     documentAISource := documentAISource x; processingTimeline :=
     processingTimeline x; healthRecord := healthRecord x;
     verificationResult := verificationResult x; verificationCallId :=
     verificationCallId x; callTranscript := callTranscript x;
     callTranscriptObject := callTranscriptObject x; callRecordingUrl :=
     callRecordingUrl x; transcriptResult := transcriptResult x;
     completeCallData := completeCallData x; startTime := v; callEnded :=
     callEnded x; callStatus := callStatus x; structuredData :=
     structuredData x; fileUrl := fileUrl x |}.

Definition set_callEnded (v : bool) (x : t) : t :=
  {| fileExtension := fileExtension x; parsedData := parsedData x;
     documentAISource := documentAISource x; processingTimeline :=
     processingTimeline x; healthRecord := healthRecord x;
     verificationResult := verificationResult x; verificationCallId :=
     verificationCallId x; callTranscript := callTranscript x;
     callTranscriptObject := callTranscriptObject x; callRecordingUrl :=
     callRecordingUrl x; transcriptResult := transcriptResult x;
     completeCallData := completeCallData x; startTime := startTime x;
     callEnded := v; callStatus := callStatus x; structuredData :=
     structuredData x; fileUrl := fileUrl x |}.

Definition set_callStatus (v : option CallStatus) (x : t) : t :=
  {| fileExtension := fileExtension x; parsedData := parsedData x;
     documentAISource := documentAISource x; processingTimeline :=
     processingTimeline x; healthRecord := healthRecord x;
     verificationResult := verificationResult x; verificationCallId :=
     verificationCallId x; callTranscript := callTranscript x;
     callTranscriptObject := callTranscriptObject x; callRecordingUrl :=
     callRecordingUrl x; transcriptResult := transcriptResult x;
     completeCallData := completeCallData x; startTime := startTime x;
     callEnded := callEnded x; callStatus := v; structuredData :=
     structuredData x; fileUrl := fileUrl x |}.

Definition set_structuredData (v : option json) (x : t) : t :=
  {| fileExtension := fileExtension x; parsedData := parsedData x;
     documentAISource := documentAISource x; processingTimeline :=
     processingTimeline x; healthRecord := healthRecord x;
     verificationResult := verificationResult x; verificationCallId :=
     verificationCallId x; callTranscript := callTranscript x;
     callTranscriptObject := callTranscriptObject x; callRecordingUrl :=
     callRecordingUrl x; transcriptResult := transcriptResult x;
     completeCallData := completeCallData x; startTime := startTime x;
     callEnded := callEnded x; callStatus := callStatus x; structuredData :=
     v; fileUrl := fileUrl x |}.

Definition set_fileUrl (v : option jsstring) (x : t) : t :=
  {| fileExtension := fileExtension x; parsedData := parsedData x;
     documentAISource := documentAISource x; processingTimeline :=
     processingTimeline x; healthRecord := healthRecord x;
     verificationResult := verificationResult x; verificationCallId :=
     verificationCallId x; callTranscript := callTranscript x;
     callTranscriptObject := callTranscriptObject x; callRecordingUrl :=
     callRecordingUrl x; transcriptResult := transcriptResult x;
     completeCallData := completeCallData x; startTime := startTime x;
     callEnded := callEnded x; callStatus := callStatus x; structuredData :=
     structuredData x; fileUrl := v |}.

End Vars.

(** Calls that leave the handler, in the order they are made. *)
Inductive Event :=
| E_parsePdfDocument
| E_parseHandwrittenDocument
| E_initiateVerificationCall (phone : jsstring)
| E_setTimeout (ms : Z) (started : Z)
| E_getCallStatus (id : jsstring)
| E_processHealthRecord
| E_processCallTranscript
| E_uploadFileToS3
| E_unlink
| E_create (r : HealthRecord)
| E_findByIdAndUpdate (id : positive) (u : list FieldUpdate)
| E_findById (id : positive).

(** The state a handler runs in: the Record Store, the wall clock (ms), the
    calls made so far, how many status requests and store operations the
    environment has answered, and the handler's variables. *)
Record World := {
  store : gmap positive HealthRecord;
  clock : Z;
  trace : list Event;
  fetched : nat;
  mongo_ops : nat;
  vars : Vars.t
}.

Definition with_store (v : gmap positive HealthRecord) (w : World) : World :=
  {| store := v; clock := clock w; trace := trace w; fetched := fetched w;
     mongo_ops := mongo_ops w; vars := vars w |}.

Definition with_clock (v : Z) (w : World) : World :=
  {| store := store w; clock := v; trace := trace w; fetched := fetched w;
     mongo_ops := mongo_ops w; vars := vars w |}.

Definition with_trace (v : list Event) (w : World) : World :=
  {| store := store w; clock := clock w; trace := v; fetched := fetched w;
     mongo_ops := mongo_ops w; vars := vars w |}.

Definition with_fetched (v : nat) (w : World) : World :=
  {| store := store w; clock := clock w; trace := trace w; fetched := v;
     mongo_ops := mongo_ops w; vars := vars w |}.

Definition with_mongo_ops (v : nat) (w : World) : World :=
  {| store := store w; clock := clock w; trace := trace w; fetched :=
     fetched w; mongo_ops := v; vars := vars w |}.

Definition with_vars (v : Vars.t) (w : World) : World :=
  {| store := store w; clock := clock w; trace := trace w; fetched :=
     fetched w; mongo_ops := mongo_ops w; vars := v |}.

(** One answer of the call platform to a status request: how late the
    poll's timer fires, how long the request takes, and the reply ([None]
    when the request fails). *)
Record PollReply := {
  timer_lag : N;
  latency : N;
  reply : option RetellCall
}.

(** The collaborators.  Each oracle is the answer of an external system;
    [None] is a failed request.
    - [fs_uploads_dir]: the uploads directory exists or can be created;
      [fs_file_exists]: the uploaded file is on disk;
    - [documentAI_process]: the Document AI engine on the uploaded file
      (reading the file and initialising the client included);
    - [retell_update_*], [retell_create_call]: the three agent
      configuration writes and the call creation;
    - [retell_get_call n]: the answer to the [n]-th status request;
    - [groq_api_key]: whether GROQ_API_KEY is set; [groq_structure]: the
      content of the structuring reply; [groq_analyse t]: the content of the
      analysis reply for transcript [t];
    - [s3_upload]: the location S3 returns;
    - [mongo_ok n]: whether the [n]-th store operation succeeds (it fails on
      a validation or a connection error). *)
Record Env := {
  fs_uploads_dir : bool;
  fs_file_exists : bool;
  documentAI_process : option ParsedData;
  retell_update_voice : bool;
  retell_update_prompt : bool;
  retell_update_duration : bool;
  retell_create_call : option RetellCall;
  retell_get_call : nat -> PollReply;
  groq_api_key : bool;
  groq_structure : option jsstring;
  groq_analyse : jsstring -> option jsstring;
  s3_upload : option jsstring;
  mongo_ok : nat -> bool
}.

(** ** The handler monad: state, exceptions, and fuel for the one loop *)

Inductive Outcome (A : Type) :=
| Ok (a : A)
| Throw (message : jsstring)
| Diverge.
Arguments Ok {A} a.
Arguments Throw {A} message.
Arguments Diverge {A}.

Definition M (A : Type) : Type := World -> Outcome A * World.

Definition ret {A} (a : A) : M A := fun w => (Ok a, w).

Definition bind {A B} (m : M A) (k : A -> M B) : M B :=
  fun w =>
    match m w with
    | (Ok a, w') => k a w'
    | (Throw e, w') => (Throw e, w')
    | (Diverge, w') => (Diverge, w')
    end.

Definition throw {A} (e : jsstring) : M A := fun w => (Throw e, w).

Definition diverge {A} : M A := fun w => (Diverge, w).

(** [try { m } catch (e) { h e }]: the handler runs in the state the
    exception left, so assignments made before the throw are kept. *)
Definition try_catch {A} (m : M A) (h : jsstring -> M A) : M A :=
  fun w =>
    match m w with
    | (Ok a, w') => (Ok a, w')
    | (Throw e, w') => h e w'
    | (Diverge, w') => (Diverge, w')
    end.

Definition gets {A} (f : World -> A) : M A := fun w => (Ok (f w), w).

Definition modify (f : World -> World) : M unit := fun w => (Ok tt, f w).

Declare Scope handler_scope.
Delimit Scope handler_scope with handler.
Notation "'let*' x ':=' m 'in' k" := (bind m (fun x => k))
  (at level 10, x name, m at level 100, k at level 200) : handler_scope.
Notation "m1 ';;' m2" := (bind m1 (fun _ => m2))
  (at level 100, m2 at level 200, right associativity) : handler_scope.
Local Open Scope handler_scope.

Definition emit (e : Event) : M unit :=
  modify (fun w => with_trace (trace w ++ [e]) w).

(** [Date.now()] and [new Date()]. *)
Definition now : M Z := gets clock.

Definition elapse (ms : Z) : M unit :=
  modify (fun w => with_clock (clock w + ms) w).

(** Reading and assigning a variable of the handler. *)
Definition var {A} (f : Vars.t -> A) : M A := gets (fun w => f (vars w)).

Definition assign (f : Vars.t -> Vars.t) : M unit :=
  modify (fun w => with_vars (f (vars w)) w).

Definition on_timeline (f : Timeline -> Timeline) : M unit :=
  assign (fun x => Vars.set_processingTimeline (f (Vars.processingTimeline x)) x).

Definition when (b : bool) (m : M unit) : M unit := if b then m else ret tt.

(** ** The Record Store *)

Section Store.
Context (env : Env).

(** Every store operation consumes one answer of [mongo_ok]. *)
Definition mongo_step : M unit :=
  fun w =>
    let w' := with_mongo_ops (S (mongo_ops w)) w in
    if mongo_ok env (mongo_ops w) then (Ok tt, w')
    else (Throw (js "MongoError"), w').

(** [HealthRecord.create(doc)]: returns the new document's [_id]. *)
Definition create (r : HealthRecord) : M positive :=
  emit (E_create r) ;;
  mongo_step ;;
  let* id := gets (fun w => fresh (dom (store w))) in
  modify (fun w => with_store (<[id := schema_cast r]> (store w)) w) ;;
  ret id.

(** [HealthRecord.findByIdAndUpdate(id, update)]. *)
Definition findByIdAndUpdate (id : positive) (u : list FieldUpdate) : M unit :=
  emit (E_findByIdAndUpdate id u) ;;
  mongo_step ;;
  modify (fun w => with_store (alter (apply_updates u) id (store w)) w).

(** [HealthRecord.findById(id)]. *)
Definition findById (id : positive) : M (option HealthRecord) :=
  emit (E_findById id) ;;
  mongo_step ;;
  gets (fun w => store w !! id).

End Store.

End Runtime.

(** ** services/documentAIService.js *)

Module documentAIService.
Import JS Model Runtime.
Local Open Scope handler_scope.

Definition nl : jsstring := [10%N].

Definition getMockPdfData : ParsedData :=
  {| text := js "This is mock parsed PDF content. In a real implementation, this would be the extracted text from the document.";
     pages :=
       [ {| pageNumber := 1;
            page_text :=
              js "Patient Name: John Doe" ++ nl ++ js "DOB: 01/15/1980" ++ nl
              ++ js "Medical Record #: MRN12345" ++ nl
              ++ js "Doctor: Dr. Jane Smith" ++ nl
              ++ js "Diagnosis: Hypertension" ++ nl
              ++ js "Medications: Lisinopril 10mg daily" |} ] |}.

Definition getMockHandwrittenData : ParsedData :=
  {| text := js "This is mock parsed handwritten content. In a real implementation, this would be the extracted text from the document.";
     pages :=
       [ {| pageNumber := 1;
            page_text :=
              js "Patient: Sarah Johnson" ++ nl ++ js "Date: 03/10/2023" ++ nl
              ++ js "Chief Complaint: Headache" ++ nl
              ++ js "Vital Signs: BP 120/80, HR 72" ++ nl
              ++ js "Assessment: Migraine" ++ nl
              ++ js "Plan: Sumatriptan 50mg as needed" |} ] |}.

Section WithEnv.
Context (env : Env).

(** Everything inside the [try] of a parse function up to the engine's
    answer: the file check, the client initialisation and
    [processDocument]; any of them may throw. *)
Definition processDocument : M ParsedData :=
  match documentAI_process env with
  | Some d => ret d
  | None => throw (js "Document AI error")
  end.

(** [parsePdfDocument]: the [catch] returns the mock data, so the function
    never throws. *)
Definition parsePdfDocument : M ParsedData :=
  emit E_parsePdfDocument ;;
  try_catch processDocument (fun _ => ret getMockPdfData).

(** [parseHandwrittenDocument]: as above, with the MIME type chosen from
    the extension inside the [try]. *)
Definition parseHandwrittenDocument (fileExtension : jsstring) : M ParsedData :=
  emit E_parseHandwrittenDocument ;;
  try_catch
    (if bool_decide (fileExtension = js ".png")
        || bool_decide (fileExtension = js ".jpg")
        || bool_decide (fileExtension = js ".jpeg")
     then processDocument
     else throw (js "Unsupported image format"))
    (fun _ => ret getMockHandwrittenData).

End WithEnv.
End documentAIService.

(** ** The Groq service: [processHealthRecord], [getMockStructuredData],
       [processTranscript] *)

Module groqService.
Import JS Model Runtime.
Local Open Scope handler_scope.

(** [patientContext], as the controller builds it. *)
Record PatientContext := {
  ctx_patientName : jsstring;
  ctx_patientPhone : jsstring;
  ctx_documentType : jsstring;
  ctx_description : jsstring
}.

Definition str (s : jsstring) : json := JStr s.

Definition getMockStructuredData (patientContext : PatientContext) : json :=
  JObj
    [ (js "patient",
       JObj [ (js "name", str (or_else (ctx_patientName patientContext) (js "John Doe")));
              (js "dateOfBirth", str (js "1980-05-15"));
              (js "medicalRecordNumber", str (js "MRN12345678"));
              (js "phone", str (or_else (ctx_patientPhone patientContext) (js "555-123-4567"))) ]);
      (js "provider",
       JObj [ (js "name", str (js "Dr. Sarah Johnson"));
              (js "specialty", str (js "Internal Medicine"));
              (js "clinic", str (js "HealthCare Medical Center")) ]);
      (js "diagnosis",
       JObj [ (js "primary", str (js "Essential Hypertension (I10)"));
              (js "secondary",
               JArr [ str (js "Hyperlipidemia (E78.5)");
                      str (js "Type 2 Diabetes (E11.9)") ]) ]);
      (js "medications",
       JArr [ JObj [ (js "name", str (js "Lisinopril"));
                     (js "dosage", str (js "10mg"));
                     (js "frequency", str (js "once daily")) ];
              JObj [ (js "name", str (js "Atorvastatin"));
                     (js "dosage", str (js "20mg"));
                     (js "frequency", str (js "once daily at bedtime")) ] ]);
      (js "treatmentPlan",
       str (js "Continue current medications. Low sodium diet. Exercise 30 minutes daily. Follow up in 3 months."));
      (js "labResults",
       JArr [ JObj [ (js "test", str (js "HbA1c"));
                     (js "value", str (js "6.8%"));
                     (js "normalRange", str (js "4.0-5.6%"));
                     (js "date", str (js "2023-09-15")) ];
              JObj [ (js "test", str (js "Total Cholesterol"));
                     (js "value", str (js "195 mg/dL"));
                     (js "normalRange", str (js "<200 mg/dL"));
                     (js "date", str (js "2023-09-15")) ] ]);
      (js "vitalSigns",
       JObj [ (js "bloodPressure", str (js "138/85 mmHg"));
              (js "heartRate", str (js "72 bpm"));
              (js "temperature", str (js "98.6" ++ [194%N; 176%N] ++ js "F"));
              (js "height", str (js "5'10" ++ [34%N]));
              (js "weight", str (js "185 lbs")) ]);
      (js "allergies", JArr [ str (js "Penicillin"); str (js "Sulfa drugs") ]);
      (js "medicalHistory",
       str (js "Patient has a history of hypertension for 5 years and hyperlipidemia for 3 years. Family history of cardiovascular disease.")) ].

(** *** Payload extraction in [processHealthRecord]

    The body of the inner [try]: the substring from the first left brace to
    the last right brace is parsed when both exist in that order, the whole
    content otherwise.  [None] stands for the SyntaxError [JSON.parse]
    throws. *)
Definition left_brace : N := 123.
Definition right_brace : N := 125.

Definition extract_payload (responseContent : jsstring) : option json :=
  let jsonStart := indexOf left_brace responseContent in
  let jsonEnd := lastIndexOf right_brace responseContent + 1 in
  if (jsonStart >=? 0) && (jsonEnd >? jsonStart)
  then JSON_parse (substring responseContent jsonStart jsonEnd)
  else JSON_parse responseContent.

(** The inner [try] with its [catch (parseError)]. *)
Definition parse_response (responseContent : jsstring) : json :=
  match extract_payload responseContent with
  | Some v => v
  | None =>
      JObj [ (js "error", str (js "Failed to parse AI response into structured data"));
             (js "rawResponse", str responseContent) ]
  end.

(** *** Payload extraction in [processTranscript]

    [JSON.parse(content)] first; when it throws, the match of
    [/\{[\s\S]*\}/] is parsed.  The pattern is greedy and matches any code
    unit, so its match runs from the first left brace to the last right
    brace after it. *)
Definition match_braces (content : jsstring) : option jsstring :=
  let i := indexOf left_brace content in
  let j := lastIndexOf right_brace content in
  if (i >=? 0) && (j >? i) then Some (substring content i (j + 1)) else None.

Definition extract_analysis (content : jsstring) : option json :=
  match JSON_parse content with
  | Some v => Some v
  | None =>
      match match_braces content with
      | Some jsonMatch => JSON_parse jsonMatch
      | None => None
      end
  end.

(** Reading the parsed reply at the shape the prompt prescribes.  A string
    property that is absent or not a string reads as the empty string, and a
    [corrections] property that is not an array as no corrections. *)
Definition string_of (v : option json) : jsstring :=
  match v with
  | Some (JStr s) => s
  | _ => []
  end.

Definition correction_of (c : json) : Correction :=
  {| field := string_of (member (js "field") c);
     incorrect := string_of (member (js "incorrect") c);
     correct := string_of (member (js "correct") c) |}.

Definition corrections_of (v : option json) : list Correction :=
  match v with
  | Some (JArr items) => map correction_of items
  | _ => []
  end.

(** The object [processTranscript] returns on success; reading a property
    of [null] throws. *)
Definition analysis_of (content : jsstring) (structuredResponse : json)
  : option Analysis :=
  match structuredResponse with
  | JNull => None
  | _ =>
      Some {| an_corrections :=
                corrections_of (member (js "corrections") structuredResponse);
              an_additionalInfo :=
                string_of (member (js "additionalInfo") structuredResponse);
              an_summary := string_of (member (js "summary") structuredResponse);
              an_verificationComplete :=
                json_truthy (member (js "verificationComplete") structuredResponse);
              an_raw := content |}
  end.

Definition failed_analysis (content : jsstring) : Analysis :=
  {| an_corrections := [];
     an_additionalInfo := js "Error: Could not parse transcript analysis";
     an_summary := js "Verification analysis failed";
     an_verificationComplete := false;
     an_raw := content |}.

(** The inner [try] of [processTranscript] with its [catch (parseError)]. *)
Definition analyse (content : jsstring) : Analysis :=
  match extract_analysis content with
  | Some structuredResponse =>
      match analysis_of content structuredResponse with
      | Some a => a
      | None => failed_analysis content
      end
  | None => failed_analysis content
  end.

Section WithEnv.
Context (env : Env).

(** The chat-completion request of [processHealthRecord]. *)
Definition structuring_request : M jsstring :=
  match groq_structure env with
  | Some content => ret content
  | None => throw (js "GROQ API error")
  end.

(** [processHealthRecord]; the document text only enters the prompt.
    Without an API key, and on any request error,
    the mock record is returned; an unparsable reply yields the error
    object.  No path throws. *)
Definition processHealthRecord (patientContext : PatientContext) : M json :=
  emit E_processHealthRecord ;;
  try_catch
    (if negb (groq_api_key env) then ret (getMockStructuredData patientContext)
     else
       try_catch
         (let* responseContent := structuring_request in
          ret (parse_response responseContent))
         (fun _ => ret (getMockStructuredData patientContext)))
    (fun _ => ret (getMockStructuredData patientContext)).

(** [processTranscript]: a request error is rethrown; a reply that cannot
    be parsed yields the failed analysis. *)
Definition processTranscript (transcript : jsstring) : M Analysis :=
  match groq_analyse env transcript with
  | None => throw (js "GROQ API error")
  | Some content => ret (analyse content)
  end.

End WithEnv.
End groqService.

(** ** services/retellService.js and services/s3Service.js *)

Module retellService.
Import JS Model Runtime.
Local Open Scope handler_scope.

(** [x ? new Date(x).toISOString() : null] on a time stamp: 0 is falsy. *)
Definition timestamp (t : option Z) : option Z :=
  match t with
  | Some x => if x =? 0 then None else Some x
  | None => None
  end.

Definition nonempty (s : option jsstring) : option jsstring :=
  match s with
  | Some x => if truthy x then Some x else None
  | None => None
  end.

(** ['ended', 'error'].includes(status) *)
Definition terminal (status : jsstring) : bool :=
  bool_decide (status ∈ [js "ended"; js "error"]).

(** [callData.transcriptObject || callData.transcript] as a condition: an
    array is truthy even when empty, a string only when non-empty. *)
Definition has_transcript (transcriptObject : option (list Turn))
    (transcript : option jsstring) : bool :=
  match transcriptObject with
  | Some _ => true
  | None =>
      match transcript with
      | Some s => truthy s
      | None => false
      end
  end.

(** The conversation text built from the speaker turns. *)
Definition format_turn (entry : Turn) : jsstring :=
  (if bool_decide (role entry = js "agent") then js "Luna" else js "Patient")
  ++ js ": " ++ turn_text entry.

Fixpoint join (sep : jsstring) (l : list jsstring) : jsstring :=
  match l with
  | [] => []
  | [x] => x
  | x :: r => x ++ sep ++ join sep r
  end.

(** The [result] object of [getCallStatus] for a reply. *)
Definition call_status_of (data : RetellCall) : CallStatus :=
  let ended := terminal (call_status data) in
  {| cs_callId := call_id data;
     cs_status := call_status data;
     cs_startTime := timestamp (start_timestamp data);
     cs_endTime := timestamp (end_timestamp data);
     cs_transcript := if ended then nonempty (rc_transcript data) else None;
     cs_transcriptObject := if ended then transcript_object data else None;
     cs_recordingUrl := nonempty (recording_url data);
     cs_call_successful := call_successful data;
     cs_retellData := Some data |}.

(** [transcriptForProcessing]: the formatted turns when there is a
    structured transcript, the flat transcript otherwise. *)
Definition transcriptForProcessing (callData : CallStatus) : jsstring :=
  match cs_transcriptObject callData with
  | Some turns => join [10; 10]%N (map format_turn turns)
  | None => default [] (cs_transcript callData)
  end.

Definition failed_transcript : TranscriptResult :=
  {| tr_success := false; tr_transcriptAnalysis := None; tr_corrections := [];
     tr_additionalInfo := []; tr_verificationSuccessful := false |}.

Section WithEnv.
Context (env : Env).

Definition request (ok : bool) : M unit :=
  if ok then ret tt else throw (js "Request failed").

(** [initiateVerificationCall]: the phone check, the three configuration
    writes (voice, prompt, three-minute cap), then the call creation.  The
    [catch] rethrows. *)
Definition initiateVerificationCall (patientName patientPhone : jsstring)
  : M VerificationResult :=
  emit (E_initiateVerificationCall patientPhone) ;;
  if negb (truthy patientPhone)
  then throw (js "Patient phone number is required for verification call")
  else
    request (retell_update_voice env) ;;
    request (retell_update_prompt env) ;;
    request (retell_update_duration env) ;;
    match retell_create_call env with
    | None => throw (js "Request failed")
    | Some data =>
        let* t := now in
        ret {| vr_callId := call_id data;
               vr_status := or_else (call_status data) (js "registered");
               vr_startTime := default t (timestamp (start_timestamp data));
               vr_retellData := data |}
    end.

(** [getCallStatus]: one status request; the transcript fields are filled
    only for an ended or failed call.  Errors are rethrown with a Retell
    prefix. *)
Definition getCallStatus (callId : jsstring) : M CallStatus :=
  emit (E_getCallStatus callId) ;;
  if negb (truthy callId) then throw (js "Retell API error: Call ID is required")
  else
    let* n := gets fetched in
    modify (with_fetched (S n)) ;;
    elapse (Z.of_N (latency (retell_get_call env n))) ;;
    match reply (retell_get_call env n) with
    | None => throw (js "Retell API error")
    | Some data => ret (call_status_of data)
    end.

(** [processCallTranscript]: the structured transcript is preferred over
    the flat one; every failure is turned into an unsuccessful result with
    no corrections.  [result.verificationSuccessful] is not a property of
    what [processTranscript] returns, so the verdict is the call
    analysis's. *)
Definition processCallTranscript (callData : CallStatus) : M TranscriptResult :=
  emit E_processCallTranscript ;;
  try_catch
    (if negb (has_transcript (cs_transcriptObject callData) (cs_transcript callData))
     then ret failed_transcript
     else
       let* result := groqService.processTranscript env (transcriptForProcessing callData) in
       ret {| tr_success := true;
              tr_transcriptAnalysis := Some result;
              tr_corrections := an_corrections result;
              tr_additionalInfo := an_additionalInfo result;
              tr_verificationSuccessful := cs_call_successful callData |})
    (fun _ => ret failed_transcript).

End WithEnv.
End retellService.

Module s3Service.
Import JS Model Runtime.
Local Open Scope handler_scope.

Section WithEnv.
Context (env : Env).

(** [uploadFileToS3]: on success the local file is deleted and the
    location returned; errors are rethrown. *)
Definition uploadFileToS3 : M jsstring :=
  emit E_uploadFileToS3 ;;
  match s3_upload env with
  | Some location => emit E_unlink ;; ret location
  | None => throw (js "S3 upload failed")
  end.

End WithEnv.
End s3Service.

(** ** controllers/healthRecordController.js *)

Module controller.
Import JS Model Runtime.
Local Open Scope handler_scope.

(** [req.file], with the two values the handler derives from it through
    Node's [path] module: [path.extname(originalname).toLowerCase()] and
    [path.basename(path)]. *)
Record File := {
  originalname : jsstring;
  mimetype : jsstring;
  filesize : Z;
  extname : jsstring;
  basename : jsstring
}.

(** The request: the uploaded file, the body's fields ([None] when the
    property is absent), the authenticated user and the [:id] parameter. *)
Module Req.
Record t := {
  file : option File;
  title : option jsstring;
  description : option jsstring;
  documentType : option jsstring;
  patientName : option jsstring;
  patientPhone : option jsstring;
  user_id : N;
  params_id : positive
}.
End Req.

(** What a handler answers: the status code with 201's record view, the
    status endpoint's record view, or an error message. *)
Inductive Response :=
| Created (id : positive) (record : HealthRecord) (textPreview : jsstring)
| Status (record : HealthRecord)
| Error (code : Z) (message : jsstring).

Definition maxWaitTime : Z := 3 * 60 * 1000.

(** [patientPhone && patientPhone.trim() !== ''] *)
Definition phone_provided (patientPhone : option jsstring) : bool :=
  match patientPhone with
  | Some p => truthy p && truthy (trim p)
  | None => false
  end.

(** [if (verificationCallId)] *)
Definition call_started (verificationCallId : option jsstring) : bool :=
  match verificationCallId with
  | Some c => truthy c
  | None => false
  end.

Definition init_timeline (t : Z) : Timeline :=
  {| documentAI_startTime := Some t; documentAI_endTime := None;
     documentAI_source := js "google";
     verification_startTime := None; verification_endTime := None;
     verification_status := js "not_initiated"; verification_error := None;
     groqAI_startTime := None; groqAI_endTime := None;
     groqAI_source := js "groq";
     s3Upload_startTime := None; s3Upload_endTime := None |}.

(** The handler's variables as declared, before any stage runs. *)
Definition init_vars (fileExtension : jsstring) (t : Z) : Vars.t :=
  {| Vars.fileExtension := fileExtension;
     Vars.parsedData := None;
     Vars.documentAISource := js "google";
     Vars.processingTimeline := init_timeline t;
     Vars.healthRecord := None;
     Vars.verificationResult := None;
     Vars.verificationCallId := None;
     Vars.callTranscript := None;
     Vars.callTranscriptObject := None;
     Vars.callRecordingUrl := None;
     Vars.transcriptResult := None;
     Vars.completeCallData := None;
     Vars.startTime := 0;
     Vars.callEnded := false;
     Vars.callStatus := None;
     Vars.structuredData := None;
     Vars.fileUrl := None |}.

(** [['patientName', 'patientPhone'].includes(field)] *)
Definition critical (field : jsstring) : bool :=
  bool_decide (field ∈ [js "patientName"; js "patientPhone"]).

(** [{ [correction.field]: correction.correct }] for a critical field. *)
Definition field_update (c : Correction) : FieldUpdate :=
  if bool_decide (field c = js "patientName")
  then U_patientName (correct c)
  else U_patientPhone (correct c).

(** The mirror of a name or phone correction into
    [structuredData.patient], when both are truthy. *)
Definition mirror (c : Correction) (structuredData : option json)
  : option json :=
  match structuredData with
  | Some sd =>
      if json_truthy (Some sd) && json_truthy (member (js "patient") sd) then
        match member (js "patient") sd with
        | Some patient =>
            if bool_decide (field c = js "patientName") then
              Some (assignMember (js "patient")
                      (assignMember (js "name") (JStr (correct c)) patient) sd)
            else if bool_decide (field c = js "patientPhone") then
              Some (assignMember (js "patient")
                      (assignMember (js "phone") (JStr (correct c)) patient) sd)
            else Some sd
        | None => Some sd
        end
      else Some sd
  | None => None
  end.

(** The fallback object of the structuring [catch]. *)
Definition fallback_structuredData (req : Req.t) (parsedData : option ParsedData)
  : json :=
  JObj
    [ (js "patient",
       JObj [ (js "name", JStr (or_default (Req.patientName req) (js "Unknown Patient")));
              (js "phone", JStr (or_default (Req.patientPhone req) (js "Not provided"))) ]);
      (js "documentType", JStr (or_default (Req.documentType req) (js "Medical Record")));
      (js "description", JStr (or_default (Req.description req) []));
      (js "extractedText",
       JStr (or_else (default [] (text <$> parsedData)) (js "No text extracted")));
      (js "error", JStr (js "Failed to process with GROQ AI")) ].

Fixpoint for_each {A} (l : list A) (body : A -> M unit) : M unit :=
  match l with
  | [] => ret tt
  | a :: r => body a ;; for_each r body
  end.

Section WithEnv.
Context (env : Env).

(** [await new Promise(resolve => setTimeout(resolve, ms))]: the timer
    fires [ms] after it is set, or later. *)
Definition setTimeout (ms : Z) : M unit :=
  let* t := now in
  emit (E_setTimeout ms t) ;;
  let* n := gets fetched in
  elapse (ms + Z.of_N (timer_lag (retell_get_call env n))).

(** *** Extraction (the first inner [try]); [false] when the handler
        answers 400 for an unsupported extension. *)
Definition parse_file : M bool :=
  let* fileExtension := var Vars.fileExtension in
  try_catch
    (if bool_decide (fileExtension = js ".pdf") then
       let* d := documentAIService.parsePdfDocument env in
       assign (Vars.set_parsedData (Some d)) ;;
       ret true
     else if bool_decide (fileExtension ∈ [js ".jpg"; js ".jpeg"; js ".png"]) then
       let* d := documentAIService.parseHandwrittenDocument env fileExtension in
       assign (Vars.set_parsedData (Some d)) ;;
       ret true
     else
       emit E_unlink ;;
       ret false)
    (fun _ =>
       assign (Vars.set_documentAISource (js "mock")) ;;
       assign (Vars.set_parsedData
                 (Some (if bool_decide (fileExtension = js ".pdf")
                        then documentAIService.getMockPdfData
                        else documentAIService.getMockHandwrittenData))) ;;
       ret true).

Definition close_documentAI : M unit :=
  let* t := now in
  on_timeline (set_documentAI_endTime (Some t)) ;;
  let* documentAISource := var Vars.documentAISource in
  on_timeline (set_documentAI_source documentAISource).

(** *** Creation of the minimal record *)
Definition create_record (req : Req.t) (f : File) : M positive :=
  let* x := gets vars in
  match Vars.parsedData x with
  | None => throw (js "TypeError")
  | Some parsedData =>
      let* id :=
        create env
          {| user := Req.user_id req;
             title := or_default (Req.title req) (js "Untitled Health Record");
             description := or_default (Req.description req) [];
             documentType := or_default (Req.documentType req) (js "Medical Report");
             patientName := or_default (Req.patientName req) [];
             patientPhone := or_default (Req.patientPhone req) [];
             fileUrl := None;
             filePath := None;
             extractedData := Some parsedData;
             structuredData := None;
             processingMetadata :=
               {| fileInfo :=
                    {| originalName := originalname f; size := filesize f;
                       mimeType := mimetype f;
                       extension := Vars.fileExtension x |};
                  timeline := Vars.processingTimeline x;
                  extractedTextLength := Z.of_nat (length (text parsedData));
                  pageCount := Z.of_nat (length (pages parsedData));
                  storageLocation := None |};
             verificationCall := default_verificationCall;
             processingStatus := document_ai_complete |} in
      assign (Vars.set_healthRecord (Some id)) ;;
      ret id
  end.

(** *** Step 1: the verification call, when a phone number is given *)
Definition initiate (req : Req.t) (id : positive) : M unit :=
  when (phone_provided (Req.patientPhone req))
    (try_catch
       (let* t := now in
        on_timeline (set_verification_startTime (Some t)) ;;
        let* verificationResult :=
          retellService.initiateVerificationCall env
            (or_default (Req.patientName req) (js "Patient"))
            (default [] (Req.patientPhone req)) in
        assign (Vars.set_verificationResult (Some verificationResult)) ;;
        assign (Vars.set_verificationCallId (Some (vr_callId verificationResult))) ;;
        findByIdAndUpdate env id
          [ U_vc_callId (vr_callId verificationResult);
            U_vc_status (vr_status verificationResult);
            U_vc_startTime (vr_startTime verificationResult);
            U_vc_metadata (vr_retellData verificationResult);
            U_processingStatus verification_initiated ] ;;
        on_timeline (set_verification_status (vr_status verificationResult)))
       (fun message =>
          on_timeline (set_verification_status (js "error")) ;;
          on_timeline (set_verification_error (Some message)))).

(** *** Step 2: the bounded poll *)

(** The transcript fields of a status answer are copied into the handler's
    variables. *)
Definition keep_transcript (callStatus : CallStatus) : M unit :=
  assign (Vars.set_callTranscript (cs_transcript callStatus)) ;;
  assign (Vars.set_callTranscriptObject (cs_transcriptObject callStatus)) ;;
  assign (Vars.set_callRecordingUrl (cs_recordingUrl callStatus)).

(** The body of the [while]: wait five seconds, then one status request
    inside a [try] whose [catch] only logs. *)
Definition poll_iteration (id : positive) (verificationCallId : jsstring)
  : M unit :=
  setTimeout 5000 ;;
  try_catch
    (let* callStatus := retellService.getCallStatus env verificationCallId in
     assign (Vars.set_callStatus (Some callStatus)) ;;
     when (retellService.terminal (cs_status callStatus))
       (assign (Vars.set_callEnded true) ;;
        assign (Vars.set_completeCallData (Some callStatus)) ;;
        when (retellService.has_transcript (cs_transcriptObject callStatus)
                (cs_transcript callStatus))
          (keep_transcript callStatus ;;
           let* t := now in
           findByIdAndUpdate env id
             [ U_vc_endTime (default t (cs_endTime callStatus));
               U_vc_status (cs_status callStatus);
               U_vc_transcript (cs_transcript callStatus);
               U_vc_transcriptObject (cs_transcriptObject callStatus);
               U_vc_recordingUrl (cs_recordingUrl callStatus);
               U_processingStatus verification_ended ])))
    (fun _ => ret tt).

(** [while (!callEnded && (Date.now() - startTime) < maxWaitTime)] *)
Fixpoint poll_while (fuel : nat) (id : positive) (verificationCallId : jsstring)
  : M unit :=
  let* callEnded := var Vars.callEnded in
  let* startTime := var Vars.startTime in
  let* t := now in
  if negb callEnded && (t - startTime <? maxWaitTime) then
    match fuel with
    | O => diverge
    | S fuel' =>
        poll_iteration id verificationCallId ;;
        poll_while fuel' id verificationCallId
    end
  else ret tt.

(** After the loop: when no answer was terminal, the timeline is marked
    and one final status request is made. *)
Definition final_check (verificationCallId : jsstring) : M unit :=
  let* callEnded := var Vars.callEnded in
  when (negb callEnded)
    (on_timeline (set_verification_status (js "timeout")) ;;
     try_catch
       (let* callStatus := retellService.getCallStatus env verificationCallId in
        assign (Vars.set_callStatus (Some callStatus)) ;;
        assign (Vars.set_completeCallData (Some callStatus)) ;;
        when (retellService.has_transcript (cs_transcriptObject callStatus)
                (cs_transcript callStatus))
          (keep_transcript callStatus))
       (fun _ => ret tt)).

(** The number of iterations the loop is given: ceiling over interval. *)
Definition poll_fuel : nat := Z.to_nat (maxWaitTime / 5000).

Definition poll (id : positive) : M unit :=
  let* verificationCallId := var Vars.verificationCallId in
  when (call_started verificationCallId)
    (let* t := now in
     assign (Vars.set_startTime t) ;;
     assign (Vars.set_callEnded false) ;;
     assign (Vars.set_callStatus None) ;;
     poll_while poll_fuel id (default [] verificationCallId) ;;
     final_check (default [] verificationCallId)).

Definition close_verification : M unit :=
  let* timeline := var Vars.processingTimeline in
  when (bool_decide (is_Some (verification_startTime timeline)))
    (let* t := now in
     on_timeline (set_verification_endTime (Some t))).

(** *** Step 3: structuring *)
Definition structuring (req : Req.t) : M unit :=
  let groqContext :=
    {| groqService.ctx_patientName :=
         or_default (Req.patientName req) (js "Not provided");
       groqService.ctx_patientPhone :=
         or_default (Req.patientPhone req) (js "Not provided");
       groqService.ctx_documentType :=
         or_default (Req.documentType req) (js "Medical Record");
       groqService.ctx_description := or_default (Req.description req) [] |} in
  let* t := now in
  on_timeline (set_groqAI_startTime (Some t)) ;;
  try_catch
    (let* structuredData := groqService.processHealthRecord env groqContext in
     assign (Vars.set_structuredData (Some structuredData)))
    (fun _ =>
       on_timeline (set_groqAI_source (js "mock")) ;;
       let* parsedData := var Vars.parsedData in
       assign (Vars.set_structuredData
                 (Some (fallback_structuredData req parsedData)))).

(** *** Step 4: transcript analysis and corrections *)

(** The body of the [for ... of] over the corrections. *)
Definition apply_correction (id : positive) (correction : Correction) : M unit :=
  when (truthy (field correction) && truthy (correct correction))
    (when (critical (field correction))
       (findByIdAndUpdate env id [field_update correction] ;;
        assign (fun x =>
                  Vars.set_structuredData
                    (mirror correction (Vars.structuredData x)) x))).

Definition synthesized_call_data (x : Vars.t) : CallStatus :=
  {| cs_callId := []; cs_status := js "ended"; cs_startTime := None;
     cs_endTime := None; cs_transcript := Vars.callTranscript x;
     cs_transcriptObject := Vars.callTranscriptObject x;
     cs_recordingUrl := Vars.callRecordingUrl x;
     cs_call_successful := false; cs_retellData := None |}.

Definition analyse_transcript (id : positive) : M unit :=
  let* x := gets vars in
  when (retellService.has_transcript (Vars.callTranscriptObject x)
          (Vars.callTranscript x))
    (try_catch
       (let completeCallData :=
          default (synthesized_call_data x) (Vars.completeCallData x) in
        assign (Vars.set_completeCallData (Some completeCallData)) ;;
        let* transcriptResult :=
          retellService.processCallTranscript env completeCallData in
        assign (Vars.set_transcriptResult (Some transcriptResult)) ;;
        when (negb (bool_decide (tr_corrections transcriptResult = [])))
          (for_each (tr_corrections transcriptResult) (apply_correction id) ;;
           findByIdAndUpdate env id
             [ U_vc_verificationComplete (tr_verificationSuccessful transcriptResult);
               U_vc_corrections (tr_corrections transcriptResult);
               U_vc_additionalInfo (tr_additionalInfo transcriptResult);
               U_vc_summary
                 (default [] (an_summary <$> tr_transcriptAnalysis transcriptResult)) ]))
       (fun _ => ret tt)).

Definition close_groqAI : M unit :=
  let* t := now in
  on_timeline (set_groqAI_endTime (Some t)).

(** *** Step 5: archival *)
Definition archive (f : File) : M unit :=
  let* t := now in
  on_timeline (set_s3Upload_startTime (Some t)) ;;
  try_catch
    (let* fileUrl := s3Service.uploadFileToS3 env in
     assign (Vars.set_fileUrl (Some fileUrl)))
    (fun _ => assign (Vars.set_fileUrl (Some (js "/uploads/" ++ basename f)))) ;;
  let* t' := now in
  on_timeline (set_s3Upload_endTime (Some t')).

(** *** Step 6: the final update and the answer *)
Definition final_status (transcriptResult : option TranscriptResult)
  : ProcessingStatus :=
  match transcriptResult with
  | Some _ => verification_complete
  | None => processing_complete
  end.

Definition preview (parsedData : option ParsedData) : jsstring :=
  let t := default [] (text <$> parsedData) in
  substring t 0 300 ++ (if 300 <? Z.of_nat (length t) then js "..." else []).

Definition finalize (id : positive) : M Response :=
  let* x := gets vars in
  match Vars.structuredData x, Vars.fileUrl x with
  | Some structuredData, Some fileUrl =>
      findByIdAndUpdate env id
        [ U_structuredData structuredData;
          U_fileUrl fileUrl;
          U_filePath fileUrl;
          U_timeline (Vars.processingTimeline x);
          U_storageLocation
            (if includes (js "amazonaws.com") fileUrl then js "s3" else js "local");
          U_processingStatus (final_status (Vars.transcriptResult x)) ] ;;
      let* healthRecord := findById env id in
      match healthRecord with
      | Some record => ret (Created id record (preview (Vars.parsedData x)))
      | None => throw (js "TypeError")
      end
  | _, _ => throw (js "TypeError")
  end.

(** *** [uploadHealthRecord] *)
Definition pipeline (req : Req.t) (f : File) : M Response :=
  let* id := create_record req f in
  initiate req id ;;
  poll id ;;
  close_verification ;;
  structuring req ;;
  analyse_transcript id ;;
  close_groqAI ;;
  archive f ;;
  finalize id.

Definition uploadHealthRecord (req : Req.t) : M Response :=
  try_catch
    (match Req.file req with
     | None => ret (Error 400 (js "No file uploaded"))
     | Some f =>
         if negb (fs_uploads_dir env)
         then ret (Error 500 (js "Failed to create uploads directory"))
         else if negb (fs_file_exists env)
         then ret (Error 400 (js "Uploaded file not found on server"))
         else
           let* t := now in
           assign (fun _ => init_vars (extname f) t) ;;
           let* supported := parse_file in
           if supported then
             close_documentAI ;;
             pipeline req f
           else
             ret (Error 400 (js "Unsupported file type. Please upload a PDF or image file."))
     end)
    (fun _ =>
       emit E_unlink ;;
       ret (Error 500 (js "Server error"))).

(** *** [getCallVerificationStatus] *)

(** The paths added for the corrections: a name or phone correction
    assigns its field, whatever the corrected value. *)
Definition correction_updates (cs : list Correction) : list FieldUpdate :=
  flat_map
    (fun correction =>
       if bool_decide (field correction = js "patientName")
          || bool_decide (field correction = js "patientPhone")
       then [field_update correction]
       else [])
    cs.

(** The new description, when the analysis carries additional
    information. *)
Definition description_update (healthRecord : HealthRecord)
    (transcriptResult : TranscriptResult) : list FieldUpdate :=
  if truthy (tr_additionalInfo transcriptResult)
     && truthy (trim (tr_additionalInfo transcriptResult))
  then
    [ U_description
        (if truthy (description healthRecord)
         then description healthRecord ++ [10; 10]%N
              ++ js "Additional info from verification: "
              ++ tr_additionalInfo transcriptResult
         else js "Additional info from verification: "
              ++ tr_additionalInfo transcriptResult) ]
  else [].

(** [updateData] for a status that changed.  The paths are listed in the
    order the handler assigns them; a path assigned twice appears twice and
    the later value wins. *)
Definition build_updateData (healthRecord : HealthRecord)
    (callStatus : CallStatus) : M (list FieldUpdate) :=
  let first := [U_vc_status (cs_status callStatus)] in
  if bool_decide (cs_status callStatus = js "ended") then
    if retellService.has_transcript (cs_transcriptObject callStatus)
         (cs_transcript callStatus)
    then
      let* transcriptResult := retellService.processCallTranscript env callStatus in
      let* t := now in
      ret (first
           ++ [ U_vc_endTime (default t (cs_endTime callStatus));
                U_vc_transcript (retellService.nonempty (cs_transcript callStatus));
                U_vc_transcriptObject (cs_transcriptObject callStatus);
                U_vc_recordingUrl (retellService.nonempty (cs_recordingUrl callStatus));
                U_vc_verificationComplete (tr_verificationSuccessful transcriptResult);
                U_vc_corrections (tr_corrections transcriptResult);
                U_vc_additionalInfo (tr_additionalInfo transcriptResult);
                U_vc_summary
                  (default [] (an_summary <$> tr_transcriptAnalysis transcriptResult));
                U_processingStatus verification_complete ]
           ++ correction_updates (tr_corrections transcriptResult)
           ++ description_update healthRecord transcriptResult)
    else
      let* t := now in
      ret (first
           ++ [ U_vc_endTime (default t (cs_endTime callStatus));
                U_processingStatus verification_ended_no_transcript ])
  else ret first.

(** The handler's own copy of the document after the refresh: the status
    and the truthy transcript fields. *)
Definition refreshed (healthRecord : HealthRecord) (callStatus : CallStatus)
  : HealthRecord :=
  let ended_with_transcript :=
    bool_decide (cs_status callStatus = js "ended")
    && retellService.has_transcript (cs_transcriptObject callStatus)
         (cs_transcript callStatus) in
  let keep {A} (v : option A) (set : option A -> VerificationCall -> VerificationCall)
      (c : VerificationCall) : VerificationCall :=
    match v with
    | Some _ => if ended_with_transcript then set v c else c
    | None => c
    end in
  on_call
    (fun c =>
       keep (retellService.nonempty (cs_recordingUrl callStatus)) set_recordingUrl
         (keep (cs_transcriptObject callStatus) set_transcriptObject
            (keep (retellService.nonempty (cs_transcript callStatus)) set_transcript
               (set_status (cs_status callStatus) c))))
    healthRecord.

(** The lazy refresh (the inner [try]). *)
Definition refresh (id : positive) (healthRecord : HealthRecord)
    (callId : jsstring) : M HealthRecord :=
  let* callStatus := retellService.getCallStatus env callId in
  if bool_decide (cs_status callStatus = status (verificationCall healthRecord))
  then ret healthRecord
  else
    let* updateData := build_updateData healthRecord callStatus in
    findByIdAndUpdate env id updateData ;;
    ret (refreshed healthRecord callStatus).

Definition getCallVerificationStatus (req : Req.t) : M Response :=
  try_catch
    (let* found := findById env (Req.params_id req) in
     match found with
     | None => ret (Error 404 (js "Health record not found"))
     | Some healthRecord =>
         if negb (N.eqb (user healthRecord) (Req.user_id req))
         then ret (Error 403 (js "Not authorized to access this record"))
         else if negb (call_started (callId (verificationCall healthRecord)))
         then ret (Error 404 (js "No verification call found for this record"))
         else
           let* current :=
             if bool_decide (status (verificationCall healthRecord)
                             ∈ [js "registered"; js "ongoing"])
             then
               try_catch
                 (refresh (Req.params_id req) healthRecord
                    (default [] (callId (verificationCall healthRecord))))
                 (fun _ => ret healthRecord)
             else ret healthRecord in
           ret (Status current)
     end)
    (fun _ => ret (Error 500 (js "Server error"))).

End WithEnv.
End controller.

(** ** services/s3Service.js: object keys and [deleteFileFromS3] *)

Module s3Keys.
Import JS Model Runtime.
Local Open Scope handler_scope.

(** [s.replace(/\s+/g, '-')]: every maximal run of white space becomes one
    hyphen.  The class [\s] is the set [trim] strips. *)
Fixpoint replace_runs (in_run : bool) (s : jsstring) : jsstring :=
  match s with
  | [] => []
  | c :: r =>
      if isTrimSpace c
      then if in_run then replace_runs true r else 45%N :: replace_runs true r
      else c :: replace_runs false r
  end.

Definition replace_whitespace (s : jsstring) : jsstring := replace_runs false s.

(** The decimal digits of a number, as a template literal prints it. *)
Fixpoint digits (u : Decimal.uint) : jsstring :=
  match u with
  | Decimal.Nil => []
  | Decimal.D0 r => 48%N :: digits r
  | Decimal.D1 r => 49%N :: digits r
  | Decimal.D2 r => 50%N :: digits r
  | Decimal.D3 r => 51%N :: digits r
  | Decimal.D4 r => 52%N :: digits r
  | Decimal.D5 r => 53%N :: digits r
  | Decimal.D6 r => 54%N :: digits r
  | Decimal.D7 r => 55%N :: digits r
  | Decimal.D8 r => 56%N :: digits r
  | Decimal.D9 r => 57%N :: digits r
  end.

Definition decimal (n : Z) : jsstring :=
  if n <? 0 then 45%N :: digits (N.to_uint (Z.to_N (- n)))
  else digits (N.to_uint (Z.to_N n)).

(** The [Key] of an upload:
    [`${Date.now()}-${originalFileName.replace(/\s+/g, '-')}`]. *)
Definition fileName (now : Z) (originalFileName : jsstring) : jsstring :=
  decimal now ++ js "-" ++ replace_whitespace originalFileName.

(** [s.split(sep)] for a one-unit separator: never empty. *)
Fixpoint split (sep : N) (s : jsstring) : list jsstring :=
  match s with
  | [] => [[]]
  | c :: r =>
      if N.eqb c sep then [] :: split sep r
      else
        match split sep r with
        | seg :: segs => (c :: seg) :: segs
        | [] => [[c]]
        end
  end.

(** [fileUrl.split('/').pop()] *)
Definition key_of (fileUrl : jsstring) : jsstring :=
  default [] (last (split 47%N fileUrl)).

Section WithS3.
(** [s3_deleteObject key]: whether S3 accepts the deletion of [key]. *)
Context (s3_deleteObject : jsstring -> bool).

(** [deleteFileFromS3]: errors are rethrown. *)
Definition deleteFileFromS3 (fileUrl : jsstring) : M unit :=
  if s3_deleteObject (key_of fileUrl) then ret tt
  else throw (js "S3 delete failed").

End WithS3.
End s3Keys.

(** ** services/documentAIService.js: the pages of an engine answer *)

Module documentPages.
Import JS Model.






End documentPages.

(** ** controllers/healthRecordController.js: the other handlers *)

Module handlers.
Import JS Model Runtime controller.
Local Open Scope handler_scope.

(** [simplifiedRecord] of [getHealthRecordById]. *)
Record SimplifiedRecord := {
  sr_id : positive;
  sr_title : jsstring;
  sr_description : jsstring;
  sr_documentType : jsstring;
  sr_patientName : jsstring;
  sr_patientPhone : jsstring;
  sr_fileUrl : option jsstring;
  sr_structuredData : option json;
  sr_hasText : bool;
  sr_textPreview : jsstring;
  sr_pageCount : Z;
  sr_processingMetadata : ProcessingMetadata
}.

(** [record] of [getFullHealthRecordById]. *)
Record FullRecord := {
  fr_id : positive;
  fr_title : jsstring;
  fr_description : jsstring;
  fr_documentType : jsstring;
  fr_patientName : jsstring;
  fr_patientPhone : jsstring;
  fr_fileUrl : option jsstring;
  fr_extractedData : option ParsedData;
  fr_structuredData : option json;
  fr_processingMetadata : ProcessingMetadata
}.

(** What these handlers answer. *)
Inductive Answer :=
| Simplified (record : SimplifiedRecord)
| Full (record : FullRecord)
| Removed
| Initiated (callId status : jsstring) (startTime : Z)
| InProgress (callId : option jsstring) (status : jsstring)
| Failure (code : Z) (message : jsstring).

(** [extractedData?.text ? text.substring(0, 300) + (text.length > 300 ?
    '...' : '') : ''] *)
Definition textPreview (extractedData : option ParsedData) : jsstring :=
  match extractedData with
  | Some d =>
      if truthy (text d)
      then substring (text d) 0 300
           ++ (if 300 <? Z.of_nat (length (text d)) then js "..." else [])
      else []
  | None => []
  end.

Definition simplified (id : positive) (healthRecord : HealthRecord)
  : SimplifiedRecord :=
  {| sr_id := id;
     sr_title := title healthRecord;
     sr_description := description healthRecord;
     sr_documentType := documentType healthRecord;
     sr_patientName := patientName healthRecord;
     sr_patientPhone := patientPhone healthRecord;
     sr_fileUrl := fileUrl healthRecord;
     sr_structuredData := structuredData healthRecord;
     sr_hasText :=
       match extractedData healthRecord with
       | Some d => truthy (text d)
       | None => false
       end;
     sr_textPreview := textPreview (extractedData healthRecord);
     sr_pageCount :=
       match extractedData healthRecord with
       | Some d => Z.of_nat (length (pages d))
       | None => 0
       end;
     sr_processingMetadata := processingMetadata healthRecord |}.

Definition full (id : positive) (healthRecord : HealthRecord) : FullRecord :=
  {| fr_id := id;
     fr_title := title healthRecord;
     fr_description := description healthRecord;
     fr_documentType := documentType healthRecord;
     fr_patientName := patientName healthRecord;
     fr_patientPhone := patientPhone healthRecord;
     fr_fileUrl := fileUrl healthRecord;
     fr_extractedData := extractedData healthRecord;
     fr_structuredData := structuredData healthRecord;
     fr_processingMetadata := processingMetadata healthRecord |}.

(** [healthRecord.fileUrl && healthRecord.fileUrl.includes('amazonaws.com')] *)
Definition stored_on_s3 (fileUrl : option jsstring) : bool :=
  match fileUrl with
  | Some url => truthy url && includes (js "amazonaws.com") url
  | None => false
  end.

Section WithEnv.
Context (env : Env).
(** [s3_deleteObject key]: whether S3 accepts the deletion of [key];
    [fs_existsSync path]: whether a local file is there. *)
Context (s3_deleteObject : jsstring -> bool) (fs_existsSync : jsstring -> bool).

Definition getHealthRecordById (req : Req.t) : M Answer :=
  try_catch
    (let* found := findById env (Req.params_id req) in
     match found with
     | None => ret (Failure 404 (js "Health record not found"))
     | Some healthRecord =>
         if negb (N.eqb (user healthRecord) (Req.user_id req))
         then ret (Failure 403 (js "Not authorized to access this record"))
         else ret (Simplified (simplified (Req.params_id req) healthRecord))
     end)
    (fun _ => ret (Failure 500 (js "Server error"))).

Definition getFullHealthRecordById (req : Req.t) : M Answer :=
  try_catch
    (let* found := findById env (Req.params_id req) in
     match found with
     | None => ret (Failure 404 (js "Health record not found"))
     | Some healthRecord =>
         if negb (N.eqb (user healthRecord) (Req.user_id req))
         then ret (Failure 403 (js "Not authorized to access this record"))
         else ret (Full (full (Req.params_id req) healthRecord))
     end)
    (fun _ => ret (Failure 500 (js "Server error"))).

(** [cleanupLocalFile]: the file is removed when it is there; a failure to
    remove it is only logged. *)
Definition cleanupLocalFile (filePath : option jsstring) : M unit :=
  match filePath with
  | Some p => when (truthy p && fs_existsSync p) (emit E_unlink)
  | None => ret tt
  end.

(** [healthRecord.deleteOne()] *)
Definition deleteOne (id : positive) : M unit :=
  mongo_step env ;;
  modify (fun w => with_store (delete id (store w)) w).

Definition deleteHealthRecord (req : Req.t) : M Answer :=
  try_catch
    (let* found := findById env (Req.params_id req) in
     match found with
     | None => ret (Failure 404 (js "Health record not found"))
     | Some healthRecord =>
         if negb (N.eqb (user healthRecord) (Req.user_id req))
         then ret (Failure 403 (js "Not authorized to delete this record"))
         else
           (if stored_on_s3 (fileUrl healthRecord)
            then try_catch
                   (s3Keys.deleteFileFromS3 s3_deleteObject
                      (default [] (fileUrl healthRecord)))
                   (fun _ => ret tt)
            else
              match filePath healthRecord with
              | Some p =>
                  when (truthy p && fs_existsSync p) (cleanupLocalFile (Some p))
              | None => ret tt
              end) ;;
           deleteOne (Req.params_id req) ;;
           ret Removed
     end)
    (fun _ => ret (Failure 500 (js "Server error"))).

(** [healthRecord.patientPhone = v; await healthRecord.save()]: the
    schema's setter trims the value, and the save writes the modified
    path.  A save that the schema's validators refuse is a store operation
    that fails, as for every operation counted by [mongo_ok]. *)
Definition save_patientPhone (id : positive) (v : jsstring) : M unit :=
  mongo_step env ;;
  modify (fun w => with_store (alter (set_patientPhone (trim v)) id (store w)) w).

(** The call and the update that records it, for the document as the
    handler holds it. *)
Definition start_call (id : positive) (healthRecord : HealthRecord) : M Answer :=
  let* verificationResult :=
    retellService.initiateVerificationCall env
      (or_else (patientName healthRecord) (js "Patient"))
      (patientPhone healthRecord) in
  findByIdAndUpdate env id
    [ U_vc_callId (vr_callId verificationResult);
      U_vc_status (vr_status verificationResult);
      U_vc_startTime (vr_startTime verificationResult);
      U_vc_metadata (vr_retellData verificationResult);
      U_processingStatus verification_initiated ] ;;
  ret (Initiated (vr_callId verificationResult) (vr_status verificationResult)
         (vr_startTime verificationResult)).

Definition initiateCallVerification (req : Req.t) : M Answer :=
  try_catch
    (let* found := findById env (Req.params_id req) in
     match found with
     | None => ret (Failure 404 (js "Health record not found"))
     | Some healthRecord =>
         if negb (N.eqb (user healthRecord) (Req.user_id req))
         then ret (Failure 403 (js "Not authorized to access this record"))
         else if bool_decide (status (verificationCall healthRecord)
                              ∈ [js "registered"; js "ongoing"])
         then ret (InProgress (callId (verificationCall healthRecord))
                     (status (verificationCall healthRecord)))
         else if negb (truthy (patientPhone healthRecord)
                       && truthy (trim (patientPhone healthRecord)))
         then
           match Req.patientPhone req with
           | Some patientPhone =>
               if truthy patientPhone && truthy (trim patientPhone)
               then
                 save_patientPhone (Req.params_id req) patientPhone ;;
                 start_call (Req.params_id req)
                   (set_patientPhone (trim patientPhone) healthRecord)
               else ret (Failure 400
                           (js "Patient phone number is required for verification"))
           | None => ret (Failure 400
                            (js "Patient phone number is required for verification"))
           end
         else start_call (Req.params_id req) healthRecord
     end)
    (fun _ => ret (Failure 500 (js "Server error"))).

End WithEnv.
End handlers.

(** * Properties *)

Import JS Model Runtime controller.
Local Open Scope handler_scope.

(** ** Vocabulary of the statements *)

(** [wp m Q R w]: run from [w], the handler [m] returns a value and a state
    that satisfy [Q], or throws into a state that satisfies [R]; it does
    not run out of fuel. *)
Definition wp {A} (m : M A) (Q : A -> World -> Prop) (R : World -> Prop)
    (w : World) : Prop :=
  match m w with
  | (Ok a, w') => Q a w'
  | (Throw _, w') => R w'
  | (Diverge, _) => False
  end.

Fixpoint count (p : Event -> bool) (l : list Event) : nat :=
  match l with
  | [] => 0
  | e :: r => (if p e then 1 else 0) + count p r
  end.

Definition is_fetch (e : Event) : bool :=
  match e with E_getCallStatus _ => true | _ => false end.

Definition is_wait (e : Event) : bool :=
  match e with E_setTimeout _ _ => true | _ => false end.

(** A call into the Verification Call Client. *)
Definition is_verification_call (e : Event) : bool :=
  match e with
  | E_initiateVerificationCall _ => true
  | E_getCallStatus _ => true
  | _ => false
  end.

(** A wait of the poll: the five-second timer, set before the ceiling,
    counted from [start]. *)
Definition wait_ok (start : Z) (e : Event) : Prop :=
  match e with
  | E_setTimeout ms t => ms = 5000 /\ 0 <= t - start < maxWaitTime
  | _ => True
  end.

(** Whether the answer to the [k]-th status request carries a terminal
    status. *)
Definition answered_terminal (env : Env) (k : nat) : bool :=
  match reply (retell_get_call env k) with
  | Some data => retellService.terminal (call_status data)
  | None => false
  end.

(** Whether the last status the handler observed is terminal. *)
Definition observed_terminal (x : Vars.t) : bool :=
  match Vars.callStatus x with
  | Some callStatus => retellService.terminal (cs_status callStatus)
  | None => false
  end.

(** What [processCallTranscript] returns for given call data: the function
    reads the environment but not the state. *)
Definition transcript_result (env : Env) (callData : CallStatus)
  : TranscriptResult :=
  if negb (retellService.has_transcript (cs_transcriptObject callData)
             (cs_transcript callData))
  then retellService.failed_transcript
  else
    match groq_analyse env (retellService.transcriptForProcessing callData) with
    | None => retellService.failed_transcript
    | Some content =>
        {| tr_success := true;
           tr_transcriptAnalysis := Some (groqService.analyse content);
           tr_corrections := an_corrections (groqService.analyse content);
           tr_additionalInfo := an_additionalInfo (groqService.analyse content);
           tr_verificationSuccessful := cs_call_successful callData |}
    end.

(** The description the status endpoint writes when the analysis carries
    additional information [info]. *)
Definition appended_description (prior info : jsstring) : jsstring :=
  if truthy prior
  then prior ++ [10; 10]%N ++ js "Additional info from verification: " ++ info
  else js "Additional info from verification: " ++ info.


(** The state [poll] enters its loop in. *)
Definition poll_start (w : World) : World :=
  with_vars
    (Vars.set_callStatus None
       (Vars.set_callEnded false (Vars.set_startTime (clock w) (vars w)))) w.

(** What the extraction stage hands to the handler: the engine's answer,
    or the mock content when the engine fails.  The service's own [catch]
    makes the substitution. *)
Definition extracted (env : Env) (fileExtension : jsstring) : ParsedData :=
  default (if bool_decide (fileExtension = js ".pdf")
           then documentAIService.getMockPdfData
           else documentAIService.getMockHandwrittenData)
    (documentAI_process env).

(** What [processHealthRecord] returns. *)
Definition structured (env : Env) (ctx : groqService.PatientContext) : json :=
  if negb (groq_api_key env) then groqService.getMockStructuredData ctx
  else
    match groq_structure env with
    | Some responseContent => groqService.parse_response responseContent
    | None => groqService.getMockStructuredData ctx
    end.

(** The context the handler passes to the structuring service. *)
Definition groqContext (req : Req.t) : groqService.PatientContext :=
  {| groqService.ctx_patientName :=
       or_default (Req.patientName req) (js "Not provided");
     groqService.ctx_patientPhone :=
       or_default (Req.patientPhone req) (js "Not provided");
     groqService.ctx_documentType :=
       or_default (Req.documentType req) (js "Medical Record");
     groqService.ctx_description := or_default (Req.description req) [] |}.

(** The extensions the handler accepts. *)
Definition supported (fileExtension : jsstring) : bool :=
  bool_decide (fileExtension ∈ [js ".pdf"; js ".jpg"; js ".jpeg"; js ".png"]).

(** The store answers every operation. *)
Definition reliable_store (env : Env) : Prop := forall n, mongo_ok env n = true.



(** The [processingStatus] values an event writes: the status of a created
    document and every [processingStatus] path of an update document. *)
Definition update_status (f : FieldUpdate) : list ProcessingStatus :=
  match f with
  | U_processingStatus s => [s]
  | _ => []
  end.

Definition status_write (e : Event) : list ProcessingStatus :=
  match e with
  | E_create r => [processingStatus r]
  | E_findByIdAndUpdate _ u => flat_map update_status u
  | _ => []
  end.

Definition status_writes (evs : list Event) : list ProcessingStatus :=
  flat_map status_write evs.

(** The states of the specification's chain, and their position on it;
    the two terminal states share the last position.  A value off the chain
    has position 0. *)
Definition chain_statuses : list ProcessingStatus :=
  [uploaded; document_ai_complete; verification_initiated; verification_ended;
   verification_complete; processing_complete].

Definition rank (s : ProcessingStatus) : nat :=
  match s with
  | document_ai_complete => 1
  | verification_initiated => 2
  | verification_ended => 3
  | verification_complete => 4
  | processing_complete => 4
  | _ => 0
  end.

Definition terminal_status (s : ProcessingStatus) : bool :=
  match s with
  | verification_complete | processing_complete => true
  | _ => false
  end.

(** No backward transition: a later write is strictly further along the
    chain than every earlier one. *)
Definition forward (ws : list ProcessingStatus) : Prop :=
  forall (i j : nat) a b,
    (i < j)%nat -> ws !! i = Some a -> ws !! j = Some b -> (rank a < rank b)%nat.

(** ** Sample data for the instances below *)

Definition quote : jsstring := [34%N].

(** The text of the object with the one member [a] equal to 1. *)
Definition embedded_object : jsstring :=
  js "{" ++ quote ++ js "a" ++ quote ++ js ":1}".

(** Leading prose that mentions braces, and prose that does not. *)
Definition prose_with_braces : jsstring :=
  js "Use {} for an empty record. Here is the data: ".

Definition plain_prose : jsstring := js "Here is the data: ".

Definition closing_prose : jsstring := js " Let me know if you need more.".

Definition qs (s : string) : jsstring := quote ++ js s ++ quote.
Arguments qs s%_string.

(** A reply of the analysis model: one name correction, one diagnosis
    correction, and additional information. *)
Definition analysis_reply : jsstring :=
  js "{" ++ qs "corrections" ++ js ":[{" ++ qs "field" ++ js ":" ++ qs "patientName"
  ++ js "," ++ qs "incorrect" ++ js ":" ++ qs "Bob"
  ++ js "," ++ qs "correct" ++ js ":" ++ qs "Robert" ++ js "},{"
  ++ qs "field" ++ js ":" ++ qs "diagnosis"
  ++ js "," ++ qs "incorrect" ++ js ":" ++ qs "flu"
  ++ js "," ++ qs "correct" ++ js ":" ++ qs "cold" ++ js "}],"
  ++ qs "additionalInfo" ++ js ":" ++ qs "I also take aspirin" ++ js ","
  ++ qs "summary" ++ js ":" ++ qs "Name corrected" ++ js ","
  ++ qs "verificationComplete" ++ js ":true}".



Definition registered_call : RetellCall :=
  {| call_id := js "call_1"; call_status := js "registered";
     start_timestamp := None; end_timestamp := None; call_duration_ms := None;
     rc_transcript := None; transcript_object := None; recording_url := None;
     call_successful := false |}.

Definition ended_call : RetellCall :=
  {| call_id := js "call_1"; call_status := js "ended";
     start_timestamp := Some 1000; end_timestamp := Some 61000;
     call_duration_ms := Some 60000;
     rc_transcript := Some (js "Patient: my name is actually Robert");
     transcript_object := None; recording_url := None;
     call_successful := true |}.

Definition ended_call_without_transcript : RetellCall :=
  {| call_id := js "call_1"; call_status := js "ended";
     start_timestamp := Some 1000; end_timestamp := Some 2000;
     call_duration_ms := Some 1000;
     rc_transcript := None; transcript_object := None; recording_url := None;
     call_successful := false |}.

(** An environment in which every collaborator works: the call is
    answered [registered] twice and then [ended] with a transcript. *)
Definition sample_env : Env :=
  {| fs_uploads_dir := true;
     fs_file_exists := true;
     documentAI_process :=
       Some {| text := js "Patient: Bob. Diagnosis: flu.";
               pages := [ {| pageNumber := 1;
                             page_text := js "Patient: Bob. Diagnosis: flu." |} ] |};
     retell_update_voice := true;
     retell_update_prompt := true;
     retell_update_duration := true;
     retell_create_call := Some registered_call;
     retell_get_call :=
       fun n => {| timer_lag := 0; latency := 0;
                   reply := Some (if (n <? 2)%nat then registered_call
                                  else ended_call) |};
     groq_api_key := true;
     groq_structure :=
       Some (js "{" ++ qs "patient" ++ js ":{" ++ qs "name" ++ js ":" ++ qs "Bob"
             ++ js "}," ++ qs "diagnosis" ++ js ":" ++ qs "flu" ++ js "}");
     groq_analyse := fun _ => Some analysis_reply;
     s3_upload := Some (js "https://bucket.s3.amazonaws.com/1-report.pdf");
     mongo_ok := fun _ => true |}.

Definition with_documentAI (d : option ParsedData) (env : Env) : Env :=
  {| fs_uploads_dir := fs_uploads_dir env; fs_file_exists := fs_file_exists env;
     documentAI_process := d;
     retell_update_voice := retell_update_voice env;
     retell_update_prompt := retell_update_prompt env;
     retell_update_duration := retell_update_duration env;
     retell_create_call := retell_create_call env;
     retell_get_call := retell_get_call env;
     groq_api_key := groq_api_key env; groq_structure := groq_structure env;
     groq_analyse := groq_analyse env; s3_upload := s3_upload env;
     mongo_ok := mongo_ok env |}.

Definition with_groq_structure (c : option jsstring) (env : Env) : Env :=
  {| fs_uploads_dir := fs_uploads_dir env; fs_file_exists := fs_file_exists env;
     documentAI_process := documentAI_process env;
     retell_update_voice := retell_update_voice env;
     retell_update_prompt := retell_update_prompt env;
     retell_update_duration := retell_update_duration env;
     retell_create_call := retell_create_call env;
     retell_get_call := retell_get_call env;
     groq_api_key := groq_api_key env; groq_structure := c;
     groq_analyse := groq_analyse env; s3_upload := s3_upload env;
     mongo_ok := mongo_ok env |}.

Definition with_groq_analyse (f : jsstring -> option jsstring) (env : Env) : Env :=
  {| fs_uploads_dir := fs_uploads_dir env; fs_file_exists := fs_file_exists env;
     documentAI_process := documentAI_process env;
     retell_update_voice := retell_update_voice env;
     retell_update_prompt := retell_update_prompt env;
     retell_update_duration := retell_update_duration env;
     retell_create_call := retell_create_call env;
     retell_get_call := retell_get_call env;
     groq_api_key := groq_api_key env; groq_structure := groq_structure env;
     groq_analyse := f; s3_upload := s3_upload env;
     mongo_ok := mongo_ok env |}.

Definition with_get_call (f : nat -> PollReply) (env : Env) : Env :=
  {| fs_uploads_dir := fs_uploads_dir env; fs_file_exists := fs_file_exists env;
     documentAI_process := documentAI_process env;
     retell_update_voice := retell_update_voice env;
     retell_update_prompt := retell_update_prompt env;
     retell_update_duration := retell_update_duration env;
     retell_create_call := retell_create_call env;
     retell_get_call := f;
     groq_api_key := groq_api_key env; groq_structure := groq_structure env;
     groq_analyse := groq_analyse env; s3_upload := s3_upload env;
     mongo_ok := mongo_ok env |}.

Definition sample_file : File :=
  {| originalname := js "report.pdf"; mimetype := js "application/pdf";
     filesize := 2048; extname := js ".pdf"; basename := js "1-report.pdf" |}.

(** An upload with a phone number, and the same upload without one. *)
Definition sample_upload : Req.t :=
  {| Req.file := Some sample_file;
     Req.title := Some (js "Blood test");
     Req.description := Some (js "Annual check");
     Req.documentType := Some (js "Lab Result");
     Req.patientName := Some (js "Bob");
     Req.patientPhone := Some (js "+10000000000");
     Req.user_id := 7%N;
     Req.params_id := 1%positive |}.

Definition upload_without_phone : Req.t :=
  {| Req.file := Some sample_file;
     Req.title := Some (js "Blood test");
     Req.description := Some (js "Annual check");
     Req.documentType := Some (js "Lab Result");
     Req.patientName := Some (js "Bob");
     Req.patientPhone := Some (js "   ");
     Req.user_id := 7%N;
     Req.params_id := 1%positive |}.

Definition sample_world : World :=
  {| store := ∅; clock := 1000000; trace := []; fetched := 0; mongo_ops := 0;
     vars := init_vars [] 0 |}.

(** A stored record whose call is still registered, as an upload leaves it
    when its poll reached the ceiling. *)
Definition pending_record : HealthRecord :=
  {| user := 7%N; title := js "Blood test"; description := js "Annual check";
     documentType := js "Lab Result"; patientName := js "Bob";
     patientPhone := js "+10000000000";
     fileUrl := Some (js "https://bucket.s3.amazonaws.com/1-report.pdf");
     filePath := Some (js "https://bucket.s3.amazonaws.com/1-report.pdf");
     extractedData := None;
     structuredData :=
       Some (JObj [ (js "patient", JObj [ (js "name", JStr (js "Bob")) ]) ]);
     processingMetadata :=
       {| fileInfo := {| originalName := js "report.pdf"; size := 2048;
                         mimeType := js "application/pdf"; extension := js ".pdf" |};
          timeline := init_timeline 0;
          extractedTextLength := 0; pageCount := 0;
          storageLocation := Some (js "s3") |};
     verificationCall :=
       set_status (js "registered")
         (set_callId (Some (js "call_1")) default_verificationCall);
     processingStatus := processing_complete |}.

Definition pending_world : World :=
  {| store := {[ 1%positive := pending_record ]}; clock := 2000000; trace := [];
     fetched := 0; mongo_ops := 0; vars := init_vars [] 0 |}.

(** The call platform answers at once: ended, with a transcript, and
    ended without one. *)
Definition ended_env : Env :=
  with_get_call
    (fun _ => {| timer_lag := 0; latency := 0; reply := Some ended_call |})
    sample_env.

Definition ended_without_transcript_env : Env :=
  with_get_call
    (fun _ => {| timer_lag := 0; latency := 0;
                 reply := Some ended_call_without_transcript |})
    sample_env.


(** The call platform never reports a terminal status. *)
Definition silent_platform_env : Env :=
  with_get_call
    (fun _ => {| timer_lag := 0; latency := 0; reply := Some registered_call |})
    sample_env.





(** The engine fails; the structuring request fails. *)
Definition failing_extraction_env : Env := with_documentAI None sample_env.

Definition failing_structuring_env : Env := with_groq_structure None sample_env.




(** ** Invariants of an upload without a phone number *)

(** The calls made since the trace was [t0] include none into the
    Verification Call Client. *)
Definition silent (t0 : list Event) (w : World) : Prop :=
  exists evs, trace w = t0 ++ evs /\ count is_verification_call evs = 0%nat.

(** No verification call since [t0], and no call id or transcript at
    hand. *)
Definition quiet (t0 : list Event) (w : World) : Prop :=
  silent t0 w /\
  Vars.verificationCallId (vars w) = None /\
  Vars.callTranscript (vars w) = None /\
  Vars.callTranscriptObject (vars w) = None /\
  Vars.transcriptResult (vars w) = None.

(** The pipeline's progress: the text is extracted; the record [id], once
    created, is in the store; the structured data and the file URL are set
    when [sd] and [url] say so. *)
Definition staged (t0 : list Event) (id : option positive) (sd url : bool) (w : World)
  : Prop :=
  quiet t0 w /\
  is_Some (Vars.parsedData (vars w)) /\
  match id with Some i => is_Some (store w !! i) | None => True end /\
  (sd = true -> is_Some (Vars.structuredData (vars w))) /\
  (url = true -> is_Some (Vars.fileUrl (vars w))).

(** The state after a store operation failed. *)
Definition failed (env : Env) (t0 : list Event) (w : World) : Prop :=
  silent t0 w /\
  exists n, mongo_ok env n = false.

(** ** Invariants of the status writes *)

(** A list of writes that moves forward along the chain and stays on it,
    no further than position [k]. *)
Definition chain (k : nat) (ws : list ProcessingStatus) : Prop :=
  forward ws /\
  Forall (fun s => s ∈ chain_statuses /\ (1 <= rank s <= k)%nat) ws.

(** The statuses written since the writes were [base]. *)
Definition written (base : list ProcessingStatus) (k : nat) (w : World) : Prop :=
  exists ws, status_writes (trace w) = base ++ ws /\ chain k ws.

(** What the status endpoint may write. *)
Definition refresh_status (s : ProcessingStatus) : Prop :=
  s = verification_complete \/ s = verification_ended_no_transcript.

(** ** Invariants of the analysis outcome *)







(** ** Vocabulary and sample data for the properties of the other code *)

(** No code unit of [s] is white space; none is a slash. *)
Definition no_whitespace (s : jsstring) : Prop :=
  Forall (fun c => isTrimSpace c = false) s.

Definition no_slash (s : jsstring) : Prop := Forall (fun c => c <> 47%N) s.

(** The four requests of [initiateVerificationCall] all succeed. *)
Definition platform_up (env : Env) : bool :=
  retell_update_voice env && retell_update_prompt env
  && retell_update_duration env && bool_decide (is_Some (retell_create_call env)).

(** A record whose verification has completed, with a correction on
    file. *)
Definition verified_record : HealthRecord :=
  set_processingStatus verification_complete
    (on_call
       (fun c =>
          set_corrections
            [ {| field := js "diagnosis"; incorrect := js "flu"; correct := js "cold" |} ]
            (set_verificationComplete true
               (set_transcript (Some (js "Patient: it was a cold"))
                  (set_status (js "ended") c))))
       pending_record).

Definition verified_world : World :=
  {| store := {[ 1%positive := verified_record ]}; clock := 3000000; trace := [];
     fetched := 0; mongo_ops := 0; vars := init_vars [] 0 |}.

(** A record uploaded without a phone number, and a request that supplies
    one. *)
Definition phoneless_record : HealthRecord :=
  set_patientPhone []
    (on_call (set_status (js "not_initiated")) (on_call (set_callId None) pending_record)).

Definition phoneless_world : World :=
  {| store := {[ 1%positive := phoneless_record ]}; clock := 3000000; trace := [];
     fetched := 0; mongo_ops := 0; vars := init_vars [] 0 |}.

Definition request_with_phone : Req.t :=
  {| Req.file := None; Req.title := None; Req.description := None;
     Req.documentType := None; Req.patientName := None;
     Req.patientPhone := Some (js " +10000000001 ");
     Req.user_id := 7%N; Req.params_id := 1%positive |}.

(** The call platform refuses to create the call. *)
Definition platform_down_env : Env :=
  {| fs_uploads_dir := true; fs_file_exists := true;
     documentAI_process := documentAI_process sample_env;
     retell_update_voice := true; retell_update_prompt := true;
     retell_update_duration := true; retell_create_call := None;
     retell_get_call := retell_get_call sample_env;
     groq_api_key := true; groq_structure := groq_structure sample_env;
     groq_analyse := groq_analyse sample_env; s3_upload := s3_upload sample_env;
     mongo_ok := fun _ => true |}.

(** *** The status endpoint, as a function of the store *)

(** The update document the status endpoint builds at time [t] for a call
    status that differs from the stored one. *)
Definition refresh_update (env : Env) (hr : HealthRecord) (cs : CallStatus) (t : Z)
  : list FieldUpdate :=
  [U_vc_status (cs_status cs)]
  ++ (if bool_decide (cs_status cs = js "ended") then
        if retellService.has_transcript (cs_transcriptObject cs) (cs_transcript cs)
        then
          [ U_vc_endTime (default t (cs_endTime cs));
            U_vc_transcript (retellService.nonempty (cs_transcript cs));
            U_vc_transcriptObject (cs_transcriptObject cs);
            U_vc_recordingUrl (retellService.nonempty (cs_recordingUrl cs));
            U_vc_verificationComplete
              (tr_verificationSuccessful (transcript_result env cs));
            U_vc_corrections (tr_corrections (transcript_result env cs));
            U_vc_additionalInfo (tr_additionalInfo (transcript_result env cs));
            U_vc_summary
              (default []
                 (an_summary <$> tr_transcriptAnalysis (transcript_result env cs)));
            U_processingStatus verification_complete ]
          ++ correction_updates (tr_corrections (transcript_result env cs))
          ++ description_update hr (transcript_result env cs)
        else
          [ U_vc_endTime (default t (cs_endTime cs));
            U_processingStatus verification_ended_no_transcript ]
      else []).

(** Whether a status request on the stored record [hr] asks the call
    platform: the store answers, the record is the user's, and its call is
    registered or ongoing. *)
Definition asks_platform (env : Env) (req : Req.t) (w : World) (hr : HealthRecord)
  : bool :=
  mongo_ok env (mongo_ops w)
  && N.eqb (user hr) (Req.user_id req)
  && call_started (callId (verificationCall hr))
  && bool_decide (status (verificationCall hr) ∈ [js "registered"; js "ongoing"]).

(** The store a status request leaves. *)
Definition status_store (env : Env) (req : Req.t) (w : World)
  : gmap positive HealthRecord :=
  match store w !! Req.params_id req with
  | Some hr =>
      if asks_platform env req w hr then
        match reply (retell_get_call env (fetched w)) with
        | Some data =>
            if bool_decide (call_status data = status (verificationCall hr))
            then store w
            else if mongo_ok env (S (mongo_ops w))
            then alter
                   (apply_updates
                      (refresh_update env hr (retellService.call_status_of data)
                         (clock w + Z.of_N (latency (retell_get_call env (fetched w))))))
                   (Req.params_id req) (store w)
            else store w
        | None => store w
        end
      else store w
  | None => store w
  end.

(** The paths a status request never assigns. *)
Definition refresh_path (f : FieldUpdate) : bool :=
  match f with
  | U_structuredData _ | U_fileUrl _ | U_filePath _ | U_timeline _
  | U_storageLocation _ | U_vc_callId _ | U_vc_startTime _ | U_vc_metadata _ => false
  | _ => true
  end.


(** What a status request leaves alone in a record. *)
Definition refresh_frame (r : HealthRecord) :=
  (user r, title r, documentType r, fileUrl r, filePath r, extractedData r,
   structuredData r, processingMetadata r, callId (verificationCall r),
   startTime (verificationCall r), metadata (verificationCall r)).

(** The analysis request fails; the analysis reply is not JSON. *)
Definition failing_analysis_env : Env := with_groq_analyse (fun _ => None) ended_env.

Definition unparsable_analysis_env : Env :=
  with_groq_analyse (fun _ => Some (js "I could not find any corrections.")) ended_env.


(** *** Invariants of an upload, whatever the services answer *)

Definition is_analysis (e : Event) : bool :=
  match e with E_processCallTranscript => true | _ => false end.

(** The URL the archival stage settles on: the location S3 returns, or the
    local path when the upload to S3 fails. *)
Definition archived (env : Env) (f : File) : jsstring :=
  default (js "/uploads/" ++ basename f) (s3_upload env).

(** A store operation has failed. *)
Definition store_failed (env : Env) (w : World) : Prop :=
  exists n, mongo_ok env n = false.

(** What the record keeps from its creation on. *)
Definition kept (env : Env) (req : Req.t) (f : File) (r : HealthRecord) : Prop :=
  extractedData r = Some (extracted env (extname f)) /\ user r = Req.user_id req.

(** The pipeline's progress since the trace was [t0] and the store [s0]:
    the text is extracted; the record, once created, sits under an id that
    was free and no other id has changed; the structured data is there from
    stage 2 on and the file URL from stage 4 on; the transcript analysis is
    requested at most once, at stage 3, and its result is at hand exactly
    when it was. *)
Definition ready (env : Env) (req : Req.t) (f : File) (t0 : list Event)
    (s0 : gmap positive HealthRecord) (id : option positive) (k : nat) (w : World)
  : Prop :=
  Vars.parsedData (vars w) = Some (extracted env (extname f)) /\
  (forall j, id <> Some j -> store w !! j = s0 !! j) /\
  match id with
  | Some i => s0 !! i = None /\ exists r, store w !! i = Some r /\ kept env req f r
  | None => True
  end /\
  ((2 <= k)%nat -> is_Some (Vars.structuredData (vars w))) /\
  ((4 <= k)%nat -> Vars.fileUrl (vars w) = Some (archived env f)) /\
  ((k < 3)%nat -> Vars.transcriptResult (vars w) = None) /\
  exists evs, trace w = t0 ++ evs /\
    count is_analysis evs
    = match Vars.transcriptResult (vars w) with Some _ => 1%nat | None => 0%nat end.

(** What an upload answered 201 has done. *)
Definition completed (env : Env) (req : Req.t) (f : File) (t0 : list Event)
    (s0 : gmap positive HealthRecord) (id : positive) (r : HealthRecord) (w : World)
  : Prop :=
  s0 !! id = None /\
  (forall j, j <> id -> store w !! j = s0 !! j) /\
  store w !! id = Some r /\ kept env req f r /\
  fileUrl r = Some (archived env f) /\ filePath r = Some (archived env f) /\
  storageLocation (processingMetadata r)
  = Some (if includes (js "amazonaws.com") (archived env f)
          then js "s3" else js "local") /\
  is_Some (structuredData r) /\
  timeline (processingMetadata r) = Vars.processingTimeline (vars w) /\
  exists evs, trace w = t0 ++ evs /\
    (count is_analysis evs = 1%nat /\ processingStatus r = verification_complete \/
     count is_analysis evs = 0%nat /\ processingStatus r = processing_complete).

(** The answers with which an upload is turned away before any stage
    runs. *)
Definition rejection (resp : Response) : Prop :=
  resp = Error 400 (js "No file uploaded") \/
  resp = Error 500 (js "Failed to create uploads directory") \/
  resp = Error 400 (js "Uploaded file not found on server") \/
  resp = Error 400 (js "Unsupported file type. Please upload a PDF or image file.").

(** An upload of a text file. *)
Definition text_upload : Req.t :=
  {| Req.file :=
       Some {| originalname := js "notes.txt"; mimetype := js "application/pdf";
               filesize := 10; extname := js ".txt"; basename := js "2-notes.txt" |};
     Req.title := None; Req.description := None; Req.documentType := None;
     Req.patientName := None; Req.patientPhone := None;
     Req.user_id := 7%N; Req.params_id := 1%positive |}.


(** *** The order of the stages *)

(** The stage of the pipeline an event belongs to: extraction, creation of
    the record, call initiation, polling, structuring, transcript analysis,
    archival, the final read.  Store updates and file removals occur at
    several stages and carry none. *)
Definition phase (e : Event) : option nat :=
  match e with
  | E_parsePdfDocument | E_parseHandwrittenDocument => Some 0%nat
  | E_create _ => Some 1%nat
  | E_initiateVerificationCall _ => Some 2%nat
  | E_setTimeout _ _ | E_getCallStatus _ => Some 3%nat
  | E_processHealthRecord => Some 4%nat
  | E_processCallTranscript => Some 5%nat
  | E_uploadFileToS3 => Some 6%nat
  | E_findById _ => Some 7%nat
  | E_findByIdAndUpdate _ _ | E_unlink => None
  end.

(** Along [evs] the stages never go back. *)
Definition in_stage_order (evs : list Event) : Prop :=
  forall (i j : nat) a b p q,
    (i < j)%nat -> evs !! i = Some a -> evs !! j = Some b ->
    phase a = Some p -> phase b = Some q -> (p <= q)%nat.

(** The same as a check: from stage [k] on. *)
Fixpoint ordered_from (k : nat) (evs : list Event) : bool :=
  match evs with
  | [] => true
  | e :: r =>
      match phase e with
      | Some p => (k <=? p)%nat && ordered_from p r
      | None => ordered_from k r
      end
  end.

(** No event of [evs] is of a stage after [k]. *)
Definition bounded (k : nat) (evs : list Event) : bool :=
  forallb (fun e => match phase e with Some p => (p <=? k)%nat | None => true end) evs.

(** The events since [t0] are in the order of the stages, none after
    stage [k]. *)
Definition ordered (t0 : list Event) (k : nat) (w : World) : Prop :=
  exists evs, trace w = t0 ++ evs /\ ordered_from 0 evs = true /\ bounded k evs = true.

(** The timeline carries the failure of the call initiation. *)
Definition call_failed (w : World) : Prop :=
  verification_status (Vars.processingTimeline (vars w)) = js "error" /\
  is_Some (verification_error (Vars.processingTimeline (vars w))).

(** The same for a record. *)
Definition failure_on_record (r : HealthRecord) : Prop :=
  verification_status (timeline (processingMetadata r)) = js "error" /\
  is_Some (verification_error (timeline (processingMetadata r))).

(** *** A call that does not end in time *)

(** No status request is answered with a terminal status. *)
Definition never_terminal (env : Env) : Prop :=
  forall n, answered_terminal env n = false.

(** During the poll: no transcript at hand, the call not seen ended. *)
Definition waiting (w : World) : Prop :=
  Vars.callTranscript (vars w) = None /\
  Vars.callTranscriptObject (vars w) = None /\
  Vars.transcriptResult (vars w) = None /\
  Vars.callEnded (vars w) = false.

(** After it: still no transcript, and the timeline says [timeout]. *)
Definition timed_out (w : World) : Prop :=
  Vars.callTranscript (vars w) = None /\
  Vars.callTranscriptObject (vars w) = None /\
  Vars.transcriptResult (vars w) = None /\
  verification_status (Vars.processingTimeline (vars w)) = js "timeout".

Definition is_s3_upload (e : Event) : bool :=
  match e with E_uploadFileToS3 => true | _ => false end.

(** The store accepts the creation of the record and refuses the next
    operation. *)
Definition store_fails_second (n : nat) : bool :=
  match n with 1%nat => false | _ => true end.

(** A record as [create] left it. *)
Definition as_created (r : HealthRecord) : Prop :=
  processingStatus r = document_ai_complete /\ fileUrl r = None /\
  structuredData r = None.

(** Before the record exists: [n] store operations so far, the store as it
    was, no upload to S3 since [t0]. *)
Definition not_yet (t0 : list Event) (s0 : gmap positive HealthRecord) (n : nat)
    (w : World) : Prop :=
  mongo_ops w = n /\ store w = s0 /\
  exists evs, trace w = t0 ++ evs /\ count is_s3_upload evs = 0%nat.

(** After its creation and before the final update: [n] store operations
    so far, the record as created, [c] uploads to S3 since [t0]. *)
Definition half_done (t0 : list Event) (id : positive) (n c : nat) (w : World)
  : Prop :=
  mongo_ops w = n /\
  (exists r, store w !! id = Some r /\ as_created r) /\
  exists evs, trace w = t0 ++ evs /\ count is_s3_upload evs = c.

Definition flaky_store_env : Env :=
  {| fs_uploads_dir := true; fs_file_exists := true;
     documentAI_process := documentAI_process sample_env;
     retell_update_voice := true; retell_update_prompt := true;
     retell_update_duration := true;
     retell_create_call := retell_create_call sample_env;
     retell_get_call := retell_get_call sample_env;
     groq_api_key := true; groq_structure := groq_structure sample_env;
     groq_analyse := groq_analyse sample_env;
     s3_upload := s3_upload sample_env;
     mongo_ok := store_fails_second |}.

(** ** Rules of the handler logic *)

Section Logic.
Context {A B : Type}.

Lemma wp_ret (a : A) Q R w : Q a w -> wp (ret a) Q R w.
Proof. intros H. exact H. Qed.

Lemma wp_bind (m : M A) (k : A -> M B) Q R w :
  wp m (fun a => wp (k a) Q R) R w -> wp (bind m k) Q R w.
Proof.
  unfold wp, bind. destruct (m w) as [[a | e |] w']; auto.
Qed.

Lemma wp_try (m : M A) h Q R w :
  wp m Q (fun w' => forall e, wp (h e) Q R w') w ->
  wp (try_catch m h) Q R w.
Proof.
  unfold wp, try_catch.
  destruct (m w) as [[a | e |] w']; [auto | intros H; apply H | auto].
Qed.

Lemma wp_mono (m : M A) (Q Q' : A -> World -> Prop) (R R' : World -> Prop) w :
  wp m Q R w ->
  (forall a w', Q a w' -> Q' a w') ->
  (forall w', R w' -> R' w') ->
  wp m Q' R' w.
Proof.
  unfold wp. destruct (m w) as [[a | e |] w']; auto.
Qed.

End Logic.

(** ** [JSON.parse] never runs out of fuel *)

Lemma skip_ws_length s : (length (skip_ws s) <= length s)%nat.
Proof.
  induction s as [| c s IH]; cbn; [lia |].
  destruct (isJsonWs c); cbn; lia.
Qed.

Lemma skip_ws_cons s c r : skip_ws s = c :: r -> (length r < length s)%nat.
Proof.
  intros H. pose proof (skip_ws_length s) as Hl. rewrite H in Hl. cbn in Hl. lia.
Qed.

Lemma strip_prefix_length p s r :
  strip_prefix p s = Some r -> (length r + length p = length s)%nat.
Proof.
  revert s. induction p as [| a p IH]; intros s; cbn.
  - intros [= ->]. lia.
  - destruct s as [| b s]; [discriminate |].
    destruct (N.eqb a b); [| discriminate].
    intros H. apply IH in H. cbn. lia.
Qed.

Lemma span_digits_length s ds r :
  span_digits s = (ds, r) -> (length r <= length s)%nat.
Proof.
  revert ds r. induction s as [| c s IH]; intros ds r; cbn.
  - intros [= <- <-]. cbn. lia.
  - destruct (isDigit c).
    + destruct (span_digits s) as [ds' r'] eqn:E. intros [= <- <-].
      specialize (IH _ _ eq_refl). lia.
    + intros [= <- <-]. cbn. lia.
Qed.

Lemma lex_string_length s : forall acc k r,
  lex_string s acc = Some (k, r) -> (length r < length s)%nat.
Proof.
  induction s as [s IH] using (induction_ltof1 _ (@length N)).
  unfold ltof in IH. intros acc k r. destruct s as [| c s]; cbn; [discriminate |].
  destruct (N.eqb c 34); [intros [= <- <-]; lia |].
  destruct (N.eqb c 92).
  - destruct s as [| e s']; [discriminate |].
    destruct (N.eqb e 117).
    + destruct s' as [| h1 [| h2 [| h3 [| h4 s'']]]]; try discriminate.
      destruct (hex4 h1 h2 h3 h4); [| discriminate].
      intros H. apply IH in H; cbn in *; lia.
    + destruct (simple_escape e); [| discriminate].
      intros H. apply IH in H; cbn in *; lia.
  - destruct (c <? 32)%N; [discriminate |].
    intros H. apply IH in H; cbn in *; lia.
Qed.

Lemma lex_number_length s l r :
  lex_number s = Some (l, r) -> (length r < length s)%nat.
Proof.
  unfold lex_number.
  assert (Hsign : forall s1 sign,
             (match s with
              | c :: r0 => if N.eqb c 45 then ([c], r0) else ([], s)
              | [] => ([], s)
              end) = (sign, s1) -> (length s1 <= length s)%nat).
  { intros s1 sign. destruct s as [| c s0]; [intros [= <- <-]; lia |].
    destruct (N.eqb c 45); intros [= <- <-]; cbn; lia. }
  destruct (match s with
            | c :: r0 => if N.eqb c 45 then ([c], r0) else ([], s)
            | [] => ([], s)
            end) as [sign s1] eqn:E1.
  specialize (Hsign _ _ eq_refl).
  destruct s1 as [| c r1]; [discriminate |].
  destruct (isDigit c); [| discriminate].
  destruct (if N.eqb c 48 then ([c], r1)
            else let '(ds, r') := span_digits r1 in (c :: ds, r'))
    as [int s2] eqn:E2.
  assert (H2 : (length s2 <= length r1)%nat).
  { destruct (N.eqb c 48); [injection E2 as <- <-; lia |].
    destruct (span_digits r1) as [ds r'] eqn:E. injection E2 as <- <-.
    eapply span_digits_length; eassumption. }
  cbn in Hsign.
  destruct s2 as [| d r2].
  - intros [= <- <-]. cbn. lia.
  - destruct (N.eqb d 46).
    + destruct (span_digits r2) as [ds r3] eqn:E3.
      pose proof (span_digits_length _ _ _ E3) as H3.
      destruct ds as [| d1 ds]; [discriminate |].
      destruct r3 as [| e r4].
      * intros [= <- <-]. cbn in *. lia.
      * destruct (N.eqb e 101 || N.eqb e 69)%bool.
        -- destruct (match r4 with
                     | g :: r5 => if (N.eqb g 43 || N.eqb g 45)%bool
                                  then ([g], r5) else ([], r4)
                     | [] => ([], r4)
                     end) as [sg r5] eqn:E5.
           assert (H5 : (length r5 <= length r4)%nat).
           { destruct r4 as [| g r6]; [injection E5 as <- <-; lia |].
             destruct (N.eqb g 43 || N.eqb g 45)%bool; injection E5 as <- <-;
               cbn; lia. }
           destruct (span_digits r5) as [ds' r6] eqn:E6.
           pose proof (span_digits_length _ _ _ E6) as H6.
           destruct ds'; [discriminate |]. intros [= <- <-]. cbn in *. lia.
        -- intros [= <- <-]. cbn in *. lia.
    + destruct (N.eqb d 101 || N.eqb d 69)%bool.
      * destruct (match r2 with
                  | g :: r5 => if (N.eqb g 43 || N.eqb g 45)%bool
                               then ([g], r5) else ([], r2)
                  | [] => ([], r2)
                  end) as [sg r5] eqn:E5.
        assert (H5 : (length r5 <= length r2)%nat).
        { destruct r2 as [| g r6]; [injection E5 as <- <-; lia |].
          destruct (N.eqb g 43 || N.eqb g 45)%bool; injection E5 as <- <-;
            cbn; lia. }
        destruct (span_digits r5) as [ds' r6] eqn:E6.
        pose proof (span_digits_length _ _ _ E6) as H6.
        destruct ds'; [discriminate |]. intros [= <- <-]. cbn in *. lia.
      * intros [= <- <-]. cbn in *. lia.
Qed.

Lemma parse_literal_length s v r :
  parse_literal s = Parsed v r -> (length r < length s)%nat.
Proof.
  unfold parse_literal.
  destruct (strip_prefix (js "true") s) eqn:E1.
  { intros [= <- <-]. apply strip_prefix_length in E1.
    change (length (js "true")) with 4%nat in E1. lia. }
  destruct (strip_prefix (js "false") s) eqn:E2.
  { intros [= <- <-]. apply strip_prefix_length in E2.
    change (length (js "false")) with 5%nat in E2. lia. }
  destruct (strip_prefix (js "null") s) eqn:E3.
  { intros [= <- <-]. apply strip_prefix_length in E3.
    change (length (js "null")) with 4%nat in E3. lia. }
  destruct (lex_number s) as [[l r'] |] eqn:E4; [| discriminate].
  intros [= <- <-]. eapply lex_number_length; eassumption.
Qed.

(** A parsed value consumed at least one code unit. *)
Lemma parse_consumes f :
  (forall s v r, parse_value f s = Parsed v r -> (length r < length s)%nat) /\
  (forall s acc v r,
     parse_members f s acc = Parsed v r -> (length r < length s)%nat) /\
  (forall s acc v r,
     parse_elements f s acc = Parsed v r -> (length r < length s)%nat).
Proof.
  induction f as [| f (IHv & IHm & IHe)];
    [repeat split; intros; discriminate |].
  split; [| split].
  - intros s v r'. cbn [parse_value].
    destruct (skip_ws s) as [| c r] eqn:E; [discriminate |].
    apply skip_ws_cons in E.
    destruct (N.eqb c 123).
    { destruct (skip_ws r) as [| c2 r2] eqn:E2; [discriminate |].
      apply skip_ws_cons in E2.
      destruct (N.eqb c2 125); [intros [= <- <-]; lia |].
      intros H. apply IHm in H. cbn in H. lia. }
    destruct (N.eqb c 91).
    { destruct (skip_ws r) as [| c2 r2] eqn:E2; [discriminate |].
      apply skip_ws_cons in E2.
      destruct (N.eqb c2 93); [intros [= <- <-]; lia |].
      intros H. apply IHe in H. cbn in H. lia. }
    destruct (N.eqb c 34).
    { destruct (lex_string r []) as [[str r1] |] eqn:E3; [| discriminate].
      apply lex_string_length in E3. intros [= <- <-]. lia. }
    intros H. apply parse_literal_length in H. cbn in H. lia.
  - intros s acc v r'. cbn [parse_members].
    destruct (skip_ws s) as [| c r] eqn:E; [discriminate |].
    apply skip_ws_cons in E.
    destruct (N.eqb c 34); [| discriminate].
    destruct (lex_string r []) as [[k r1] |] eqn:E1; [| discriminate].
    apply lex_string_length in E1.
    destruct (skip_ws r1) as [| c3 r3] eqn:E3; [discriminate |].
    apply skip_ws_cons in E3.
    destruct (N.eqb c3 58); [| discriminate].
    destruct (parse_value f r3) as [v4 r4 | |] eqn:E4; try discriminate.
    apply IHv in E4.
    destruct (skip_ws r4) as [| c5 r5] eqn:E5; [discriminate |].
    apply skip_ws_cons in E5.
    destruct (N.eqb c5 44); [intros H; apply IHm in H; lia |].
    destruct (N.eqb c5 125); [| discriminate].
    intros [= <- <-]. lia.
  - intros s acc v r'. cbn [parse_elements].
    destruct (parse_value f s) as [v1 r1 | |] eqn:E1; try discriminate.
    apply IHv in E1.
    destruct (skip_ws r1) as [| c r2] eqn:E2; [discriminate |].
    apply skip_ws_cons in E2.
    destruct (N.eqb c 44); [intros H; apply IHe in H; lia |].
    destruct (N.eqb c 93); [| discriminate].
    intros [= <- <-]. lia.
Qed.

(** Two units of fuel per code unit are enough. *)
Lemma parse_fuel f :
  (forall s, (2 * length s < f)%nat -> parse_value f s <> OutOfFuel) /\
  (forall s acc, (2 * length s + 1 < f)%nat -> parse_members f s acc <> OutOfFuel) /\
  (forall s acc, (2 * length s + 1 < f)%nat -> parse_elements f s acc <> OutOfFuel).
Proof.
  induction f as [| f (IHv & IHm & IHe)]; [repeat split; intros; lia |].
  destruct (parse_consumes f) as (Cv & Cm & Ce).
  split; [| split].
  - intros s Hf. cbn [parse_value].
    destruct (skip_ws s) as [| c r] eqn:E; [discriminate |].
    apply skip_ws_cons in E.
    destruct (N.eqb c 123).
    { destruct (skip_ws r) as [| c2 r2] eqn:E2; [discriminate |].
      apply skip_ws_cons in E2.
      destruct (N.eqb c2 125); [discriminate |].
      apply IHm. cbn. lia. }
    destruct (N.eqb c 91).
    { destruct (skip_ws r) as [| c2 r2] eqn:E2; [discriminate |].
      apply skip_ws_cons in E2.
      destruct (N.eqb c2 93); [discriminate |].
      apply IHe. cbn. lia. }
    destruct (N.eqb c 34).
    { destruct (lex_string r []) as [[str r1] |]; discriminate. }
    unfold parse_literal. repeat case_match; discriminate.
  - intros s acc Hf. cbn [parse_members].
    destruct (skip_ws s) as [| c r] eqn:E; [discriminate |].
    apply skip_ws_cons in E.
    destruct (N.eqb c 34); [| discriminate].
    destruct (lex_string r []) as [[k r1] |] eqn:E1; [| discriminate].
    apply lex_string_length in E1.
    destruct (skip_ws r1) as [| c3 r3] eqn:E3; [discriminate |].
    apply skip_ws_cons in E3.
    destruct (N.eqb c3 58); [| discriminate].
    destruct (parse_value f r3) as [v4 r4 | |] eqn:E4; [| discriminate |].
    + apply Cv in E4.
      destruct (skip_ws r4) as [| c5 r5] eqn:E5; [discriminate |].
      apply skip_ws_cons in E5.
      destruct (N.eqb c5 44); [apply IHm; lia |].
      destruct (N.eqb c5 125); discriminate.
    + exfalso. revert E4. apply IHv. lia.
  - intros s acc Hf. cbn [parse_elements].
    destruct (parse_value f s) as [v1 r1 | |] eqn:E1; [| discriminate |].
    + apply Cv in E1.
      destruct (skip_ws r1) as [| c r2] eqn:E2; [discriminate |].
      apply skip_ws_cons in E2.
      destruct (N.eqb c 44); [apply IHe; lia |].
      destruct (N.eqb c 93); discriminate.
    + exfalso. revert E1. apply IHv. lia.
Qed.

(** [JSON_parse] answers [None] only for a syntax error. *)
Lemma JSON_parse_total s : parse_value (S (2 * length s)) s <> OutOfFuel.
Proof. apply (proj1 (parse_fuel (S (2 * length s)))). lia. Qed.

(** So [JSON_parse] answers [None] only where [JSON.parse] throws: on a
    syntax error or on text after the value. *)
Lemma JSON_parse_None s :
  JSON_parse s = None ->
  parse_value (S (2 * length s)) s = SyntaxError \/
  exists v r,
    parse_value (S (2 * length s)) s = Parsed v r /\ skip_ws r <> [].
Proof.
  unfold JSON_parse. pose proof (JSON_parse_total s) as Ht.
  destruct (parse_value (S (2 * length s)) s) as [v r | |];
    [| auto | contradiction].
  destruct (skip_ws r) eqn:E; [discriminate |].
  intros _. right. exists v, r. split; [reflexivity |]. rewrite E. discriminate.
Qed.
(** ** The poll loop *)

Lemma count_app p l1 l2 : count p (l1 ++ l2) = (count p l1 + count p l2)%nat.
Proof. induction l1 as [| e l1 IH]; simpl; [reflexivity | rewrite IH; lia]. Qed.

Ltac run_handlers :=
  unfold on_timeline, when, var, assign, emit, elapse, now, try_catch, bind,
    gets, modify, ret, throw; cbn.

(** One iteration: a five-second wait and one status request, whatever the
    request answers. *)
Lemma poll_iteration_run env id cid w :
  truthy cid = true ->
  exists w' tail,
    poll_iteration env id cid w = (Ok tt, w') /\
    trace w' = trace w ++ [E_setTimeout 5000 (clock w); E_getCallStatus cid] ++ tail /\
    count is_fetch tail = 0%nat /\ count is_wait tail = 0%nat /\
    clock w + 5000 <= clock w' /\
    fetched w' = S (fetched w) /\
    Vars.startTime (vars w') = Vars.startTime (vars w) /\
    Vars.callEnded (vars w')
    = (Vars.callEnded (vars w) || answered_terminal env (fetched w)) /\
    (Vars.callEnded (vars w) = false ->
     observed_terminal (vars w) = false ->
     Vars.callEnded (vars w') = observed_terminal (vars w')).
Proof.
  intros Hc.
  unfold poll_iteration, setTimeout, retellService.getCallStatus,
    keep_transcript, findByIdAndUpdate, mongo_step, answered_terminal,
    observed_terminal.
  run_handlers. rewrite Hc. cbn.
  destruct (reply (retell_get_call env (fetched w))) as [data|] eqn:Hr; cbn;
    [destruct (retellService.terminal (call_status data)) eqn:Ht; cbn;
     [destruct (retellService.has_transcript _ _) eqn:Hh; cbn;
      [destruct (mongo_ok env (mongo_ops w)); cbn |] |] |];
    eexists _, _; (split; [reflexivity |]); cbn; rewrite <- ?app_assoc; cbn;
    (split; [reflexivity |]); cbn; rewrite ?Ht;
    repeat split; try lia; rewrite ?orb_true_r, ?orb_false_r; auto;
    intros -> ->; reflexivity.
Qed.

Lemma poll_while_run env id cid :
  truthy cid = true ->
  forall fuel w,
    0 <= clock w - Vars.startTime (vars w) ->
    maxWaitTime - (clock w - Vars.startTime (vars w)) <= 5000 * Z.of_nat fuel ->
    Vars.callEnded (vars w) = observed_terminal (vars w) ->
    exists w' evs,
      poll_while env fuel id cid w = (Ok tt, w') /\
      trace w' = trace w ++ evs /\
      Forall (wait_ok (Vars.startTime (vars w))) evs /\
      count is_fetch evs = count is_wait evs /\
      fetched w' = (fetched w + count is_fetch evs)%nat /\
      clock w <= clock w' /\
      (count is_wait evs = 0%nat \/
       5000 * (Z.of_nat (count is_wait evs) - 1)
       < maxWaitTime - (clock w - Vars.startTime (vars w))) /\
      Vars.startTime (vars w') = Vars.startTime (vars w) /\
      Vars.callEnded (vars w') = observed_terminal (vars w') /\
      (Vars.callEnded (vars w') = false ->
       maxWaitTime <= clock w' - Vars.startTime (vars w)) /\
      (Vars.callEnded (vars w) = true -> evs = [] /\ w' = w) /\
      (forall k, (fetched w <= k < fetched w')%nat ->
                 answered_terminal env k = true ->
                 S k = fetched w' /\ Vars.callEnded (vars w') = true).
Proof.
  intros Hc. induction fuel as [| fuel IH]; intros w Hpos Hfuel Hinv.
  - (* no fuel: the ceiling has passed already *)
    exists w, []. cbn. unfold bind, var, gets, now. cbn.
    assert ((clock w - Vars.startTime (vars w) <? maxWaitTime) = false) as ->
      by (apply Z.ltb_ge; unfold maxWaitTime in *; lia).
    rewrite andb_false_r. unfold ret.
    rewrite app_nil_r. repeat split; auto; try lia;
      try (intros _; unfold maxWaitTime in *; lia).
  - cbn [poll_while]. unfold bind at 1 2 3, var, gets, now. cbn.
    destruct (negb (Vars.callEnded (vars w))
              && (clock w - Vars.startTime (vars w) <? maxWaitTime)) eqn:Hcond.
    + apply andb_true_iff in Hcond as [Hne Hlt].
      apply negb_true_iff in Hne. apply Z.ltb_lt in Hlt.
      destruct (poll_iteration_run env id cid w Hc)
        as (w1 & tail & Hrun & Htr & Hf0 & Hw0 & Hclk & Hfet & Hst & Hend & Hobs).
      unfold bind. rewrite Hrun.
      destruct (IH w1) as (w' & evs & Hrun' & Htr' & Hall & Hcnt & Hfet' & Hclk'
                           & Hbound & Hst' & Hinv' & Hto & Hstop & Hfirst).
      { rewrite Hst. lia. }
      { rewrite Hst. lia. }
      { apply Hobs; [assumption | congruence]. }
      exists w', ([E_setTimeout 5000 (clock w); E_getCallStatus cid] ++ tail ++ evs).
      split; [exact Hrun' |].
      split; [rewrite Htr', Htr, <- !app_assoc; reflexivity |].
      rewrite !count_app, Hf0, Hw0. cbn [count is_fetch is_wait].
      rewrite Hst in *.
      split.
      { constructor; [cbn; unfold maxWaitTime in *; lia |].
        constructor; [exact I |].
        apply Forall_app. split; [| exact Hall].
        clear - Hw0. induction tail as [| e tail IHt]; constructor.
        - destruct e; cbn in *; try exact I. discriminate.
        - apply IHt. destruct e; cbn in *; try assumption; discriminate. }
      split; [lia |]. split; [lia |]. split; [lia |].
      split.
      { right. destruct Hbound as [-> | Hb]; cbn; unfold maxWaitTime in *; lia. }
      split; [congruence |]. split; [assumption |].
      split; [assumption |].
      split; [congruence |].
      intros k Hk Hterm.
      destruct (decide (k = fetched w)) as [-> | Hne'].
      * (* the first answer is terminal: the loop stops at once *)
        rewrite Hne, Hterm in Hend. cbn in Hend.
        destruct (Hstop Hend) as [-> ->].
        cbn in Hfet'. split; [lia | exact Hend].
      * apply Hfirst; [lia | assumption].
    + (* the loop condition fails *)
      exists w, []. unfold ret. rewrite app_nil_r.
      repeat split; auto; try lia.
      intros Hne. rewrite Hne in Hcond. cbn in Hcond.
      apply Z.ltb_ge in Hcond. lia.
Qed.


Lemma poll_unfold env id w cid :
  Vars.verificationCallId (vars w) = Some cid ->
  truthy cid = true ->
  poll env id w
  = bind (poll_while env poll_fuel id cid) (fun _ => final_check env cid)
      (poll_start w).
Proof.
  intros Hv Hc. unfold poll, poll_start. run_handlers.
  rewrite Hv. cbn. rewrite Hc. reflexivity.
Qed.




(** ** Lenient payload extraction *)

Lemma indexOf_from_skip c pre rest i :
  Forall (fun x => x <> c) pre ->
  indexOf_from c (pre ++ c :: rest) i = i + Z.of_nat (length pre).
Proof.
  intros H. revert i. induction H as [| x pre Hx _ IH]; intros i; cbn.
  - rewrite N.eqb_refl. lia.
  - destruct (N.eqb_spec x c) as [-> | _]; [contradiction |].
    rewrite IH. lia.
Qed.

Lemma lastIndexOf_from_absent c post i best :
  Forall (fun x => x <> c) post ->
  lastIndexOf_from c post i best = best.
Proof.
  intros H. revert i. induction H as [| x post Hx _ IH]; intros i; cbn.
  - reflexivity.
  - destruct (N.eqb_spec x c) as [-> | _]; [contradiction | apply IH].
Qed.

Lemma lastIndexOf_from_last c s post i best :
  Forall (fun x => x <> c) post ->
  lastIndexOf_from c (s ++ c :: post) i best = i + Z.of_nat (length s).
Proof.
  intros H. revert i best. induction s as [| x s IH]; intros i best; cbn.
  - rewrite N.eqb_refl, lastIndexOf_from_absent by assumption. lia.
  - rewrite IH. lia.
Qed.

Lemma substring_middle (pre body post : jsstring) :
  substring (pre ++ body ++ post) (Z.of_nat (length pre))
    (Z.of_nat (length pre) + Z.of_nat (length body)) = body.
Proof.
  unfold substring. rewrite !length_app.
  replace (Z.max 0 (Z.min (Z.of_nat (length pre))
                      (Z.of_nat (length pre + (length body + length post)))))
    with (Z.of_nat (length pre)) by lia.
  replace (Z.max 0 (Z.min (Z.of_nat (length pre) + Z.of_nat (length body))
                      (Z.of_nat (length pre + (length body + length post)))))
    with (Z.of_nat (length pre + length body)) by lia.
  replace (Z.min (Z.of_nat (length pre)) (Z.of_nat (length pre + length body)))
    with (Z.of_nat (length pre)) by lia.
  replace (Z.max (Z.of_nat (length pre)) (Z.of_nat (length pre + length body))
           - Z.of_nat (length pre))
    with (Z.of_nat (length body)) by lia.
  rewrite !Nat2Z.id.
  rewrite drop_app_length. apply take_app_length.
Qed.

(** Where the two delimiters are found in a reply whose leading prose has
    no left brace and whose trailing prose has no right brace. *)
Lemma delimiters_located (pre inner post : jsstring) :
  let body := groqService.left_brace :: inner ++ [groqService.right_brace] in
  Forall (fun c => c <> groqService.left_brace) pre ->
  Forall (fun c => c <> groqService.right_brace) post ->
  indexOf groqService.left_brace (pre ++ body ++ post) = Z.of_nat (length pre) /\
  lastIndexOf groqService.right_brace (pre ++ body ++ post)
  = Z.of_nat (length pre) + Z.of_nat (length body) - 1.
Proof.
  intros body Hpre Hpost. split.
  - unfold indexOf, body. cbn [app]. rewrite indexOf_from_skip by assumption. lia.
  - unfold lastIndexOf, body.
    replace (pre ++ (groqService.left_brace :: inner ++ [groqService.right_brace]) ++ post)
      with ((pre ++ groqService.left_brace :: inner) ++ groqService.right_brace :: post)
      by (cbn; rewrite <- !app_assoc; reflexivity).
    rewrite lastIndexOf_from_last by assumption.
    rewrite !length_app. cbn [length]. rewrite length_app. cbn [length]. lia.
Qed.

(** C8, as amended.  For a reply made of a JSON text that starts with a
    left brace and ends with a right brace, preceded by prose without a left
    brace and followed by prose without a right brace, the extraction takes
    the substring from the first left brace to the last right brace, which
    is the embedded text, and returns what [JSON.parse] makes of it: in
    [processHealthRecord], and in [processTranscript] whenever the whole
    reply is not itself valid JSON. *)
Theorem extraction_tolerates_brace_free_prose (pre inner post : jsstring) v :
  let body := groqService.left_brace :: inner ++ [groqService.right_brace] in
  let content := pre ++ body ++ post in
  Forall (fun c => c <> groqService.left_brace) pre ->
  Forall (fun c => c <> groqService.right_brace) post ->
  JSON_parse body = Some v ->
  substring content (indexOf groqService.left_brace content)
    (lastIndexOf groqService.right_brace content + 1) = body /\
  groqService.extract_payload content = Some v /\
  groqService.parse_response content = v /\
  (JSON_parse content = None -> groqService.extract_analysis content = Some v).
Proof.
  intros body content Hpre Hpost Hparse.
  destruct (delimiters_located pre inner post Hpre Hpost) as [Hi Hj].
  fold body in Hi, Hj. fold content in Hi, Hj.
  assert (Hsub : substring content (indexOf groqService.left_brace content)
                   (lastIndexOf groqService.right_brace content + 1) = body).
  { rewrite Hi, Hj.
    replace (Z.of_nat (length pre) + Z.of_nat (length body) - 1 + 1)
      with (Z.of_nat (length pre) + Z.of_nat (length body)) by lia.
    apply substring_middle. }
  assert (Hlen : (1 < length body)%nat)
    by (unfold body; cbn; rewrite length_app; cbn; lia).
  assert (Hpay : groqService.extract_payload content = Some v).
  { unfold groqService.extract_payload. rewrite Hsub, Hi, Hj.
    replace (Z.of_nat (length pre) >=? 0) with true by (symmetry; apply Z.geb_le; lia).
    replace (Z.of_nat (length pre) + Z.of_nat (length body) - 1 + 1
             >? Z.of_nat (length pre)) with true
      by (symmetry; apply Z.gtb_lt; lia).
    exact Hparse. }
  repeat split.
  - exact Hsub.
  - exact Hpay.
  - unfold groqService.parse_response. rewrite Hpay. reflexivity.
  - intros Hwhole. unfold groqService.extract_analysis, groqService.match_braces.
    rewrite Hwhole, Hi, Hj.
    replace (Z.of_nat (length pre) >=? 0) with true by (symmetry; apply Z.geb_le; lia).
    replace (Z.of_nat (length pre) + Z.of_nat (length body) - 1
             >? Z.of_nat (length pre)) with true
      by (symmetry; apply Z.gtb_lt; lia).
    rewrite <- Hi at 1. rewrite <- Hj. rewrite Hsub. exact Hparse.
Qed.

(** C8, instance. *)
Lemma extraction_tolerates_brace_free_prose_witness :
  Forall (fun c => c <> groqService.left_brace) plain_prose /\
  Forall (fun c => c <> groqService.right_brace) closing_prose /\
  JSON_parse embedded_object = Some (JObj [(js "a", JNum (js "1"))]) /\
  groqService.extract_payload (plain_prose ++ embedded_object ++ closing_prose)
  = Some (JObj [(js "a", JNum (js "1"))]).
Proof.
  assert (H1 : Forall (fun c => c <> groqService.left_brace) plain_prose)
    by (repeat constructor; discriminate).
  assert (H2 : Forall (fun c => c <> groqService.right_brace) closing_prose)
    by (repeat constructor; discriminate).
  assert (H3 : JSON_parse embedded_object = Some (JObj [(js "a", JNum (js "1"))]))
    by reflexivity.
  split; [exact H1 |]. split; [exact H2 |]. split; [exact H3 |].
  exact (proj1 (proj2 (extraction_tolerates_brace_free_prose
                         plain_prose (quote ++ js "a" ++ quote ++ js ":1")
                         closing_prose _ H1 H2 H3))).
Defined.

(** C8, counterexample.  A well-formed object after prose that mentions
    braces: the substring from the first left brace to the last right brace
    takes in part of the prose, [JSON.parse] rejects it, and neither
    extraction returns the embedded object. *)
Lemma extraction_fails_on_prose_with_braces :
  JSON_parse embedded_object = Some (JObj [(js "a", JNum (js "1"))]) /\
  JSON_parse prose_with_braces = None /\
  groqService.extract_payload (prose_with_braces ++ embedded_object) = None /\
  member (js "error")
    (groqService.parse_response (prose_with_braces ++ embedded_object))
  = Some (JStr (js "Failed to parse AI response into structured data")) /\
  groqService.extract_analysis (prose_with_braces ++ embedded_object) = None.
Proof. vm_compute. repeat split; reflexivity. Qed.

(** ** The services, run *)

Arguments retellService.processCallTranscript : simpl never.

Lemma processCallTranscript_run env callData w :
  retellService.processCallTranscript env callData w
  = (Ok (transcript_result env callData),
     with_trace (trace w ++ [E_processCallTranscript]) w).
Proof.
  unfold retellService.processCallTranscript, transcript_result,
    groqService.processTranscript.
  run_handlers.
  destruct (retellService.has_transcript _ _); cbn; [| reflexivity].
  destruct (groq_analyse env _); reflexivity.
Qed.

Lemma apply_updates_app us1 us2 r :
  apply_updates (us1 ++ us2) r = apply_updates us2 (apply_updates us1 r).
Proof. unfold apply_updates. apply fold_left_app. Qed.

(** ** The status endpoint *)



(** C5, counterexample.  The status endpoint, asked about the pending
    record (whose upload ended in [processing_complete]) when the platform
    reports the call ended without a transcript, writes
    [verification_ended_no_transcript]: a value outside the chain, written
    after a terminal state. *)
Lemma status_refresh_writes_off_chain :
  processingStatus pending_record = processing_complete /\
  (let '(_, w') :=
     getCallVerificationStatus ended_without_transcript_env sample_upload
       pending_world in
   status_writes (trace w') = [verification_ended_no_transcript] /\
   (processingStatus <$> store w' !! 1%positive)
   = Some verification_ended_no_transcript) /\
  verification_ended_no_transcript ∉ chain_statuses.
Proof.
  split; [reflexivity |]. split; [vm_compute; split; reflexivity |].
  intros H. repeat (apply elem_of_cons in H as [H | H]; [discriminate |]).
  inversion H.
Qed.
(** ** The stages, run *)

Arguments documentAIService.parsePdfDocument : simpl never.
Arguments documentAIService.parseHandwrittenDocument : simpl never.
Arguments groqService.processHealthRecord : simpl never.
Arguments s3Service.uploadFileToS3 : simpl never.
Arguments retellService.initiateVerificationCall : simpl never.
Arguments retellService.getCallStatus : simpl never.

Lemma parsePdfDocument_run env w :
  documentAIService.parsePdfDocument env w
  = (Ok (extracted env (js ".pdf")),
     with_trace (trace w ++ [E_parsePdfDocument]) w).
Proof.
  unfold documentAIService.parsePdfDocument, documentAIService.processDocument,
    extracted.
  run_handlers. destruct (documentAI_process env); reflexivity.
Qed.

Lemma parseHandwrittenDocument_run env ext w :
  ext ∈ [js ".jpg"; js ".jpeg"; js ".png"] ->
  documentAIService.parseHandwrittenDocument env ext w
  = (Ok (extracted env ext),
     with_trace (trace w ++ [E_parseHandwrittenDocument]) w).
Proof.
  intros H.
  unfold documentAIService.parseHandwrittenDocument,
    documentAIService.processDocument, extracted.
  run_handlers.
  repeat (apply elem_of_cons in H as [-> | H]);
    [| | | inversion H];
    (destruct (documentAI_process env); reflexivity).
Qed.

Lemma processHealthRecord_run env ctx w :
  groqService.processHealthRecord env ctx w
  = (Ok (structured env ctx), with_trace (trace w ++ [E_processHealthRecord]) w).
Proof.
  unfold groqService.processHealthRecord, groqService.structuring_request,
    structured.
  run_handlers.
  destruct (groq_api_key env); cbn; [| reflexivity].
  destruct (groq_structure env); reflexivity.
Qed.

Ltac wp_run :=
  unfold wp; run_handlers; repeat case_match; simplify_eq; cbn in *;
  rewrite ?count_app; cbn.

Ltac silent_done :=
  match goal with
  | H : trace ?w = ?t0 ++ ?evs |- exists evs', _ = ?t0 ++ evs' /\ _ =>
      rewrite ?H; rewrite <- ?app_assoc; eexists;
      split; [reflexivity | rewrite ?count_app; cbn; lia]
  end.

Ltac staged_done :=
  unfold staged, quiet, failed, silent in *; cbn in *;
  repeat match goal with
         | H : _ /\ _ |- _ => destruct H
         | H : exists _, _ |- _ => destruct H
         end;
  repeat split; eauto; try silent_done; try lia; try congruence;
  try (rewrite ?lookup_insert_eq, ?lookup_alter_eq, ?fmap_is_Some; eauto);
  try match goal with
      | H : is_Some None |- _ => destruct H; discriminate
      | H : is_Some ?x, E : ?x = None |- _ =>
          rewrite E in H; destruct H; discriminate
      end.

(** *** An upload without a phone number, stage by stage *)

Lemma supported_cases ext :
  supported ext
  = (bool_decide (ext = js ".pdf")
     || bool_decide (ext ∈ [js ".jpg"; js ".jpeg"; js ".png"])).
Proof.
  unfold supported.
  destruct (bool_decide (ext = js ".pdf")) eqn:E1; cbn.
  - apply bool_decide_eq_true in E1 as ->. reflexivity.
  - apply bool_decide_eq_false in E1.
    apply bool_decide_ext. rewrite elem_of_cons. tauto.
Qed.

Lemma staged_parse_file env t0 w :
  quiet t0 w ->
  wp (parse_file env)
    (fun ok w' => ok = supported (Vars.fileExtension (vars w)) /\
                  if ok then staged t0 None false false w' else silent t0 w')
    (fun _ => False) w.
Proof.
  intros H. rewrite supported_cases.
  unfold parse_file, documentAIService.parsePdfDocument,
    documentAIService.parseHandwrittenDocument, documentAIService.processDocument.
  wp_run; staged_done.
Qed.

Lemma staged_close_documentAI t0 w :
  staged t0 None false false w ->
  wp close_documentAI (fun _ => staged t0 None false false) (fun _ => False) w.
Proof. intros H. unfold close_documentAI. wp_run; staged_done. Qed.

Lemma staged_create_record env req f t0 w :
  staged t0 None false false w ->
  wp (create_record env req f)
    (fun id => staged t0 (Some id) false false) (failed env t0) w.
Proof.
  intros H. unfold create_record, create, mongo_step.
  wp_run; staged_done.
Qed.

Lemma staged_initiate env req id t0 w :
  phone_provided (Req.patientPhone req) = false ->
  staged t0 (Some id) false false w ->
  wp (initiate env req id) (fun _ => staged t0 (Some id) false false)
    (fun _ => False) w.
Proof. intros Hp H. unfold initiate. rewrite Hp. wp_run; staged_done. Qed.

Lemma staged_poll env id t0 sd url w :
  staged t0 (Some id) sd url w ->
  wp (poll env id) (fun _ => staged t0 (Some id) sd url) (fun _ => False) w.
Proof.
  intros H. unfold poll.
  assert (Vars.verificationCallId (vars w) = None) as E by apply H.
  unfold wp, bind, var, gets. cbn. rewrite E. cbn. exact H.
Qed.

Lemma staged_close_verification id t0 w :
  staged t0 (Some id) false false w ->
  wp close_verification (fun _ => staged t0 (Some id) false false)
    (fun _ => False) w.
Proof. intros H. unfold close_verification. wp_run; staged_done. Qed.

Lemma staged_structuring env req id t0 w :
  staged t0 (Some id) false false w ->
  wp (structuring env req) (fun _ => staged t0 (Some id) true false)
    (fun _ => False) w.
Proof.
  intros H. unfold structuring.
  unfold wp. run_handlers. rewrite processHealthRecord_run. cbn.
  staged_done.
Qed.

Lemma staged_analyse_transcript env id t0 w :
  staged t0 (Some id) true false w ->
  wp (analyse_transcript env id) (fun _ => staged t0 (Some id) true false)
    (fun _ => False) w.
Proof.
  intros H. unfold analyse_transcript.
  assert (Vars.callTranscript (vars w) = None) as E1 by apply H.
  assert (Vars.callTranscriptObject (vars w) = None) as E2 by apply H.
  unfold wp, bind, gets. cbn. rewrite E1, E2. cbn. exact H.
Qed.

Lemma staged_close_groqAI id t0 w :
  staged t0 (Some id) true false w ->
  wp close_groqAI (fun _ => staged t0 (Some id) true false) (fun _ => False) w.
Proof. intros H. unfold close_groqAI. wp_run; staged_done. Qed.

Lemma staged_archive env f id t0 w :
  staged t0 (Some id) true false w ->
  wp (archive env f) (fun _ => staged t0 (Some id) true true) (fun _ => False) w.
Proof.
  intros H. unfold archive, s3Service.uploadFileToS3.
  wp_run; staged_done.
Qed.

Lemma staged_finalize env id t0 w :
  staged t0 (Some id) true true w ->
  wp (finalize env id)
    (fun resp w' =>
       silent t0 w' /\
       exists r p, resp = Created id r p /\ store w' !! id = Some r /\
                   processingStatus r = processing_complete)
    (failed env t0) w.
Proof.
  intros (Hq & _ & [r0 Hr0] & Hsd & Hurl).
  destruct (Hsd eq_refl) as [sd Esd]. destruct (Hurl eq_refl) as [url Eurl].
  destruct Hq as ((evs & Hn & Hc) & _ & _ & _ & Htr).
  unfold finalize, findByIdAndUpdate, findById, mongo_step, failed, silent.
  unfold wp. run_handlers. rewrite Esd, Eurl, Htr. cbn.
  destruct (mongo_ok env (mongo_ops w)) eqn:E1; cbn;
    [| split; [silent_done | eauto]].
  destruct (mongo_ok env (S (mongo_ops w))) eqn:E2; cbn;
    [| split; [silent_done | eauto]].
  rewrite lookup_alter_eq, Hr0. cbn.
  split; [silent_done |].
  eexists _, _. split; [reflexivity |].
  split; [rewrite lookup_alter_eq, Hr0; reflexivity | reflexivity].
Qed.

Ltac wp_seq L :=
  apply wp_bind; eapply wp_mono;
  [ eapply L; eauto
  | cbn beta; intros ? ? ?
  | cbn beta; intros ? ?; try contradiction; try assumption ].

Lemma staged_pipeline env req f t0 w :
  phone_provided (Req.patientPhone req) = false ->
  staged t0 None false false w ->
  wp (pipeline env req f)
    (fun resp w' =>
       silent t0 w' /\
       exists id r p, resp = Created id r p /\ store w' !! id = Some r /\
                      processingStatus r = processing_complete)
    (failed env t0) w.
Proof.
  intros Hp H. unfold pipeline.
  wp_seq staged_create_record.
  wp_seq staged_initiate.
  wp_seq staged_poll.
  wp_seq staged_close_verification.
  wp_seq staged_structuring.
  wp_seq staged_analyse_transcript.
  wp_seq staged_close_groqAI.
  wp_seq staged_archive.
  eapply wp_mono; [eapply staged_finalize; eauto | | auto].
  cbn beta. intros resp wf (Hs & r & p & -> & Hr & Hst). eauto 10.
Qed.

Lemma silent_refl w : silent (trace w) w.
Proof. exists []. rewrite app_nil_r. split; reflexivity. Qed.

(** C4.  An upload whose phone number is absent or blank makes no call
    into the Verification Call Client, whatever else happens; and when the
    upload is accepted (a file on disk with a supported extension) and the
    store answers, the handler returns 201 with the record in the terminal
    state [processing_complete]. *)
Theorem no_phone_no_verification_call env req w :
  phone_provided (Req.patientPhone req) = false ->
  silent (trace w) (uploadHealthRecord env req w).2 /\
  (forall f,
     Req.file req = Some f -> supported (extname f) = true ->
     fs_uploads_dir env = true -> fs_file_exists env = true ->
     reliable_store env ->
     exists id r p,
       (uploadHealthRecord env req w).1 = Ok (Created id r p) /\
       store (uploadHealthRecord env req w).2 !! id = Some r /\
       processingStatus r = processing_complete /\
       terminal_status (processingStatus r) = true).
Proof.
  intros Hp.
  assert (Hwp : wp (uploadHealthRecord env req)
                  (fun resp w' =>
                     silent (trace w) w' /\
                     (forall f, Req.file req = Some f ->
                                supported (extname f) = true ->
                                fs_uploads_dir env = true ->
                                fs_file_exists env = true ->
                                reliable_store env ->
                                exists id r p,
                                  resp = Created id r p /\
                                  store w' !! id = Some r /\
                                  processingStatus r = processing_complete))
                  (fun _ => False) w).
  { unfold uploadHealthRecord. apply wp_try.
    destruct (Req.file req) as [f |];
      [| apply wp_ret; split; [apply silent_refl | intros ? [=]]].
    destruct (fs_uploads_dir env);
      [| apply wp_ret; split; [apply silent_refl | intros ? _ _ [=]]].
    destruct (fs_file_exists env);
      [| apply wp_ret; split; [apply silent_refl | intros ? _ _ _ [=]]].
    cbn [negb].
    apply wp_bind. unfold wp at 1, now, gets. cbn.
    apply wp_bind. unfold wp at 1, assign, modify. cbn.
    set (w1 := with_vars (init_vars (extname f) (clock w)) w).
    assert (Hq : quiet (trace w) w1).
    { split; [exact (silent_refl w1) | repeat split]. }
    apply wp_bind.
    eapply wp_mono;
      [eapply staged_parse_file; exact Hq | | cbn beta; intros ? []].
    cbn beta. intros ok w2 [Hsup Hok]. cbn in Hsup. destruct ok.
    - wp_seq staged_close_documentAI.
      eapply wp_mono; [eapply staged_pipeline; eauto | |].
      + cbn beta. intros resp wf (Hs & id & r & p & -> & Hr & Hst).
        split; [exact Hs |]. intros; eauto 10.
      + cbn beta. intros wf (Hs & n & Hn) e. unfold wp. run_handlers.
        split.
        * destruct Hs as (evs & -> & Hc). exists (evs ++ [E_unlink]).
          rewrite app_assoc, count_app. cbn. split; [reflexivity | lia].
        * intros f' _ _ _ _ Hrel. rewrite Hrel in Hn. discriminate.
    - apply wp_ret. split; [exact Hok |].
      intros f' [= <-] Hsup'. rewrite Hsup' in Hsup. discriminate. }
  unfold wp in Hwp.
  destruct (uploadHealthRecord env req w) as [[resp | e |] wf]; cbn;
    [| contradiction | contradiction].
  destruct Hwp as [Hs Hacc]. split; [exact Hs |].
  intros f Hf Hsup Hdir Hex Hrel.
  destruct (Hacc f Hf Hsup Hdir Hex Hrel) as (id & r & p & -> & Hr & Hst).
  exists id, r, p. rewrite Hst. repeat split; auto.
Qed.

(** C4, instance: an upload whose phone number is blank. *)
Lemma no_phone_no_verification_call_witness :
  phone_provided (Req.patientPhone upload_without_phone) = false /\
  silent (trace sample_world)
    (uploadHealthRecord sample_env upload_without_phone sample_world).2 /\
  exists id r p,
    (uploadHealthRecord sample_env upload_without_phone sample_world).1
    = Ok (Created id r p) /\
    store (uploadHealthRecord sample_env upload_without_phone sample_world).2 !! id
    = Some r /\
    processingStatus r = processing_complete /\
    terminal_status (processingStatus r) = true.
Proof.
  split; [reflexivity |].
  destruct (no_phone_no_verification_call sample_env upload_without_phone
              sample_world eq_refl) as [Hs Hacc].
  split; [exact Hs |].
  apply (Hacc sample_file); first [reflexivity | intros n; reflexivity].
Defined.
(** ** The status writes of an upload *)

Arguments status_writes : simpl never.

Lemma status_writes_snoc evs e :
  status_writes (evs ++ [e]) = status_writes evs ++ status_write e.
Proof.
  unfold status_writes. rewrite flat_map_app. cbn. rewrite app_nil_r. reflexivity.
Qed.

Lemma status_writes_app evs1 evs2 :
  status_writes (evs1 ++ evs2) = status_writes evs1 ++ status_writes evs2.
Proof. unfold status_writes. apply flat_map_app. Qed.

Lemma chain_nil k : chain k [].
Proof.
  split; [| constructor]. intros i j a b _ H. rewrite lookup_nil in H. discriminate.
Qed.

Lemma chain_weaken k k' ws : chain k ws -> (k <= k')%nat -> chain k' ws.
Proof.
  intros [Hf Ha] Hk. split; [exact Hf |].
  eapply Forall_impl; [exact Ha |]. cbn. intros s [? ?]. split; [assumption | lia].
Qed.

Lemma chain_step k k' ws s :
  chain k ws -> (k < rank s)%nat -> (rank s <= k')%nat -> s ∈ chain_statuses ->
  chain k' (ws ++ [s]).
Proof.
  intros [Hf Ha] Hlt Hle Hin. split.
  - intros i j a b Hij Hi Hj.
    destruct (decide (j < length ws)%nat) as [Hj' | Hj'].
    + rewrite lookup_app_l in Hi by lia. rewrite lookup_app_l in Hj by lia.
      exact (Hf i j a b Hij Hi Hj).
    + assert (b = s) as ->.
      { rewrite lookup_app_r in Hj by lia.
        destruct (j - length ws)%nat; cbn in Hj; [congruence | discriminate]. }
      assert (i < length ws)%nat as Hi'.
      { apply lookup_lt_Some in Hj. rewrite length_app in Hj. cbn in Hj. lia. }
      rewrite lookup_app_l in Hi by lia.
      rewrite Forall_forall in Ha.
      destruct (Ha a) as [_ ?]; [| lia].
      eapply list_elem_of_lookup_2. exact Hi.
  - apply Forall_app. split.
    + eapply Forall_impl; [exact Ha |]. cbn. intros x [? ?]. split; [assumption | lia].
    + constructor; [| constructor]. split; [assumption | lia].
Qed.

Ltac written_done :=
  unfold written in *; cbn in *;
  repeat match goal with
         | H : _ /\ _ |- _ => destruct H
         | H : exists _, _ |- _ => destruct H
         end;
  rewrite ?status_writes_snoc; cbn;
  match goal with
  | H : status_writes (trace ?w) = _ |- _ => rewrite ?H
  end;
  rewrite ?app_nil_r, <- ?app_assoc;
  eexists; (split; [reflexivity |]);
  first
    [ eapply chain_weaken; [eassumption | lia]
    | eapply chain_step;
      [eassumption | cbn; lia | cbn; lia
       | unfold chain_statuses; rewrite !elem_of_cons; tauto] ].

Lemma written_parse_file env base k w :
  written base k w -> wp (parse_file env) (fun _ => written base k) (written base k) w.
Proof.
  intros H.
  unfold parse_file, documentAIService.parsePdfDocument,
    documentAIService.parseHandwrittenDocument, documentAIService.processDocument.
  wp_run; written_done.
Qed.

Lemma written_close_documentAI base k w :
  written base k w -> wp close_documentAI (fun _ => written base k) (written base k) w.
Proof. intros H. unfold close_documentAI. wp_run; written_done. Qed.

Lemma written_create_record env req f base w :
  written base 0 w ->
  wp (create_record env req f) (fun _ => written base 1) (written base 1) w.
Proof.
  intros H. unfold create_record, create, mongo_step. wp_run; written_done.
Qed.

Lemma written_initiate env req id base w :
  written base 1 w ->
  wp (initiate env req id) (fun _ => written base 2) (written base 2) w.
Proof.
  intros H.
  unfold initiate, retellService.initiateVerificationCall, retellService.request,
    findByIdAndUpdate, mongo_step.
  wp_run; written_done.
Qed.

(** The loop rule: what every iteration that starts with [callEnded] false
    maintains holds when the loop returns. *)
Lemma poll_while_invariant env id cid (I : World -> Prop) :
  (forall w, I w -> Vars.callEnded (vars w) = false ->
             wp (poll_iteration env id cid) (fun _ => I) (fun _ => False) w) ->
  forall fuel w w', poll_while env fuel id cid w = (Ok tt, w') -> I w -> I w'.
Proof.
  intros Hbody. induction fuel as [| fuel IH]; intros w w' Hrun HI;
    cbn [poll_while] in Hrun; unfold bind at 1 2 3, var, gets, now in Hrun;
    cbn in Hrun;
    destruct (negb (Vars.callEnded (vars w))
              && (clock w - Vars.startTime (vars w) <? maxWaitTime)) eqn:Hcond;
    try (unfold ret in Hrun; congruence);
    try (unfold diverge in Hrun; discriminate).
  apply andb_true_iff in Hcond as [Hne _]. apply negb_true_iff in Hne.
  specialize (Hbody w HI Hne). unfold wp in Hbody. unfold bind in Hrun.
  destruct (poll_iteration env id cid w) as [[[] | e |] w1];
    [| contradiction | contradiction].
  eapply IH; eassumption.
Qed.

Lemma written_poll_iteration env id cid base w :
  written base 2 w ->
  wp (poll_iteration env id cid)
    (fun _ w' => written base 3 w' /\
                 (Vars.callEnded (vars w') = false -> written base 2 w'))
    (fun _ => False) w.
Proof.
  intros H.
  unfold poll_iteration, setTimeout, retellService.getCallStatus,
    keep_transcript, findByIdAndUpdate, mongo_step.
  wp_run; (split; [| try discriminate; intros _]); written_done.
Qed.

Lemma written_final_check env cid base k w :
  written base k w ->
  wp (final_check env cid) (fun _ => written base k) (fun _ => False) w.
Proof.
  intros H.
  unfold final_check, retellService.getCallStatus, keep_transcript.
  wp_run; written_done.
Qed.

Lemma written_poll env id base w :
  written base 2 w ->
  wp (poll env id) (fun _ => written base 3) (fun _ => False) w.
Proof.
  intros H.
  destruct (call_started (Vars.verificationCallId (vars w))) eqn:Hs.
  - destruct (Vars.verificationCallId (vars w)) as [cid |] eqn:Hv;
      [| discriminate]. cbn in Hs.
    unfold wp. rewrite (poll_unfold env id w cid Hv Hs).
    destruct (poll_while_run env id cid Hs poll_fuel (poll_start w))
      as (w1 & evs1 & Hrun1 & _).
    { cbn. lia. }
    { cbn. change (Z.of_nat poll_fuel) with 36. unfold maxWaitTime. lia. }
    { reflexivity. }
    unfold bind. rewrite Hrun1.
    assert (HI : written base 3 w1 /\
                 (Vars.callEnded (vars w1) = false -> written base 2 w1)).
    { eapply (poll_while_invariant env id cid
                (fun w => written base 3 w /\
                          (Vars.callEnded (vars w) = false -> written base 2 w)));
        [| exact Hrun1 |].
      - intros w2 [_ H2] Hne. apply written_poll_iteration. auto.
      - split; [| intros _]; unfold poll_start; written_done. }
    exact (written_final_check env cid base 3 w1 (proj1 HI)).
  - unfold poll, wp. run_handlers. rewrite Hs. cbn. written_done.
Qed.

Lemma written_close_verification base k w :
  written base k w ->
  wp close_verification (fun _ => written base k) (fun _ => False) w.
Proof. intros H. unfold close_verification. wp_run; written_done. Qed.

Lemma written_structuring env req base k w :
  written base k w ->
  wp (structuring env req) (fun _ => written base k) (fun _ => False) w.
Proof.
  intros H. unfold structuring, wp. run_handlers.
  rewrite processHealthRecord_run. cbn. written_done.
Qed.

Lemma written_apply_correction env id c base k w :
  written base k w ->
  wp (apply_correction env id c) (fun _ => written base k) (written base k) w.
Proof.
  intros H. unfold apply_correction, findByIdAndUpdate, mongo_step, field_update.
  wp_run; written_done.
Qed.

Lemma written_for_each env id cs base k w :
  written base k w ->
  wp (for_each cs (apply_correction env id)) (fun _ => written base k)
    (written base k) w.
Proof.
  revert w. induction cs as [| c cs IH]; intros w H; cbn [for_each].
  - apply wp_ret. exact H.
  - apply wp_bind. eapply wp_mono; [apply written_apply_correction; exact H | |];
      cbn beta; auto.
Qed.

Lemma written_analyse_transcript env id base k w :
  written base k w ->
  wp (analyse_transcript env id) (fun _ => written base k) (fun _ => False) w.
Proof.
  intros H. unfold analyse_transcript.
  apply wp_bind. unfold wp at 1, gets.
  destruct (retellService.has_transcript _ _); cbn [when];
    [| apply wp_ret; exact H].
  apply wp_try. apply wp_bind. unfold wp at 1, assign, modify.
  apply wp_bind. unfold wp at 1. rewrite processCallTranscript_run.
  apply wp_bind. unfold wp at 1, assign, modify.
  match goal with |- wp _ _ _ ?w1 => assert (H1 : written base k w1) by written_done end.
  destruct (negb (bool_decide (tr_corrections _ = []))); cbn [when];
    [| apply wp_ret; exact H1].
  apply wp_bind.
  eapply wp_mono; [apply written_for_each; exact H1 | |].
  - cbn beta. intros _ w2 H2.
    unfold findByIdAndUpdate, mongo_step. wp_run; try intros _; written_done.
  - cbn beta. intros w2 H2 e. apply wp_ret. exact H2.
Qed.

Lemma written_close_groqAI base k w :
  written base k w -> wp close_groqAI (fun _ => written base k) (fun _ => False) w.
Proof. intros H. unfold close_groqAI. wp_run; written_done. Qed.

Lemma written_archive env f base k w :
  written base k w -> wp (archive env f) (fun _ => written base k) (fun _ => False) w.
Proof.
  intros H. unfold archive, s3Service.uploadFileToS3. wp_run; written_done.
Qed.

Lemma written_finalize env id base w :
  written base 3 w ->
  wp (finalize env id)
    (fun resp w' =>
       exists r p ws,
         resp = Created id r p /\
         status_writes (trace w') = base ++ ws ++ [processingStatus r] /\
         chain 4 (ws ++ [processingStatus r]) /\
         terminal_status (processingStatus r) = true)
    (written base 4) w.
Proof.
  intros (ws & Hw & Hc).
  assert (Hterm : forall t, terminal_status (final_status t) = true)
    by (intros [t |]; reflexivity).
  assert (Hstep : forall t, chain 4 (ws ++ [final_status t])).
  { intros t. eapply chain_step; [exact Hc | | |];
      destruct t; cbn; try lia;
      unfold chain_statuses; rewrite !elem_of_cons; tauto. }
  assert (Hweak : written base 4 w).
  { exists ws. split; [exact Hw | eapply chain_weaken; [exact Hc | lia]]. }
  unfold finalize, findByIdAndUpdate, findById, mongo_step.
  unfold wp. run_handlers.
  destruct (Vars.structuredData (vars w)) as [sd |]; [| exact Hweak].
  destruct (Vars.fileUrl (vars w)) as [url |]; [| exact Hweak].
  cbn.
  assert (Hout : forall tl : list Event,
             status_writes tl = [] ->
             written base 4
               (with_trace
                  ((trace w ++
                    [E_findByIdAndUpdate id
                       [U_structuredData sd; U_fileUrl url; U_filePath url;
                        U_timeline (Vars.processingTimeline (vars w));
                        U_storageLocation
                          (if includes (js "amazonaws.com") url
                           then js "s3" else js "local");
                        U_processingStatus
                          (final_status (Vars.transcriptResult (vars w)))]])
                   ++ tl) w)).
  { intros tl Htl.
    exists (ws ++ [final_status (Vars.transcriptResult (vars w))]). cbn.
    rewrite status_writes_app, status_writes_snoc, Htl, app_nil_r. cbn.
    rewrite Hw, <- app_assoc. split; [reflexivity | apply Hstep]. }
  destruct (mongo_ok env (mongo_ops w)); cbn.
  2: { specialize (Hout [] eq_refl). rewrite app_nil_r in Hout. exact Hout. }
  destruct (mongo_ok env (S (mongo_ops w))); cbn.
  2: { exact (Hout [E_findById id] eq_refl). }
  rewrite lookup_alter_eq.
  destruct (store w !! id) as [r0 |]; cbn.
  2: { exact (Hout [E_findById id] eq_refl). }
  eexists _, _, ws. split; [reflexivity |]. cbn.
  rewrite !status_writes_snoc. cbn. rewrite Hw, app_nil_r, <- app_assoc.
  split; [reflexivity |]. split; [apply Hstep | apply Hterm].
Qed.

Lemma written_pipeline env req f base w :
  written base 0 w ->
  wp (pipeline env req f)
    (fun resp w' =>
       exists id r p ws,
         resp = Created id r p /\
         status_writes (trace w') = base ++ ws ++ [processingStatus r] /\
         chain 4 (ws ++ [processingStatus r]) /\
         terminal_status (processingStatus r) = true)
    (written base 4) w.
Proof.
  assert (Hup : forall k w', written base k w' -> (k <= 4)%nat -> written base 4 w').
  { intros k w' (ws & Hw & Hc) Hk. exists ws. split; [exact Hw |].
    eapply chain_weaken; eassumption. }
  intros H. unfold pipeline.
  apply wp_bind. eapply wp_mono; [apply written_create_record; exact H | |];
    cbn beta; [intros id w1 H1 | intros; eapply Hup; [eassumption | lia]].
  apply wp_bind. eapply wp_mono; [apply written_initiate; exact H1 | |];
    cbn beta; [intros _ w2 H2 | intros; eapply Hup; [eassumption | lia]].
  wp_seq written_poll.
  wp_seq written_close_verification.
  wp_seq written_structuring.
  wp_seq written_analyse_transcript.
  wp_seq written_close_groqAI.
  wp_seq written_archive.
  eapply wp_mono; [eapply written_finalize; eassumption | | auto].
  cbn beta. intros resp wf (r & p & ws & -> & Hw & Hc & Ht). eauto 10.
Qed.

Lemma written_refl k w : written (status_writes (trace w)) k w.
Proof. exists []. rewrite app_nil_r. split; [reflexivity | apply chain_nil]. Qed.

Lemma written_upload env req w :
  wp (uploadHealthRecord env req)
    (fun resp w' =>
       written (status_writes (trace w)) 4 w' /\
       match resp with
       | Created _ r _ =>
           exists ws,
             status_writes (trace w')
             = status_writes (trace w) ++ ws ++ [processingStatus r] /\
             terminal_status (processingStatus r) = true
       | _ => True
       end)
    (fun _ => False) w.
Proof.
  unfold uploadHealthRecord. apply wp_try.
  destruct (Req.file req) as [f |];
    [| apply wp_ret; split; [apply written_refl | exact I]].
  destruct (fs_uploads_dir env);
    [| apply wp_ret; split; [apply written_refl | exact I]].
  destruct (fs_file_exists env);
    [| apply wp_ret; split; [apply written_refl | exact I]].
  cbn [negb].
  apply wp_bind. unfold wp at 1, now, gets. cbn.
  apply wp_bind. unfold wp at 1, assign, modify. cbn.
  set (w1 := with_vars (init_vars (extname f) (clock w)) w).
  assert (H1 : written (status_writes (trace w)) 0 w1)
    by exact (written_refl 0 w1).
  assert (Hup : forall k w', written (status_writes (trace w)) k w' ->
                             (k <= 4)%nat ->
                             written (status_writes (trace w)) 4 w').
  { intros k w' (ws & Hw & Hc) Hk. exists ws. split; [exact Hw |].
    eapply chain_weaken; eassumption. }
  assert (Hcatch : forall w',
             written (status_writes (trace w)) 4 w' ->
             wp (emit E_unlink ;; ret (Error 500 (js "Server error")))
               (fun resp w'' =>
                  written (status_writes (trace w)) 4 w'' /\
                  match resp with
                  | Created _ r _ =>
                      exists ws,
                        status_writes (trace w'')
                        = status_writes (trace w) ++ ws ++ [processingStatus r] /\
                        terminal_status (processingStatus r) = true
                  | _ => True
                  end)
               (fun _ => False) w').
  { intros w' H'. unfold wp. run_handlers. split; [written_done | exact I]. }
  apply wp_bind.
  eapply wp_mono; [apply written_parse_file; exact H1 | |]; cbn beta.
  2: { intros w' H' e. apply Hcatch. eapply Hup; [exact H' | lia]. }
  intros ok w2 H2. destruct ok.
  - apply wp_bind.
    eapply wp_mono; [apply written_close_documentAI; exact H2 | |]; cbn beta.
    2: { intros w' H' e. apply Hcatch. eapply Hup; [exact H' | lia]. }
    intros _ w3 H3.
    eapply wp_mono; [apply written_pipeline; exact H3 | |]; cbn beta.
    + intros resp wf (id & r & p & ws & -> & Hw & Hc & Ht).
      split; [exists (ws ++ [processingStatus r]); split; assumption |].
      exists ws. split; assumption.
    + intros w' H' e. apply Hcatch. exact H'.
  - apply wp_ret. split; [eapply Hup; [exact H2 | lia] | exact I].
Qed.

(** *** The status endpoint *)

Lemma correction_updates_status cs :
  flat_map update_status (correction_updates cs) = [].
Proof.
  unfold correction_updates. induction cs as [| c cs IH]; cbn; [reflexivity |].
  rewrite flat_map_app, IH, app_nil_r. unfold field_update.
  repeat case_match; reflexivity.
Qed.

Lemma description_update_status hr tr :
  flat_map update_status (description_update hr tr) = [].
Proof. unfold description_update. repeat case_match; reflexivity. Qed.

Lemma build_updateData_writes env hr cs w :
  exists u w',
    build_updateData env hr cs w = (Ok u, w') /\
    status_writes (trace w') = status_writes (trace w) /\
    Forall refresh_status (flat_map update_status u).
Proof.
  unfold build_updateData.
  destruct (bool_decide (cs_status cs = js "ended"));
    [| eexists _, _; split; [reflexivity |]; split; [reflexivity | constructor]].
  destruct (retellService.has_transcript _ _).
  - unfold bind. rewrite processCallTranscript_run. unfold now, gets, ret. cbn.
    eexists _, _. split; [reflexivity |]. cbn.
    split; [rewrite status_writes_snoc, app_nil_r; reflexivity |].
    rewrite !flat_map_app, correction_updates_status, description_update_status.
    cbn. repeat constructor.
  - unfold bind, now, gets, ret. cbn.
    eexists _, _. split; [reflexivity |]. split; [reflexivity |].
    cbn. constructor; [right; reflexivity | constructor].
Qed.

Lemma refresh_writes env req w :
  exists ws,
    status_writes (trace (getCallVerificationStatus env req w).2)
    = status_writes (trace w) ++ ws /\
    Forall refresh_status ws.
Proof.
  assert (Hnone : forall tl, status_writes tl = [] ->
                    exists ws, status_writes (trace w ++ tl)
                               = status_writes (trace w) ++ ws /\
                               Forall refresh_status ws).
  { intros tl Htl. exists []. rewrite status_writes_app, Htl.
    split; [reflexivity | constructor]. }
  unfold getCallVerificationStatus, findById, mongo_step.
  unfold try_catch at 1. unfold bind at 1 2 3, emit, modify, gets. cbn.
  destruct (mongo_ok env (mongo_ops w)); cbn; [| apply Hnone; reflexivity].
  destruct (store w !! Req.params_id req) as [hr |]; cbn;
    [| apply Hnone; reflexivity].
  destruct (N.eqb (user hr) (Req.user_id req)); cbn; [| apply Hnone; reflexivity].
  destruct (call_started (callId (verificationCall hr))); cbn;
    [| apply Hnone; reflexivity].
  destruct (bool_decide (status (verificationCall hr) ∈ [js "registered"; js "ongoing"]));
    [| unfold bind, ret; cbn; apply Hnone; reflexivity].
  unfold refresh, retellService.getCallStatus.
  unfold try_catch, bind at 1 2 3 4 5 6, emit, elapse, modify, gets, throw, ret. cbn.
  destruct (truthy (default [] (callId (verificationCall hr)))); cbn;
    [| rewrite <- ?app_assoc; apply Hnone; reflexivity].
  destruct (reply (retell_get_call env (fetched w))) as [data |]; cbn;
    [| rewrite <- ?app_assoc; apply Hnone; reflexivity].
  destruct (bool_decide (call_status data = status (verificationCall hr))); cbn;
    [rewrite <- ?app_assoc; apply Hnone; reflexivity |].
  unfold bind.
  match goal with
  | |- context [build_updateData env hr ?cs ?w1] =>
      destruct (build_updateData_writes env hr cs w1) as (u & w2 & -> & Htr & Hu)
  end.
  unfold findByIdAndUpdate, mongo_step, emit, modify, bind. cbn.
  exists (flat_map update_status u).
  assert (Hgoal : status_writes (trace w2 ++ [E_findByIdAndUpdate (Req.params_id req) u])
                  = status_writes (trace w) ++ flat_map update_status u).
  { rewrite status_writes_snoc, Htr. cbn.
    rewrite !status_writes_snoc. cbn. rewrite !app_nil_r. reflexivity. }
  destruct (mongo_ok env (mongo_ops w2)); cbn; split; auto.
Qed.

(** C5, as amended.  The [processingStatus] values an upload writes are
    states of the chain, each strictly further along it than the ones
    written before; an upload answered with 201 has written a terminal state
    ([processing_complete] or [verification_complete]) last, and that is the
    state of the record it returns.  The status endpoint writes nothing but
    [verification_complete] and [verification_ended_no_transcript]. *)
Theorem upload_status_writes_forward env req w :
  (exists ws,
     status_writes (trace (uploadHealthRecord env req w).2)
     = status_writes (trace w) ++ ws /\
     Forall (fun s => s ∈ chain_statuses) ws /\
     forward ws /\
     match (uploadHealthRecord env req w).1 with
     | Ok (Created _ r _) =>
         last ws = Some (processingStatus r) /\
         terminal_status (processingStatus r) = true
     | _ => True
     end) /\
  (exists ws,
     status_writes (trace (getCallVerificationStatus env req w).2)
     = status_writes (trace w) ++ ws /\
     Forall refresh_status ws).
Proof.
  split; [| apply refresh_writes].
  pose proof (written_upload env req w) as H. unfold wp in H.
  destruct (uploadHealthRecord env req w) as [[resp | e |] w']; cbn;
    [| contradiction | contradiction].
  destruct H as [(ws & Hw & Hf & Ha) Hresp].
  exists ws. split; [exact Hw |]. split.
  { eapply Forall_impl; [exact Ha |]. cbn. tauto. }
  split; [exact Hf |].
  destruct resp as [id r p | |]; auto.
  destruct Hresp as (ws' & Hw' & Ht). split; [| exact Ht].
  rewrite Hw in Hw'. apply app_inv_head in Hw'. subst ws.
  apply last_snoc.
Qed.
(** ** The analysis outcome fields *)





















(** ** Corrections *)










(** ** Degraded stages *)

(** When the engine fails the service's own [catch] answers with the mock
    content, so the handler's [catch] is not entered: the source stays
    [google]. *)
Lemma extraction_failure_keeps_source env w :
  supported (Vars.fileExtension (vars w)) = true ->
  exists w',
    parse_file env w = (Ok true, w') /\
    Vars.parsedData (vars w') = Some (extracted env (Vars.fileExtension (vars w))) /\
    Vars.documentAISource (vars w') = Vars.documentAISource (vars w).
Proof.
  intros Hs. rewrite supported_cases in Hs. unfold parse_file.
  unfold bind at 1, var, gets. cbn.
  destruct (bool_decide (Vars.fileExtension (vars w) = js ".pdf")) eqn:E1.
  - apply bool_decide_eq_true in E1. rewrite E1.
    unfold try_catch, bind. rewrite parsePdfDocument_run.
    eexists. split; [reflexivity |]. cbn. auto.
  - cbn in Hs. rewrite Hs. apply bool_decide_eq_true in Hs.
    unfold try_catch, bind. rewrite (parseHandwrittenDocument_run _ _ _ Hs).
    eexists. split; [reflexivity |]. cbn. auto.
Qed.

(** C3, at the failing input.  The Document AI engine fails on a PDF
    upload: the record reaches a terminal state with the mock content as its
    extracted data, but the persisted timeline records the source
    [google]. *)
Theorem extraction_failure_source_is_google :
  match uploadHealthRecord failing_extraction_env upload_without_phone
          sample_world with
  | (Ok (Created _ r _), _) =>
      extractedData r = Some documentAIService.getMockPdfData /\
      terminal_status (processingStatus r) = true /\
      documentAI_source (timeline (processingMetadata r)) = js "google" /\
      documentAI_source (timeline (processingMetadata r)) <> js "mock"
  | _ => False
  end.
Proof. vm_compute. repeat split. discriminate. Qed.

(** The mock record carries no error marker. *)
Lemma mock_structured_data_unmarked ctx :
  member (js "error") (groqService.getMockStructuredData ctx) = None.
Proof. reflexivity. Qed.

(** When the structuring request fails the service answers with the mock
    record, so the handler's [catch], which would add the marker, is not
    entered. *)
Lemma structuring_failure_unmarked env req w :
  groq_api_key env = true -> groq_structure env = None ->
  exists w',
    structuring env req w = (Ok tt, w') /\
    Vars.structuredData (vars w')
    = Some (groqService.getMockStructuredData (groqContext req)) /\
    groqAI_source (Vars.processingTimeline (vars w'))
    = groqAI_source (Vars.processingTimeline (vars w)).
Proof.
  intros Hk Hs. unfold structuring. run_handlers.
  rewrite processHealthRecord_run. cbn.
  eexists. split; [reflexivity |]. cbn.
  unfold structured, groqContext. rewrite Hk, Hs. auto.
Qed.

(** C7, at the failing input.  The structuring request fails: the file is
    archived and the record completes, its structured data is the mock
    record, which has no [error] member, and the timeline still names
    [groq] as the source. *)
Theorem structuring_failure_has_no_marker :
  match uploadHealthRecord failing_structuring_env upload_without_phone
          sample_world with
  | (Ok (Created _ r _), w') =>
      structuredData r
      = Some (groqService.getMockStructuredData (groqContext upload_without_phone)) /\
      (structuredData r ≫= member (js "error")) = None /\
      groqAI_source (timeline (processingMetadata r)) = js "groq" /\
      fileUrl r = Some (js "https://bucket.s3.amazonaws.com/1-report.pdf") /\
      count (fun e => match e with E_uploadFileToS3 => true | _ => false end)
        (trace w') = 1%nat
  | _ => False
  end.
Proof. vm_compute. repeat split. Qed.
(** ** Object keys, page texts and previews *)

Lemma replace_runs_no_whitespace b s :
  no_whitespace (s3Keys.replace_runs b s).
Proof.
  revert b. induction s as [| c r IH]; intros b; cbn; [constructor |].
  destruct (isTrimSpace c) eqn:E.
  - destruct b; [apply IH |]. constructor; [reflexivity | apply IH].
  - constructor; [exact E | apply IH].
Qed.

Lemma replace_runs_fixed s :
  no_whitespace s -> s3Keys.replace_runs false s = s.
Proof.
  induction 1 as [| c r Hc _ IH]; cbn; [reflexivity |].
  rewrite Hc, IH. reflexivity.
Qed.

Lemma replace_runs_no_slash b s :
  no_slash s -> no_slash (s3Keys.replace_runs b s).
Proof.
  intros H. revert b. induction H as [| c r Hc _ IH]; intros b; cbn;
    [constructor |].
  destruct (isTrimSpace c).
  - destruct b; [apply IH |]. constructor; [discriminate | apply IH].
  - constructor; [exact Hc | apply IH].
Qed.

Lemma digits_plain u :
  no_whitespace (s3Keys.digits u) /\ no_slash (s3Keys.digits u).
Proof.
  induction u as [| u [IH1 IH2] | u [IH1 IH2] | u [IH1 IH2] | u [IH1 IH2]
                  | u [IH1 IH2] | u [IH1 IH2] | u [IH1 IH2] | u [IH1 IH2]
                  | u [IH1 IH2] | u [IH1 IH2]]; cbn;
    split; constructor; auto; discriminate.
Qed.

Lemma decimal_plain n :
  no_whitespace (s3Keys.decimal n) /\ no_slash (s3Keys.decimal n).
Proof.
  unfold s3Keys.decimal. destruct (n <? 0).
  - destruct (digits_plain (N.to_uint (Z.to_N (- n)))) as [H1 H2].
    split; constructor; auto; discriminate.
  - apply digits_plain.
Qed.

(** X1.  The key under which a file is uploaded to S3 contains no white
    space, whatever the original file name; a name without white space is
    kept as it is after the time stamp and the hyphen. *)
Theorem upload_key_has_no_whitespace now originalFileName :
  no_whitespace (s3Keys.fileName now originalFileName) /\
  (no_whitespace originalFileName ->
   s3Keys.fileName now originalFileName
   = s3Keys.decimal now ++ js "-" ++ originalFileName).
Proof.
  unfold s3Keys.fileName, s3Keys.replace_whitespace. split.
  - apply Forall_app. split; [apply decimal_plain |].
    apply Forall_app. split; [| apply replace_runs_no_whitespace].
    repeat constructor.
  - intros H. rewrite (replace_runs_fixed _ H). reflexivity.
Qed.

Lemma split_nonempty sep s : s3Keys.split sep s <> [].
Proof.
  destruct s as [| c r]; cbn; [discriminate |].
  destruct (N.eqb c sep); [discriminate |].
  destruct (s3Keys.split sep r); discriminate.
Qed.

Lemma split_app sep p k :
  s3Keys.split sep (p ++ sep :: k) = s3Keys.split sep p ++ s3Keys.split sep k.
Proof.
  induction p as [| c p IH]; cbn.
  - rewrite N.eqb_refl. reflexivity.
  - destruct (N.eqb c sep); [rewrite IH; reflexivity |].
    rewrite IH. pose proof (split_nonempty sep p) as Hp.
    destruct (s3Keys.split sep p) as [| seg segs]; [contradiction |].
    reflexivity.
Qed.

Lemma split_single sep k :
  Forall (fun c => c <> sep) k -> s3Keys.split sep k = [k].
Proof.
  induction 1 as [| c r Hc _ IH]; cbn; [reflexivity |].
  apply N.eqb_neq in Hc. rewrite Hc, IH. reflexivity.
Qed.

Lemma key_of_app prefix key :
  no_slash key -> s3Keys.key_of (prefix ++ 47%N :: key) = key.
Proof.
  intros H. unfold s3Keys.key_of.
  rewrite split_app, (split_single _ _ H), last_snoc. reflexivity.
Qed.

(** X2.  Upload key and deletion key agree: for a URL that ends in a slash
    followed by the key of an upload, [deleteFileFromS3] addresses that very
    key, provided the original file name holds no slash. *)
Theorem deletion_key_is_upload_key prefix now originalFileName :
  no_slash originalFileName ->
  s3Keys.key_of (prefix ++ js "/" ++ s3Keys.fileName now originalFileName)
  = s3Keys.fileName now originalFileName.
Proof.
  intros H. apply key_of_app.
  unfold s3Keys.fileName, s3Keys.replace_whitespace.
  apply Forall_app. split; [apply decimal_plain |].
  apply Forall_app. split; [repeat constructor; discriminate |].
  apply replace_runs_no_slash, H.
Qed.

(** X2, instance. *)
Lemma deletion_key_is_upload_key_witness :
  no_slash (js "blood test.pdf") /\
  s3Keys.key_of
    (js "https://bucket.s3.amazonaws.com" ++ js "/"
     ++ s3Keys.fileName 1700000000000 (js "blood test.pdf"))
  = js "1700000000000-blood-test.pdf".
Proof.
  split; [repeat constructor; discriminate |].
  rewrite (deletion_key_is_upload_key _ 1700000000000 (js "blood test.pdf"));
    [reflexivity | repeat constructor; discriminate].
Defined.



Lemma substring_prefix (s : jsstring) n :
  0 <= n -> substring s 0 n = take (Z.to_nat n) s.
Proof.
  intros Hn. unfold substring.
  set (len := Z.of_nat (length s)).
  assert (Hl : 0 <= len) by (subst len; lia).
  replace (Z.max 0 (Z.min 0 len)) with 0 by lia.
  replace (Z.max 0 (Z.min n len)) with (Z.min n len) by lia.
  replace (Z.min 0 (Z.min n len)) with 0 by lia.
  replace (Z.max 0 (Z.min n len)) with (Z.min n len) by lia.
  rewrite Z.sub_0_r. change (Z.to_nat 0) with 0%nat. rewrite drop_0.
  destruct (Z.min_spec n len) as [[H ->] | [H ->]]; [reflexivity |].
  subst len. rewrite Nat2Z.id, firstn_all. symmetry. apply take_ge. lia.
Qed.


(** X4.  The text preview of the upload answer and of [getHealthRecordById]
    are the same function of the extracted data: the text itself when it has
    at most 300 code units, its first 300 followed by an ellipsis otherwise,
    and so never longer than 303. *)
Theorem text_preview_bounded (extractedData : option ParsedData) :
  let t := default [] (text <$> extractedData) in
  handlers.textPreview extractedData = preview extractedData /\
  preview extractedData
  = (if decide (length t <= 300)%nat then t else take 300 t ++ js "...") /\
  (length (preview extractedData) <= 303)%nat.
Proof.
  cbn zeta. set (t := default [] (text <$> extractedData)).
  assert (Hp : preview extractedData
               = if decide (length t <= 300)%nat then t else take 300 t ++ js "...").
  { unfold preview. fold t. rewrite substring_prefix by lia.
    change (Z.to_nat 300) with 300%nat.
    destruct (decide (length t <= 300)%nat) as [Hle | Hgt].
    - rewrite take_ge by lia.
      destruct (300 <? Z.of_nat (length t)) eqn:E; [apply Z.ltb_lt in E; lia |].
      apply app_nil_r.
    - destruct (300 <? Z.of_nat (length t)) eqn:E; [reflexivity |].
      apply Z.ltb_ge in E. lia. }
  split; [| split; [exact Hp |]].
  - unfold handlers.textPreview, preview. subst t.
    destruct extractedData as [d |]; cbn; [| reflexivity].
    destruct (text d) as [| c r] eqn:E; [reflexivity |].
    reflexivity.
  - rewrite Hp. destruct (decide (length t <= 300)%nat); [lia |].
    rewrite length_app, length_take. change (length (js "...")) with 3%nat. lia.
Qed.
(** ** The other handlers *)

Lemma findById_run env id w :
  findById env id w
  = (if mongo_ok env (mongo_ops w) then Ok (store w !! id)
     else Throw (js "MongoError"),
     with_mongo_ops (S (mongo_ops w)) (with_trace (trace w ++ [E_findById id]) w)).
Proof.
  unfold findById, mongo_step. run_handlers.
  destruct (mongo_ok env (mongo_ops w)); reflexivity.
Qed.

(** X5.  The two record views are read-only and owner-only: the handlers
    always answer, never change the store, and hand out a view only of the
    record named in the request and only when it belongs to the requesting
    user. *)
Theorem record_views_are_owner_only env req w :
  (exists a w',
     handlers.getHealthRecordById env req w = (Ok a, w') /\
     store w' = store w /\
     forall v, a = handlers.Simplified v ->
       exists hr, store w !! Req.params_id req = Some hr /\
                  user hr = Req.user_id req /\
                  v = handlers.simplified (Req.params_id req) hr) /\
  (exists a w',
     handlers.getFullHealthRecordById env req w = (Ok a, w') /\
     store w' = store w /\
     forall v, a = handlers.Full v ->
       exists hr, store w !! Req.params_id req = Some hr /\
                  user hr = Req.user_id req /\
                  v = handlers.full (Req.params_id req) hr).
Proof.
  split.
  - unfold handlers.getHealthRecordById, try_catch, bind.
    rewrite findById_run.
    destruct (mongo_ok env (mongo_ops w)); cbn;
      [| eexists _, _; split; [reflexivity |]; split; [reflexivity |];
         intros v [=]].
    destruct (store w !! Req.params_id req) as [hr |] eqn:E; cbn;
      [| eexists _, _; split; [reflexivity |]; split; [reflexivity |];
         intros v [=]].
    destruct (N.eqb (user hr) (Req.user_id req)) eqn:Eu; cbn;
      eexists _, _; (split; [reflexivity |]); (split; [reflexivity |]);
      intros v [=]. subst v. apply N.eqb_eq in Eu. eauto.
  - unfold handlers.getFullHealthRecordById, try_catch, bind.
    rewrite findById_run.
    destruct (mongo_ok env (mongo_ops w)); cbn;
      [| eexists _, _; split; [reflexivity |]; split; [reflexivity |];
         intros v [=]].
    destruct (store w !! Req.params_id req) as [hr |] eqn:E; cbn;
      [| eexists _, _; split; [reflexivity |]; split; [reflexivity |];
         intros v [=]].
    destruct (N.eqb (user hr) (Req.user_id req)) eqn:Eu; cbn;
      eexists _, _; (split; [reflexivity |]); (split; [reflexivity |]);
      intros v [=]. subst v. apply N.eqb_eq in Eu. eauto.
Qed.

(** X6.  Deleting a record: the owner's request removes it from the store
    whether or not the file could be deleted from S3 or from the disk;
    another user's request is answered 403 and leaves the store as it is. *)
Theorem delete_removes_record_despite_storage_errors
    env s3_deleteObject fs_existsSync req w hr :
  store w !! Req.params_id req = Some hr ->
  mongo_ok env (mongo_ops w) = true ->
  mongo_ok env (S (mongo_ops w)) = true ->
  exists a w',
    handlers.deleteHealthRecord env s3_deleteObject fs_existsSync req w = (Ok a, w') /\
    if N.eqb (user hr) (Req.user_id req)
    then a = handlers.Removed /\
         store w' = delete (Req.params_id req) (store w)
    else a = handlers.Failure 403 (js "Not authorized to delete this record") /\
         store w' = store w.
Proof.
  intros Hr Hm1 Hm2.
  unfold handlers.deleteHealthRecord, try_catch. unfold bind at 1.
  rewrite findById_run, Hm1. cbn [store with_mongo_ops with_trace].
  rewrite Hr. destruct (N.eqb (user hr) (Req.user_id req)); cbn [negb];
    [| eexists _, _; split; [reflexivity |]; split; reflexivity].
  unfold handlers.deleteOne, mongo_step.
  destruct (handlers.stored_on_s3 (fileUrl hr)).
  - unfold s3Keys.deleteFileFromS3.
    destruct (s3_deleteObject _); run_handlers; rewrite Hm2; cbn;
      eexists _, _; (split; [reflexivity |]); split; reflexivity.
  - destruct (filePath hr) as [p |]; [| run_handlers; rewrite Hm2; cbn;
      eexists _, _; (split; [reflexivity |]); split; reflexivity].
    unfold handlers.cleanupLocalFile.
    destruct (truthy p && fs_existsSync p); run_handlers; rewrite Hm2; cbn;
      eexists _, _; (split; [reflexivity |]); split; reflexivity.
Qed.

(** X6, instance: S3 refuses the deletion; the record is removed all the
    same. *)
Lemma delete_removes_record_despite_storage_errors_witness :
  store pending_world !! 1%positive = Some pending_record /\
  handlers.stored_on_s3 (fileUrl pending_record) = true /\
  exists w',
    handlers.deleteHealthRecord sample_env (fun _ => false) (fun _ => false)
      sample_upload pending_world = (Ok handlers.Removed, w') /\
    store w' = delete 1%positive (store pending_world).
Proof.
  split; [reflexivity |]. split; [reflexivity |].
  destruct (delete_removes_record_despite_storage_errors sample_env
              (fun _ => false) (fun _ => false) sample_upload pending_world
              pending_record eq_refl eq_refl eq_refl)
    as (a & w' & Hrun & H).
  change (N.eqb (user pending_record) (Req.user_id sample_upload)) with true in H.
  destruct H as [-> Hs]. exists w'. split; [exact Hrun | exact Hs].
Defined.

Lemma initiateVerificationCall_up env name phone data w :
  truthy phone = true ->
  retell_update_voice env = true -> retell_update_prompt env = true ->
  retell_update_duration env = true -> retell_create_call env = Some data ->
  retellService.initiateVerificationCall env name phone w
  = (Ok {| vr_callId := call_id data;
           vr_status := or_else (call_status data) (js "registered");
           vr_startTime :=
             default (clock w) (retellService.timestamp (start_timestamp data));
           vr_retellData := data |},
     with_trace (trace w ++ [E_initiateVerificationCall phone]) w).
Proof.
  intros Hp H1 H2 H3 H4.
  unfold retellService.initiateVerificationCall, retellService.request.
  run_handlers. rewrite Hp, H1, H2, H3, H4. reflexivity.
Qed.

Lemma initiateVerificationCall_down env name phone w :
  truthy phone && platform_up env = false ->
  exists e,
    retellService.initiateVerificationCall env name phone w
    = (Throw e, with_trace (trace w ++ [E_initiateVerificationCall phone]) w).
Proof.
  unfold platform_up, retellService.initiateVerificationCall,
    retellService.request.
  run_handlers. intros H.
  destruct (truthy phone); cbn; [| eauto].
  destruct (retell_update_voice env); cbn; [| eauto].
  destruct (retell_update_prompt env); cbn; [| eauto].
  destruct (retell_update_duration env); cbn; [| eauto].
  destruct (retell_create_call env); cbn; [| eauto].
  cbn in H. first [discriminate | rewrite bool_decide_eq_true_2 in H by eauto; discriminate].
Qed.

(** X7.  A verification call that is registered or ongoing is not started
    again: the request is answered 400 with the call on file, no call is
    made into the Verification Call Client and the store is left as it
    is. *)
Theorem verification_call_not_started_twice env req w hr :
  store w !! Req.params_id req = Some hr ->
  user hr = Req.user_id req ->
  status (verificationCall hr) ∈ [js "registered"; js "ongoing"] ->
  mongo_ok env (mongo_ops w) = true ->
  exists w',
    handlers.initiateCallVerification env req w
    = (Ok (handlers.InProgress (callId (verificationCall hr))
             (status (verificationCall hr))), w') /\
    store w' = store w /\
    trace w' = trace w ++ [E_findById (Req.params_id req)].
Proof.
  intros Hr Hu Hs Hm.
  unfold handlers.initiateCallVerification, try_catch. unfold bind at 1.
  rewrite findById_run, Hm. cbn [store with_mongo_ops with_trace].
  rewrite Hr, Hu, N.eqb_refl. cbn [negb].
  rewrite (bool_decide_eq_true_2 _ Hs).
  eexists. split; [reflexivity |]. split; reflexivity.
Qed.

(** X7, instance. *)
Lemma verification_call_not_started_twice_witness :
  status (verificationCall pending_record) ∈ [js "registered"; js "ongoing"] /\
  exists w',
    handlers.initiateCallVerification sample_env sample_upload pending_world
    = (Ok (handlers.InProgress (Some (js "call_1")) (js "registered")), w') /\
    store w' = store pending_world.
Proof.
  assert (Hs : status (verificationCall pending_record)
               ∈ [js "registered"; js "ongoing"]) by apply list_elem_of_here.
  split; [exact Hs |].
  destruct (verification_call_not_started_twice sample_env sample_upload
              pending_world pending_record eq_refl eq_refl Hs eq_refl)
    as (w' & Hrun & Hst & _).
  exists w'. split; [exact Hrun | exact Hst].
Defined.

(** X8.  Starting a verification call on a record whose call is not in
    progress, with a phone number on file: the record is set back to
    [verification_initiated] whatever its state was, terminal states
    included, and takes the new call's id and status; the transcript, the
    corrections and the verdict of an earlier call stay on file. *)
Theorem verification_restart_resets_status env req w hr data :
  store w !! Req.params_id req = Some hr ->
  user hr = Req.user_id req ->
  status (verificationCall hr) ∉ [js "registered"; js "ongoing"] ->
  truthy (trim (patientPhone hr)) = true ->
  retell_update_voice env = true -> retell_update_prompt env = true ->
  retell_update_duration env = true -> retell_create_call env = Some data ->
  mongo_ok env (mongo_ops w) = true ->
  mongo_ok env (S (mongo_ops w)) = true ->
  exists w' r' t,
    handlers.initiateCallVerification env req w
    = (Ok (handlers.Initiated (call_id data)
             (or_else (call_status data) (js "registered")) t), w') /\
    store w' !! Req.params_id req = Some r' /\
    processingStatus r' = verification_initiated /\
    callId (verificationCall r') = Some (call_id data) /\
    status (verificationCall r') = or_else (call_status data) (js "registered") /\
    transcript (verificationCall r') = transcript (verificationCall hr) /\
    corrections (verificationCall r') = corrections (verificationCall hr) /\
    verificationComplete (verificationCall r')
    = verificationComplete (verificationCall hr).
Proof.
  intros Hr Hu Hs Hp H1 H2 H3 H4 Hm1 Hm2.
  assert (Hp' : truthy (patientPhone hr) = true).
  { destruct (patientPhone hr); [discriminate Hp | reflexivity]. }
  unfold handlers.initiateCallVerification, try_catch. unfold bind at 1.
  rewrite findById_run, Hm1. cbn [store with_mongo_ops with_trace].
  rewrite Hr, Hu, N.eqb_refl. cbn [negb].
  rewrite (bool_decide_eq_false_2 _ Hs), Hp, Hp'. cbn [andb negb].
  unfold handlers.start_call. unfold bind at 1.
  rewrite (initiateVerificationCall_up env _ _ data _ Hp' H1 H2 H3 H4).
  unfold findByIdAndUpdate, mongo_step. run_handlers. rewrite Hm2. cbn.
  eexists _, _, _. split; [reflexivity |].
  cbn [store with_store]. rewrite lookup_alter_eq, Hr. cbn.
  split; [reflexivity |].
  repeat split; reflexivity.
Qed.

(** X8, instance: a record whose verification had completed. *)
Lemma verification_restart_resets_status_witness :
  processingStatus verified_record = verification_complete /\
  (status (verificationCall verified_record) ∉ [js "registered"; js "ongoing"]) /\
  exists w' r' t,
    handlers.initiateCallVerification sample_env sample_upload verified_world
    = (Ok (handlers.Initiated (js "call_1") (js "registered") t), w') /\
    store w' !! 1%positive = Some r' /\
    processingStatus r' = verification_initiated /\
    status (verificationCall r') = js "registered" /\
    verificationComplete (verificationCall r') = true.
Proof.
  assert (Hs : status (verificationCall verified_record)
               ∉ [js "registered"; js "ongoing"]).
  { intros H. apply elem_of_cons in H as [H | H]; [discriminate |].
    apply elem_of_cons in H as [H | H]; [discriminate | inversion H]. }
  split; [reflexivity |]. split; [exact Hs |].
  destruct (verification_restart_resets_status sample_env sample_upload
              verified_world verified_record registered_call
              eq_refl eq_refl Hs eq_refl eq_refl eq_refl eq_refl eq_refl
              eq_refl eq_refl)
    as (w' & r' & t & Hrun & Hr & Hps & _ & Hst & _ & _ & Hv).
  exists w', r', t.
  split; [exact Hrun |]. split; [exact Hr |]. split; [exact Hps |].
  split; [exact Hst | exact Hv].
Defined.

(** X9.  A phone number supplied with the verification request is written
    to the record, trimmed, before the call is attempted: when the call
    platform then fails, the request is answered 500 and the record keeps
    the new number. *)
Theorem body_phone_is_saved_before_the_call env req w hr phone :
  store w !! Req.params_id req = Some hr ->
  user hr = Req.user_id req ->
  status (verificationCall hr) ∉ [js "registered"; js "ongoing"] ->
  truthy (patientPhone hr) && truthy (trim (patientPhone hr)) = false ->
  Req.patientPhone req = Some phone ->
  truthy (trim phone) = true ->
  platform_up env = false ->
  mongo_ok env (mongo_ops w) = true ->
  mongo_ok env (S (mongo_ops w)) = true ->
  exists w',
    handlers.initiateCallVerification env req w
    = (Ok (handlers.Failure 500 (js "Server error")), w') /\
    store w' !! Req.params_id req
    = Some (set_patientPhone (trim phone) hr).
Proof.
  intros Hr Hu Hs Hblank Hbody Hp Hdown Hm1 Hm2.
  assert (Hp' : truthy phone = true).
  { destruct phone; [discriminate Hp | reflexivity]. }
  unfold handlers.initiateCallVerification, try_catch. unfold bind at 1.
  rewrite findById_run, Hm1. cbn [store with_mongo_ops with_trace].
  rewrite Hr, Hu, N.eqb_refl. cbn [negb].
  rewrite (bool_decide_eq_false_2 _ Hs), Hblank, Hbody, Hp, Hp'.
  cbn [andb negb].
  unfold handlers.save_patientPhone, mongo_step, handlers.start_call.
  unfold bind, modify. cbn. rewrite Hm2.
  match goal with
  | |- context [retellService.initiateVerificationCall env ?n ?p ?w1] =>
      destruct (initiateVerificationCall_down env n p w1) as [e ->]
  end.
  { rewrite Hdown. apply andb_false_r. }
  cbn. eexists. split; [reflexivity |].
  cbn [store with_store with_trace with_mongo_ops].
  rewrite lookup_alter_eq, Hr. reflexivity.
Qed.

(** X9, instance. *)
Lemma body_phone_is_saved_before_the_call_witness :
  platform_up platform_down_env = false /\
  exists w' r',
    handlers.initiateCallVerification platform_down_env request_with_phone
      phoneless_world
    = (Ok (handlers.Failure 500 (js "Server error")), w') /\
    store w' !! 1%positive = Some r' /\
    patientPhone r' = js "+10000000001".
Proof.
  split; [reflexivity |].
  assert (Hs : status (verificationCall phoneless_record)
               ∉ [js "registered"; js "ongoing"]).
  { intros H. apply elem_of_cons in H as [H | H]; [discriminate |].
    apply elem_of_cons in H as [H | H]; [discriminate | inversion H]. }
  destruct (body_phone_is_saved_before_the_call platform_down_env
              request_with_phone phoneless_world phoneless_record
              (js " +10000000001 ") eq_refl eq_refl Hs eq_refl eq_refl eq_refl
              eq_refl eq_refl eq_refl)
    as (w' & Hrun & Hr).
  exists w', (set_patientPhone (trim (js " +10000000001 ")) phoneless_record).
  split; [exact Hrun |]. split; [exact Hr | reflexivity].
Defined.
(** ** The status endpoint *)

Lemma getCallStatus_run env cid w :
  truthy cid = true ->
  exists w',
    retellService.getCallStatus env cid w
    = (match reply (retell_get_call env (fetched w)) with
       | Some data => Ok (retellService.call_status_of data)
       | None => Throw (js "Retell API error")
       end, w') /\
    store w' = store w /\ mongo_ops w' = mongo_ops w /\
    fetched w' = S (fetched w) /\
    clock w' = clock w + Z.of_N (latency (retell_get_call env (fetched w))) /\
    trace w' = trace w ++ [E_getCallStatus cid] /\
    vars w' = vars w.
Proof.
  intros Hc. unfold retellService.getCallStatus. run_handlers. rewrite Hc. cbn.
  destruct (reply (retell_get_call env (fetched w))); cbn;
    eexists; (split; [reflexivity |]); cbn; auto 10.
Qed.

Lemma build_updateData_run env hr cs w :
  exists w',
    build_updateData env hr cs w = (Ok (refresh_update env hr cs (clock w)), w') /\
    store w' = store w /\ mongo_ops w' = mongo_ops w /\ fetched w' = fetched w /\
    clock w' = clock w /\ vars w' = vars w /\
    exists tl, trace w' = trace w ++ tl /\ status_writes tl = [] /\
               count is_verification_call tl = 0%nat.
Proof.
  unfold build_updateData, refresh_update.
  destruct (bool_decide (cs_status cs = js "ended")).
  - destruct (retellService.has_transcript _ _).
    + unfold bind. rewrite processCallTranscript_run. unfold now, gets, ret. cbn.
      eexists. split; [reflexivity |]. cbn. repeat split; auto.
      exists [E_processCallTranscript]. auto.
    + unfold bind, now, gets, ret. cbn.
      eexists. split; [reflexivity |]. repeat split; auto.
      exists []. rewrite app_nil_r. auto.
  - unfold ret. eexists. split; [reflexivity |]. repeat split; auto.
    exists []. rewrite app_nil_r. auto.
Qed.

(** A status request always answers, and leaves the store [status_store]
    describes; it asks the call platform once when [asks_platform] says so
    and not at all otherwise. *)
Lemma status_request_run env req w :
  exists a w',
    getCallVerificationStatus env req w = (Ok a, w') /\
    store w' = status_store env req w /\
    fetched w'
    = match store w !! Req.params_id req with
      | Some hr => if asks_platform env req w hr then S (fetched w) else fetched w
      | None => fetched w
      end.
Proof.
  unfold getCallVerificationStatus, status_store, asks_platform.
  unfold try_catch at 1. unfold bind at 1. rewrite findById_run.
  destruct (mongo_ok env (mongo_ops w)) eqn:Hm; cbn [store with_mongo_ops with_trace].
  2:{ cbn. destruct (store w !! Req.params_id req);
        eexists _, _; split; try reflexivity; auto. }
  destruct (store w !! Req.params_id req) as [hr |] eqn:Hr;
    [| cbn; eexists _, _; split; [reflexivity |]; auto].
  cbn [andb].
  destruct (N.eqb (user hr) (Req.user_id req)); cbn [negb andb];
    [| cbn; eexists _, _; split; [reflexivity |]; auto].
  destruct (call_started (callId (verificationCall hr))) eqn:Hcs; cbn [negb andb];
    [| cbn; eexists _, _; split; [reflexivity |]; auto].
  destruct (bool_decide (status (verificationCall hr) ∈ [js "registered"; js "ongoing"]));
    [| cbn; eexists _, _; split; [reflexivity |]; auto].
  assert (Hc : truthy (default [] (callId (verificationCall hr))) = true).
  { unfold call_started in Hcs. destruct (callId (verificationCall hr)); cbn;
      [exact Hcs | discriminate]. }
  unfold refresh. unfold bind at 1. unfold try_catch. unfold bind at 1.
  match goal with
  | |- context [retellService.getCallStatus env ?c ?w0] =>
      destruct (getCallStatus_run env c w0 Hc)
        as (w1 & -> & Hs1 & Hm1 & Hf1 & Hc1 & Ht1 & Hv1)
  end.
  cbn [fetched clock with_mongo_ops with_trace store mongo_ops] in *.
  destruct (reply (retell_get_call env (fetched w))) as [data |];
    [| cbn; eexists _, _; split; [reflexivity |]; auto].
  change (cs_status (retellService.call_status_of data)) with (call_status data).
  destruct (bool_decide (call_status data = status (verificationCall hr)));
    [cbn; eexists _, _; split; [reflexivity |]; auto |].
  unfold bind at 1.
  destruct (build_updateData_run env hr (retellService.call_status_of data) w1)
    as (w2 & -> & Hs2 & Hm2 & Hf2 & Hc2 & Hv2 & _).
  unfold findByIdAndUpdate, mongo_step. run_handlers.
  rewrite Hm2, Hm1. destruct (mongo_ok env (S (mongo_ops w))); cbn;
    eexists _, _; (split; [reflexivity |]); cbn;
    rewrite ?Hs2, ?Hs1, ?Hf2, ?Hf1, ?Hc1; auto.
Qed.

(** X10.  A status request asks the call platform only for the requesting
    user's own record with a registered or ongoing call, and changes the
    store only when the platform then reports a status other than the
    stored one. *)
Theorem status_read_writes_only_on_change env req w :
  let w' := (getCallVerificationStatus env req w).2 in
  (fetched w' = fetched w \/
   exists hr, store w !! Req.params_id req = Some hr /\
              user hr = Req.user_id req /\
              status (verificationCall hr) ∈ [js "registered"; js "ongoing"]) /\
  (store w' = store w \/
   exists hr data,
     store w !! Req.params_id req = Some hr /\
     user hr = Req.user_id req /\
     status (verificationCall hr) ∈ [js "registered"; js "ongoing"] /\
     reply (retell_get_call env (fetched w)) = Some data /\
     call_status data <> status (verificationCall hr)).
Proof.
  destruct (status_request_run env req w) as (a & w' & Hrun & Hs & Hf).
  rewrite Hrun. cbn. rewrite Hs, Hf. unfold status_store.
  destruct (store w !! Req.params_id req) as [hr |]; [| auto].
  destruct (asks_platform env req w hr) eqn:Ha; [| auto].
  unfold asks_platform in Ha.
  apply andb_true_iff in Ha as [Ha Hst]. apply andb_true_iff in Ha as [Ha _].
  apply andb_true_iff in Ha as [_ Hu].
  apply N.eqb_eq in Hu. apply bool_decide_eq_true in Hst.
  split; [right; eauto |].
  destruct (reply (retell_get_call env (fetched w))) as [data |]; [| auto].
  destruct (bool_decide (call_status data = status (verificationCall hr))) eqn:E;
    [auto |].
  apply bool_decide_eq_false in E.
  destruct (mongo_ok env (S (mongo_ops w))); [| auto].
  right. exists hr, data. auto.
Qed.

Lemma apply_updates_preserve {A} (p : HealthRecord -> A) us :
  Forall (fun u => forall r, p (apply_update u r) = p r) us ->
  forall r, p (apply_updates us r) = p r.
Proof.
  unfold apply_updates. induction 1 as [| u us Hu _ IH]; intros r; cbn;
    [reflexivity |].
  rewrite IH. apply Hu.
Qed.

Lemma refresh_path_frame u r :
  refresh_path u = true -> refresh_frame (apply_update u r) = refresh_frame r.
Proof. destruct u; cbn; intros H; try discriminate; reflexivity. Qed.

Lemma correction_updates_paths cs : Forall (fun u => refresh_path u = true) (correction_updates cs).
Proof.
  unfold correction_updates. induction cs as [| c cs IH]; cbn; [constructor |].
  apply Forall_app. split; [| exact IH].
  unfold field_update. repeat case_match; repeat constructor.
Qed.

Lemma refresh_update_paths env hr cs t :
  Forall (fun u => refresh_path u = true) (refresh_update env hr cs t).
Proof.
  unfold refresh_update. constructor; [reflexivity |].
  destruct (bool_decide _); [| constructor].
  destruct (retellService.has_transcript _ _); [| repeat constructor].
  repeat (constructor; [reflexivity |]).
  apply Forall_app. split; [apply correction_updates_paths |].
  unfold description_update. case_match; repeat constructor.
Qed.

(** X11.  Whatever a status request does, every record keeps its owner,
    title, document type, file URL and path, extracted and structured data,
    processing metadata and the id, start time and metadata of its call; a
    record other than the one requested is not changed at all. *)
Theorem status_read_frame env req w id r :
  store w !! id = Some r ->
  exists r',
    store (getCallVerificationStatus env req w).2 !! id = Some r' /\
    refresh_frame r' = refresh_frame r /\
    (id <> Req.params_id req -> r' = r).
Proof.
  intros Hr.
  destruct (status_request_run env req w) as (a & w' & Hrun & Hs & _).
  rewrite Hrun. cbn. rewrite Hs. unfold status_store.
  destruct (store w !! Req.params_id req) as [hr |] eqn:Hhr; [| eauto].
  destruct (asks_platform env req w hr); [| eauto].
  destruct (reply (retell_get_call env (fetched w))) as [data |]; [| eauto].
  destruct (bool_decide _); [eauto |].
  destruct (mongo_ok env (S (mongo_ops w))); [| eauto].
  destruct (decide (id = Req.params_id req)) as [-> | Hne].
  - rewrite lookup_alter_eq, Hr. eexists. split; [reflexivity |].
    split; [| congruence].
    apply (apply_updates_preserve refresh_frame).
    eapply Forall_impl; [apply refresh_update_paths |].
    intros u Hu r0. apply refresh_path_frame, Hu.
  - rewrite lookup_alter_ne by congruence. eauto.
Qed.

(** X11, instance: the refresh that appends to the description. *)
Lemma status_read_frame_witness :
  store pending_world !! 1%positive = Some pending_record /\
  exists r',
    store (getCallVerificationStatus ended_env sample_upload pending_world).2
      !! 1%positive = Some r' /\
    structuredData r' = structuredData pending_record /\
    fileUrl r' = fileUrl pending_record.
Proof.
  split; [reflexivity |].
  destruct (status_read_frame ended_env sample_upload pending_world 1%positive
              pending_record eq_refl) as (r' & Hr & Hf & _).
  exists r'. split; [exact Hr |].
  unfold refresh_frame in Hf. split; congruence.
Defined.

(** Under these conditions the status request rewrites the record. *)
Lemma status_refresh_record env req w hr data :
  store w !! Req.params_id req = Some hr ->
  asks_platform env req w hr = true ->
  reply (retell_get_call env (fetched w)) = Some data ->
  call_status data <> status (verificationCall hr) ->
  mongo_ok env (S (mongo_ops w)) = true ->
  store (getCallVerificationStatus env req w).2 !! Req.params_id req
  = Some (apply_updates
            (refresh_update env hr (retellService.call_status_of data)
               (clock w + Z.of_N (latency (retell_get_call env (fetched w)))))
            hr).
Proof.
  intros Hr Ha Hd Hne Hm.
  destruct (status_request_run env req w) as (a & w' & Hrun & Hs & _).
  rewrite Hrun. cbn. rewrite Hs. unfold status_store.
  rewrite Hr, Ha, Hd, (bool_decide_eq_false_2 _ Hne), Hm.
  rewrite lookup_alter_eq, Hr. reflexivity.
Qed.




(** The conditions of a refresh that finds the call ended with a
    transcript. *)
Lemma ended_refresh env req w hr data :
  asks_platform env req w hr = true ->
  call_status data = js "ended" ->
  retellService.has_transcript (transcript_object data)
    (retellService.nonempty (rc_transcript data)) = true ->
  call_status data <> status (verificationCall hr) /\
  forall t,
    refresh_update env hr (retellService.call_status_of data) t
    = let tr := transcript_result env (retellService.call_status_of data) in
      [ U_vc_status (js "ended");
        U_vc_endTime (default t (retellService.timestamp (end_timestamp data)));
        U_vc_transcript
          (retellService.nonempty (retellService.nonempty (rc_transcript data)));
        U_vc_transcriptObject (transcript_object data);
        U_vc_recordingUrl
          (retellService.nonempty (retellService.nonempty (recording_url data)));
        U_vc_verificationComplete (tr_verificationSuccessful tr);
        U_vc_corrections (tr_corrections tr);
        U_vc_additionalInfo (tr_additionalInfo tr);
        U_vc_summary (default [] (an_summary <$> tr_transcriptAnalysis tr));
        U_processingStatus verification_complete ]
      ++ correction_updates (tr_corrections tr) ++ description_update hr tr.
Proof.
  intros Ha He Ht. split.
  - unfold asks_platform in Ha. apply andb_true_iff in Ha as [_ Hs].
    apply bool_decide_eq_true in Hs. intros E. rewrite <- E, He in Hs.
    apply elem_of_cons in Hs as [Hs | Hs]; [discriminate |].
    apply elem_of_cons in Hs as [Hs | Hs]; [discriminate | inversion Hs].
  - intros t. unfold refresh_update, retellService.call_status_of.
    cbn [cs_status cs_transcript cs_transcriptObject cs_endTime cs_recordingUrl].
    rewrite He.
    change (retellService.terminal (js "ended")) with true. cbn iota.
    rewrite bool_decide_eq_true_2 by reflexivity. rewrite Ht. reflexivity.
Qed.



(** X13.  When a status request finds the call ended with a transcript but
    the analysis request fails, the failure is absorbed: the record is
    marked [verification_complete] with a negative verdict, no corrections,
    no additional information and no summary, and its name, phone and
    description are left as they were. *)
Theorem status_refresh_absorbs_analysis_failure env req w hr data :
  store w !! Req.params_id req = Some hr ->
  asks_platform env req w hr = true ->
  reply (retell_get_call env (fetched w)) = Some data ->
  call_status data = js "ended" ->
  retellService.has_transcript (transcript_object data)
    (retellService.nonempty (rc_transcript data)) = true ->
  mongo_ok env (S (mongo_ops w)) = true ->
  groq_analyse env
    (retellService.transcriptForProcessing (retellService.call_status_of data))
  = None ->
  exists r',
    store (getCallVerificationStatus env req w).2 !! Req.params_id req = Some r' /\
    processingStatus r' = verification_complete /\
    status (verificationCall r') = js "ended" /\
    verificationComplete (verificationCall r') = false /\
    corrections (verificationCall r') = [] /\
    additionalInfo (verificationCall r') = [] /\
    summary (verificationCall r') = [] /\
    (patientName r', patientPhone r', description r')
    = (patientName hr, patientPhone hr, description hr).
Proof.
  intros Hr Ha Hd He Ht Hm Hg.
  destruct (ended_refresh env req w hr data Ha He Ht) as [Hne Hu].
  rewrite (status_refresh_record env req w hr data Hr Ha Hd Hne Hm), Hu.
  assert (Htr : transcript_result env (retellService.call_status_of data)
                = retellService.failed_transcript).
  { unfold transcript_result. rewrite Hg. case_match; reflexivity. }
  rewrite Htr. eexists. split; [reflexivity |]. cbn. auto 10.
Qed.

(** X13, instance. *)
Lemma status_refresh_absorbs_analysis_failure_witness :
  processingStatus pending_record = processing_complete /\
  exists r',
    store (getCallVerificationStatus failing_analysis_env sample_upload
             pending_world).2 !! 1%positive = Some r' /\
    processingStatus r' = verification_complete /\
    verificationComplete (verificationCall r') = false /\
    corrections (verificationCall r') = [].
Proof.
  split; [reflexivity |].
  destruct (status_refresh_absorbs_analysis_failure failing_analysis_env
              sample_upload pending_world pending_record ended_call
              eq_refl eq_refl eq_refl eq_refl eq_refl eq_refl eq_refl)
    as (r' & Hr & Hp & _ & Hv & Hc & _).
  exists r'. split; [exact Hr |]. split; [exact Hp |].
  split; [exact Hv | exact Hc].
Defined.

(** X14.  When the analysis reply cannot be read as JSON, the fixed error
    text of [processTranscript] is filed as the patient's additional
    information, and the status request appends it to the record's
    description. *)
Theorem unparsable_analysis_reaches_description env req w hr data content :
  store w !! Req.params_id req = Some hr ->
  asks_platform env req w hr = true ->
  reply (retell_get_call env (fetched w)) = Some data ->
  call_status data = js "ended" ->
  retellService.has_transcript (transcript_object data)
    (retellService.nonempty (rc_transcript data)) = true ->
  mongo_ok env (S (mongo_ops w)) = true ->
  groq_analyse env
    (retellService.transcriptForProcessing (retellService.call_status_of data))
  = Some content ->
  groqService.extract_analysis content = None ->
  exists r',
    store (getCallVerificationStatus env req w).2 !! Req.params_id req = Some r' /\
    additionalInfo (verificationCall r')
    = js "Error: Could not parse transcript analysis" /\
    summary (verificationCall r') = js "Verification analysis failed" /\
    corrections (verificationCall r') = [] /\
    processingStatus r' = verification_complete /\
    description r'
    = trim (appended_description (description hr)
              (js "Error: Could not parse transcript analysis")).
Proof.
  intros Hr Ha Hd He Ht Hm Hg Hx.
  destruct (ended_refresh env req w hr data Ha He Ht) as [Hne Hu].
  rewrite (status_refresh_record env req w hr data Hr Ha Hd Hne Hm), Hu.
  assert (Htr : transcript_result env (retellService.call_status_of data)
                = {| tr_success := true;
                     tr_transcriptAnalysis := Some (groqService.failed_analysis content);
                     tr_corrections := [];
                     tr_additionalInfo := js "Error: Could not parse transcript analysis";
                     tr_verificationSuccessful := call_successful data |}).
  { unfold transcript_result. rewrite Hg.
    unfold groqService.analyse. rewrite Hx.
    unfold retellService.call_status_of at 1 2.
    cbn [cs_transcript cs_transcriptObject]. rewrite He.
    change (retellService.terminal (js "ended")) with true. cbn iota.
    rewrite Ht. reflexivity. }
  rewrite Htr. eexists. split; [reflexivity |].
  cbn zeta. rewrite !apply_updates_app.
  unfold description_update, appended_description.
  cbn [tr_additionalInfo tr_corrections correction_updates flat_map].
  change (truthy (js "Error: Could not parse transcript analysis")
          && truthy (trim (js "Error: Could not parse transcript analysis")))
    with true.
  cbn iota. cbn. auto 10.
Qed.

(** X14, instance. *)
Lemma unparsable_analysis_reaches_description_witness :
  groqService.extract_analysis (js "I could not find any corrections.") = None /\
  exists r',
    store (getCallVerificationStatus unparsable_analysis_env sample_upload
             pending_world).2 !! 1%positive = Some r' /\
    description r'
    = js "Annual check" ++ [10; 10]%N
      ++ js "Additional info from verification: Error: Could not parse transcript analysis".
Proof.
  split; [vm_compute; reflexivity |].
  destruct (unparsable_analysis_reaches_description unparsable_analysis_env
              sample_upload pending_world pending_record ended_call
              (js "I could not find any corrections.")
              eq_refl eq_refl eq_refl eq_refl eq_refl eq_refl eq_refl)
    as (r' & Hr & _ & _ & _ & _ & Hdesc); [vm_compute; reflexivity |].
  exists r'. split; [exact Hr |]. rewrite Hdesc. vm_compute. reflexivity.
Defined.



(** ** An upload, whatever the services answer *)

Lemma apply_update_kept env req f u r :
  kept env req f r -> kept env req f (apply_update u r).
Proof. unfold kept. destruct u; cbn; auto. Qed.

Lemma apply_updates_kept env req f us r :
  kept env req f r -> kept env req f (apply_updates us r).
Proof.
  unfold apply_updates. revert r.
  induction us as [| u us IH]; intros r H; cbn; [exact H |].
  apply IH, apply_update_kept, H.
Qed.

Ltac ready_trace :=
  match goal with
  | H : trace ?w = ?t0 ++ ?evs |- exists evs', _ = ?t0 ++ evs' /\ _ =>
      rewrite ?H; rewrite <- ?app_assoc; eexists;
      split; [reflexivity | rewrite ?count_app; cbn; rewrite ?Nat.add_0_r;
                            first [assumption | lia | congruence]]
  end.

Ltac ready_store :=
  match goal with
  | H : store ?w !! ?i = Some ?r |- exists r', _ !! ?i = Some r' /\ _ =>
      rewrite ?lookup_alter_eq, ?H; cbn; eexists; split; [reflexivity |];
      first [assumption | apply apply_updates_kept; assumption
            | apply (apply_updates_kept _ _ _ [_]); assumption]
  end.

Ltac ready_others :=
  match goal with
  | H : forall j, Some ?i <> Some j -> _ |- forall j, Some ?i <> Some j -> _ =>
      let j := fresh "j" in let Hj := fresh "Hj" in
      intros j Hj; rewrite ?lookup_alter_ne by congruence; apply H; exact Hj
  end.

Ltac ready_done :=
  unfold ready, store_failed in *; cbn in *;
  repeat match goal with
         | H : _ /\ _ |- _ => destruct H
         | H : exists _, _ |- _ => destruct H
         end;
  repeat split; eauto; try ready_trace; try ready_store; try ready_others;
  try lia; try congruence;
  try (intros; lia).

(** Rules for the two calls that branch most. *)
Lemma wp_initiateVerificationCall env name phone
    (Q : VerificationResult -> World -> Prop) (R : World -> Prop) w :
  (forall vr, Q vr (with_trace (trace w ++ [E_initiateVerificationCall phone]) w)) ->
  R (with_trace (trace w ++ [E_initiateVerificationCall phone]) w) ->
  wp (retellService.initiateVerificationCall env name phone) Q R w.
Proof.
  intros HQ HR.
  unfold retellService.initiateVerificationCall, retellService.request, wp.
  run_handlers. repeat case_match; simplify_eq; auto.
Qed.

Lemma wp_findByIdAndUpdate env id u (Q : unit -> World -> Prop) (R : World -> Prop) w :
  (mongo_ok env (mongo_ops w) = true ->
   Q tt (with_store (alter (apply_updates u) id (store w))
           (with_mongo_ops (S (mongo_ops w))
              (with_trace (trace w ++ [E_findByIdAndUpdate id u]) w)))) ->
  (mongo_ok env (mongo_ops w) = false ->
   R (with_mongo_ops (S (mongo_ops w))
        (with_trace (trace w ++ [E_findByIdAndUpdate id u]) w))) ->
  wp (findByIdAndUpdate env id u) Q R w.
Proof.
  intros HQ HR. unfold findByIdAndUpdate, mongo_step, wp. run_handlers.
  destruct (mongo_ok env (mongo_ops w)); cbn; auto.
Qed.

Lemma ready_parse_file env req f w :
  Vars.fileExtension (vars w) = extname f ->
  supported (extname f) = true ->
  Vars.transcriptResult (vars w) = None ->
  wp (parse_file env)
    (fun ok w' => ok = true /\ ready env req f (trace w) (store w) None 0 w')
    (fun _ => False) w.
Proof.
  intros He Hs Ht. rewrite supported_cases in Hs.
  unfold parse_file, wp. unfold bind at 1, var, gets. cbn. rewrite He.
  destruct (bool_decide (extname f = js ".pdf")) eqn:E1.
  - apply bool_decide_eq_true in E1.
    unfold try_catch, bind. rewrite parsePdfDocument_run. cbn.
    split; [reflexivity |]. unfold ready. cbn. rewrite E1, Ht.
    repeat split; auto; try (intros; lia).
    exists [E_parsePdfDocument]. auto.
  - cbn in Hs. rewrite Hs. apply bool_decide_eq_true in Hs.
    unfold try_catch, bind. rewrite (parseHandwrittenDocument_run _ _ _ Hs). cbn.
    split; [reflexivity |]. unfold ready. cbn. rewrite Ht.
    repeat split; auto; try (intros; lia).
    exists [E_parseHandwrittenDocument]. auto.
Qed.

Lemma ready_close_documentAI env req f t0 s0 w :
  ready env req f t0 s0 None 0 w ->
  wp close_documentAI (fun _ => ready env req f t0 s0 None 0) (fun _ => False) w.
Proof. intros H. unfold close_documentAI. wp_run; ready_done. Qed.

Lemma ready_create_record env req f t0 s0 w :
  store w = s0 ->
  ready env req f t0 s0 None 0 w ->
  wp (create_record env req f)
    (fun id => ready env req f t0 s0 (Some id) 1) (store_failed env) w.
Proof.
  intros Hs0 H. unfold create_record, create, mongo_step.
  assert (Hp : Vars.parsedData (vars w) = Some (extracted env (extname f)))
    by apply H.
  unfold wp. unfold bind at 1, gets. cbn. rewrite Hp.
  run_handlers. destruct (mongo_ok env (mongo_ops w)) eqn:Hm; cbn;
    [| exists (mongo_ops w); exact Hm].
  pose proof (is_fresh (dom (store w))) as Hf.
  apply not_elem_of_dom in Hf.
  unfold ready in *. cbn.
  destruct H as (_ & Ho & _ & H2 & H4 & H3 & evs & Htr & Hc).
  split; [exact Hp |]. split.
  { intros j Hj. rewrite lookup_insert_ne by congruence. apply Ho. discriminate. }
  split.
  { split; [rewrite <- Hs0; exact Hf |]. rewrite lookup_insert_eq.
    eexists. split; [reflexivity |]. split; reflexivity. }
  split; [intros; lia |]. split; [intros; lia |].
  split; [intros _; apply H3; lia |].
  rewrite Htr, <- !app_assoc. eexists. split; [reflexivity |].
  rewrite count_app. cbn. rewrite Nat.add_0_r. exact Hc.
Qed.

Lemma ready_initiate env req f id t0 s0 w :
  ready env req f t0 s0 (Some id) 1 w ->
  wp (initiate env req id) (fun _ => ready env req f t0 s0 (Some id) 1)
    (fun _ => False) w.
Proof.
  intros H. unfold initiate.
  destruct (phone_provided _); cbn [when]; [| apply wp_ret; exact H].
  apply wp_try. apply wp_bind. unfold wp at 1, now, gets.
  apply wp_bind. unfold wp at 1, on_timeline, assign, modify.
  apply wp_bind. apply wp_initiateVerificationCall.
  - intros vr. apply wp_bind. unfold wp at 1, assign, modify.
    apply wp_bind. unfold wp at 1, assign, modify.
    apply wp_bind. apply wp_findByIdAndUpdate; intros Hm.
    + unfold wp, on_timeline, assign, modify. ready_done.
    + intros e. unfold wp. run_handlers. ready_done.
  - intros e. unfold wp. run_handlers. ready_done.
Qed.

Lemma ready_poll_iteration env req f id cid t0 s0 w :
  ready env req f t0 s0 (Some id) 1 w ->
  wp (poll_iteration env id cid) (fun _ => ready env req f t0 s0 (Some id) 1)
    (fun _ => False) w.
Proof.
  intros H.
  unfold poll_iteration, setTimeout, retellService.getCallStatus,
    keep_transcript, findByIdAndUpdate, mongo_step.
  wp_run; ready_done.
Qed.

Lemma ready_final_check env req f id cid t0 s0 k w :
  ready env req f t0 s0 (Some id) k w ->
  wp (final_check env cid) (fun _ => ready env req f t0 s0 (Some id) k)
    (fun _ => False) w.
Proof.
  intros H.
  unfold final_check, retellService.getCallStatus, keep_transcript.
  wp_run; ready_done.
Qed.

Lemma ready_poll env req f id t0 s0 w :
  ready env req f t0 s0 (Some id) 1 w ->
  wp (poll env id) (fun _ => ready env req f t0 s0 (Some id) 1) (fun _ => False) w.
Proof.
  intros H.
  destruct (call_started (Vars.verificationCallId (vars w))) eqn:Hs.
  - destruct (Vars.verificationCallId (vars w)) as [cid |] eqn:Hv;
      [| discriminate]. cbn in Hs.
    unfold wp. rewrite (poll_unfold env id w cid Hv Hs).
    destruct (poll_while_run env id cid Hs poll_fuel (poll_start w))
      as (w1 & evs1 & Hrun1 & _).
    { cbn. lia. }
    { cbn. change (Z.of_nat poll_fuel) with 36. unfold maxWaitTime. lia. }
    { reflexivity. }
    unfold bind. rewrite Hrun1.
    assert (HI : ready env req f t0 s0 (Some id) 1 w1).
    { eapply (poll_while_invariant env id cid
                (ready env req f t0 s0 (Some id) 1)); [| exact Hrun1 |].
      - intros w2 H2 _. apply ready_poll_iteration. exact H2.
      - unfold poll_start. ready_done. }
    exact (ready_final_check env req f id cid t0 s0 1 w1 HI).
  - unfold poll, wp. run_handlers. rewrite Hs. cbn. exact H.
Qed.

Lemma ready_close_verification env req f id t0 s0 k w :
  ready env req f t0 s0 (Some id) k w ->
  wp close_verification (fun _ => ready env req f t0 s0 (Some id) k)
    (fun _ => False) w.
Proof. intros H. unfold close_verification. wp_run; ready_done. Qed.

Lemma ready_structuring env req f id t0 s0 w :
  ready env req f t0 s0 (Some id) 1 w ->
  wp (structuring env req) (fun _ => ready env req f t0 s0 (Some id) 2)
    (fun _ => False) w.
Proof.
  intros H. unfold structuring.
  unfold wp. run_handlers. rewrite processHealthRecord_run. cbn.
  ready_done.
Qed.

Lemma mirror_is_Some c sd : is_Some sd -> is_Some (mirror c sd).
Proof.
  intros [v ->]. unfold mirror. repeat case_match; eauto.
Qed.

Lemma ready_apply_correction env req f id c t0 s0 k w :
  (3 <= k)%nat ->
  ready env req f t0 s0 (Some id) k w ->
  wp (apply_correction env id c) (fun _ => ready env req f t0 s0 (Some id) k)
    (ready env req f t0 s0 (Some id) k) w.
Proof.
  intros Hk H. unfold apply_correction, findByIdAndUpdate, mongo_step.
  wp_run; ready_done.
  intros Hk2. apply mirror_is_Some. auto.
Qed.

Lemma ready_for_each env req f id cs t0 s0 k w :
  (3 <= k)%nat ->
  ready env req f t0 s0 (Some id) k w ->
  wp (for_each cs (apply_correction env id))
    (fun _ => ready env req f t0 s0 (Some id) k)
    (ready env req f t0 s0 (Some id) k) w.
Proof.
  intros Hk. revert w. induction cs as [| c cs IH]; intros w H; cbn [for_each].
  - apply wp_ret. exact H.
  - apply wp_bind.
    eapply wp_mono;
      [apply (ready_apply_correction env req f id c t0 s0 k); [exact Hk | exact H] | |];
      cbn beta; auto.
Qed.

Lemma ready_analyse_transcript env req f id t0 s0 w :
  ready env req f t0 s0 (Some id) 2 w ->
  wp (analyse_transcript env id) (fun _ => ready env req f t0 s0 (Some id) 3)
    (fun _ => False) w.
Proof.
  intros H. unfold analyse_transcript.
  apply wp_bind. unfold wp at 1, gets.
  destruct (retellService.has_transcript _ _); cbn [when];
    [| apply wp_ret; ready_done].
  apply wp_try. apply wp_bind. unfold wp at 1, assign, modify.
  apply wp_bind. unfold wp at 1. rewrite processCallTranscript_run.
  apply wp_bind. unfold wp at 1, assign, modify.
  match goal with
  | |- wp _ _ _ ?w1 => assert (H1 : ready env req f t0 s0 (Some id) 3 w1)
  end.
  { assert (Hn : Vars.transcriptResult (vars w) = None) by (apply H; lia).
    unfold ready in *. cbn.
    destruct H as (Hp & Ho & (Hfree & Hr) & H2 & _ & _ & evs & Htr & Hc).
    rewrite Hn in Hc.
    repeat split; auto; try (intros; lia).
    rewrite Htr, <- !app_assoc. eexists. split; [reflexivity |].
    rewrite count_app. cbn. lia. }
  destruct (negb (bool_decide (tr_corrections _ = []))); cbn [when];
    [| apply wp_ret; exact H1].
  apply wp_bind.
  eapply wp_mono;
    [apply (ready_for_each env req f id _ t0 s0 3); [lia | exact H1] | |].
  - cbn beta. intros _ w2 H2.
    unfold findByIdAndUpdate, mongo_step. wp_run; try intros _; ready_done.
  - cbn beta. intros w2 H2 e. apply wp_ret. exact H2.
Qed.

Lemma ready_close_groqAI env req f id t0 s0 k w :
  ready env req f t0 s0 (Some id) k w ->
  wp close_groqAI (fun _ => ready env req f t0 s0 (Some id) k) (fun _ => False) w.
Proof. intros H. unfold close_groqAI. wp_run; ready_done. Qed.

Lemma ready_archive env req f id t0 s0 w :
  ready env req f t0 s0 (Some id) 3 w ->
  wp (archive env f) (fun _ => ready env req f t0 s0 (Some id) 4) (fun _ => False) w.
Proof.
  intros H. unfold archive, s3Service.uploadFileToS3.
  wp_run; ready_done; intros _; unfold archived;
    match goal with E : s3_upload env = _ |- _ => rewrite E end; reflexivity.
Qed.

Lemma ready_finalize env req f id t0 s0 w :
  ready env req f t0 s0 (Some id) 4 w ->
  wp (finalize env id)
    (fun resp w' =>
       exists r, resp = Created id r (preview (Some (extracted env (extname f)))) /\
                 completed env req f t0 s0 id r w')
    (store_failed env) w.
Proof.
  intros (Hp & Ho & (Hfree & r0 & Hr0 & Hk0) & Hsd & Hurl & _ & evs & Htr & Hc).
  destruct (Hsd ltac:(lia)) as [sd Esd]. specialize (Hurl ltac:(lia)).
  unfold finalize, findByIdAndUpdate, findById, mongo_step, store_failed.
  unfold wp. run_handlers. rewrite Esd, Hurl. cbn.
  destruct (mongo_ok env (mongo_ops w)) eqn:E1; cbn; [| eauto].
  destruct (mongo_ok env (S (mongo_ops w))) eqn:E2; cbn; [| eauto].
  rewrite lookup_alter_eq, Hr0. cbn. rewrite Hp.
  eexists. split; [reflexivity |].
  unfold completed. cbn.
  split; [exact Hfree |].
  split; [intros j Hj; rewrite lookup_alter_ne by congruence; apply Ho; congruence |].
  split; [rewrite lookup_alter_eq, Hr0; reflexivity |].
  split; [exact Hk0 |].
  repeat (split; [reflexivity |]).
  split; [eauto |]. split; [reflexivity |].
  rewrite Htr, <- !app_assoc. eexists. split; [reflexivity |].
  rewrite !count_app. cbn. rewrite !Nat.add_0_r.
  destruct (Vars.transcriptResult (vars w)); cbn; auto.
Qed.

Lemma ready_pipeline env req f t0 s0 w :
  store w = s0 ->
  ready env req f t0 s0 None 0 w ->
  wp (pipeline env req f)
    (fun resp w' =>
       exists id r, resp = Created id r (preview (Some (extracted env (extname f)))) /\
                    completed env req f t0 s0 id r w')
    (store_failed env) w.
Proof.
  intros Hs0 H. unfold pipeline.
  apply wp_bind.
  eapply wp_mono; [apply ready_create_record; eassumption | | auto].
  cbn beta. intros id w1 H1.
  apply wp_bind. eapply wp_mono; [apply ready_initiate; exact H1 | | intros ? []].
  cbn beta. intros _ w2 H2.
  apply wp_bind. eapply wp_mono; [apply ready_poll; exact H2 | | intros ? []].
  cbn beta. intros _ w3 H3.
  apply wp_bind.
  eapply wp_mono; [apply ready_close_verification; exact H3 | | intros ? []].
  cbn beta. intros _ w4 H4.
  apply wp_bind. eapply wp_mono; [apply ready_structuring; exact H4 | | intros ? []].
  cbn beta. intros _ w5 H5.
  apply wp_bind.
  eapply wp_mono; [apply ready_analyse_transcript; exact H5 | | intros ? []].
  cbn beta. intros _ w6 H6.
  apply wp_bind. eapply wp_mono; [apply ready_close_groqAI; exact H6 | | intros ? []].
  cbn beta. intros _ w7 H7.
  apply wp_bind. eapply wp_mono; [apply ready_archive; exact H7 | | intros ? []].
  cbn beta. intros _ w8 H8.
  eapply wp_mono; [apply ready_finalize; exact H8 | | auto].
  cbn beta. intros resp wf (r & -> & Hc). eauto.
Qed.

(** An accepted upload: the answer is 201 with what [completed] says, or a
    store operation has failed and the answer is 500. *)
Lemma accepted_upload env req f w :
  Req.file req = Some f ->
  supported (extname f) = true ->
  fs_uploads_dir env = true -> fs_file_exists env = true ->
  exists resp w',
    uploadHealthRecord env req w = (Ok resp, w') /\
    ((exists id r,
        resp = Created id r (preview (Some (extracted env (extname f)))) /\
        completed env req f (trace w) (store w) id r w') \/
     (resp = Error 500 (js "Server error") /\ store_failed env w')).
Proof.
  intros Hf Hs Hd He.
  assert (Hwp : wp (uploadHealthRecord env req)
                  (fun resp w' =>
                     (exists id r,
                        resp = Created id r (preview (Some (extracted env (extname f)))) /\
                        completed env req f (trace w) (store w) id r w') \/
                     (resp = Error 500 (js "Server error") /\ store_failed env w'))
                  (fun _ => False) w).
  { unfold uploadHealthRecord. rewrite Hf, Hd, He. cbn [negb].
    apply wp_try.
    apply wp_bind. unfold wp at 1, now, gets. cbn.
    apply wp_bind. unfold wp at 1, assign, modify. cbn.
    set (w1 := with_vars (init_vars (extname f) (clock w)) w).
    apply wp_bind.
    eapply wp_mono; [apply (ready_parse_file env req f w1); auto | | intros ? []].
    cbn beta. intros ok w2 [-> H2].
    apply wp_bind.
    eapply wp_mono; [apply ready_close_documentAI; exact H2 | | intros ? []].
    cbn beta. intros _ w3 H3.
    eapply wp_mono; [apply (ready_pipeline env req f (trace w) (store w)) | |].
    - destruct H3 as (_ & Ho & _). apply map_eq. intros j. apply Ho. discriminate.
    - exact H3.
    - cbn beta. intros resp wf (id & r & -> & Hc). left. eauto.
    - cbn beta. intros wf Hfail e. unfold wp. run_handlers. right. auto. }
  unfold wp in Hwp.
  destruct (uploadHealthRecord env req w) as [[resp | e |] w']; try contradiction.
  eauto.
Qed.

Lemma parse_file_unsupported env w :
  supported (Vars.fileExtension (vars w)) = false ->
  parse_file env w = (Ok false, with_trace (trace w ++ [E_unlink]) w).
Proof.
  intros Hs. rewrite supported_cases in Hs. apply orb_false_iff in Hs as [H1 H2].
  unfold parse_file. run_handlers. rewrite H1, H2. reflexivity.
Qed.

(** Every upload is answered; it is either turned away with nothing done
    but the removal of the file, or accepted. *)
Lemma upload_cases env req w :
  exists resp w',
    uploadHealthRecord env req w = (Ok resp, w') /\
    ((rejection resp /\ store w' = store w /\ mongo_ops w' = mongo_ops w /\
      (trace w' = trace w \/ trace w' = trace w ++ [E_unlink])) \/
     (exists f,
        Req.file req = Some f /\ supported (extname f) = true /\
        ((exists id r,
            resp = Created id r (preview (Some (extracted env (extname f)))) /\
            completed env req f (trace w) (store w) id r w') \/
         (resp = Error 500 (js "Server error") /\ store_failed env w')))).
Proof.
  destruct (Req.file req) as [f |] eqn:Hf.
  2:{ unfold uploadHealthRecord. rewrite Hf. unfold try_catch, ret.
      eexists _, _. split; [reflexivity |]. left. unfold rejection. auto 10. }
  destruct (fs_uploads_dir env) eqn:Hd.
  2:{ unfold uploadHealthRecord. rewrite Hf, Hd. unfold try_catch, ret. cbn.
      eexists _, _. split; [reflexivity |]. left. unfold rejection. auto 10. }
  destruct (fs_file_exists env) eqn:He.
  2:{ unfold uploadHealthRecord. rewrite Hf, Hd, He. unfold try_catch, ret. cbn.
      eexists _, _. split; [reflexivity |]. left. unfold rejection. auto 10. }
  destruct (supported (extname f)) eqn:Hs.
  - destruct (accepted_upload env req f w Hf Hs Hd He) as (resp & w' & Hrun & H).
    exists resp, w'. split; [exact Hrun |]. right. exists f. auto.
  - unfold uploadHealthRecord. rewrite Hf, Hd, He. cbn [negb].
    unfold try_catch. unfold bind at 1. unfold now, gets.
    unfold bind at 1. unfold assign, modify. unfold bind at 1.
    rewrite parse_file_unsupported by exact Hs. unfold ret.
    eexists _, _. split; [reflexivity |]. left. unfold rejection. cbn. auto 10.
Qed.



(** X17.  An upload answered 201 has added one record under an id that was
    free and has changed no other record. *)
Theorem upload_adds_one_record env req w id r p w' :
  uploadHealthRecord env req w = (Ok (Created id r p), w') ->
  store w !! id = None /\
  store w' !! id = Some r /\
  forall j, j <> id -> store w' !! j = store w !! j.
Proof.
  intros Hrun.
  destruct (upload_cases env req w) as (resp & w1 & Hrun1 & H).
  rewrite Hrun in Hrun1. injection Hrun1 as <- <-.
  destruct H as [[Hrej _] | (f & _ & _ & [(id' & r' & [= <- <- _] & Hc) | [[=] _]])].
  { destruct Hrej as [[=] | [[=] | [[=] | [=]]]]. }
  destruct Hc as (Hfree & Ho & Hr & _). auto.
Qed.

(** X17, instance. *)
Lemma upload_adds_one_record_witness :
  exists id r p w',
    uploadHealthRecord sample_env sample_upload pending_world
    = (Ok (Created id r p), w') /\
    store pending_world !! id = None /\
    store w' !! 1%positive = Some pending_record.
Proof.
  destruct (uploadHealthRecord sample_env sample_upload pending_world)
    as [[[id r p | |] | |] w'] eqn:Hrun;
    try (exfalso; vm_compute in Hrun; discriminate Hrun).
  destruct (upload_adds_one_record sample_env sample_upload pending_world
              id r p w' Hrun) as (Hfree & _ & Ho).
  exists id, r, p, w'. split; [reflexivity |]. split; [exact Hfree |].
  rewrite Ho; [reflexivity |]. intros <-. discriminate Hfree.
Defined.



(** X19.  An upload requests the transcript analysis at most once, and the
    record ends [verification_complete] exactly when it did, whether or not
    the analysis succeeded; otherwise it ends [processing_complete]. *)
Theorem final_status_follows_analysis_request env req w id r p w' :
  uploadHealthRecord env req w = (Ok (Created id r p), w') ->
  exists evs,
    trace w' = trace w ++ evs /\
    (count is_analysis evs = 1%nat /\ processingStatus r = verification_complete \/
     count is_analysis evs = 0%nat /\ processingStatus r = processing_complete).
Proof.
  intros Hrun.
  destruct (upload_cases env req w) as (resp & w1 & Hrun1 & H).
  rewrite Hrun in Hrun1. injection Hrun1 as <- <-.
  destruct H as [[Hrej _] | (f & _ & _ & [(id' & r' & [= <- <- _] & Hc) | [[=] _]])].
  { destruct Hrej as [[=] | [[=] | [[=] | [=]]]]. }
  destruct Hc as (_ & _ & _ & _ & _ & _ & _ & _ & _ & Hev). exact Hev.
Qed.

(** X19, instance: the analysis request fails; the record is marked
    [verification_complete] all the same. *)
Lemma final_status_follows_analysis_request_witness :
  exists id r p w',
    uploadHealthRecord failing_analysis_env sample_upload sample_world
    = (Ok (Created id r p), w') /\
    (exists tr, Vars.transcriptResult (vars w') = Some tr /\ tr_success tr = false) /\
    processingStatus r = verification_complete /\
    exists evs, trace w' = trace sample_world ++ evs /\
                count is_analysis evs = 1%nat.
Proof.
  destruct (uploadHealthRecord failing_analysis_env sample_upload sample_world)
    as [[[id r p | |] | |] w'] eqn:Hrun;
    try (exfalso; vm_compute in Hrun; discriminate Hrun).
  destruct (final_status_follows_analysis_request failing_analysis_env
              sample_upload sample_world id r p w' Hrun) as (evs & Htr & Hst).
  assert (Hv : processingStatus r = verification_complete /\
               exists tr, Vars.transcriptResult (vars w') = Some tr /\
                          tr_success tr = false).
  { vm_compute in Hrun. injection Hrun as _ <- _ <-.
    split; [reflexivity |]. eexists. split; reflexivity. }
  destruct Hv as [Hps Htr'].
  exists id, r, p, w'. split; [reflexivity |]. split; [exact Htr' |].
  split; [exact Hps |]. exists evs. split; [exact Htr |].
  destruct Hst as [[Hc _] | [_ Hpc]]; [exact Hc |].
  rewrite Hps in Hpc. discriminate.
Defined.

(** X20.  An upload that is turned away has done nothing: an answer 400
    means that the store was neither changed nor asked, and that nothing
    happened but, for an unsupported file type, the removal of the uploaded
    file. *)
Theorem rejected_upload_does_nothing env req w msg w' :
  uploadHealthRecord env req w = (Ok (Error 400 msg), w') ->
  store w' = store w /\ mongo_ops w' = mongo_ops w /\
  (trace w' = trace w \/ trace w' = trace w ++ [E_unlink]).
Proof.
  intros Hrun.
  destruct (upload_cases env req w) as (resp & w1 & Hrun1 & H).
  rewrite Hrun in Hrun1. injection Hrun1 as <- <-.
  destruct H as [(_ & H) | (f & _ & _ & [(id' & r' & [=] & _) | [[=] _]])].
  exact H.
Qed.

(** X20, instance: a text file. *)
Lemma rejected_upload_does_nothing_witness :
  exists msg w',
    uploadHealthRecord sample_env text_upload pending_world
    = (Ok (Error 400 msg), w') /\
    store w' = store pending_world /\
    trace w' = trace pending_world ++ [E_unlink].
Proof.
  destruct (uploadHealthRecord sample_env text_upload pending_world)
    as [[[id r p | | code msg] | |] w'] eqn:Hrun;
    try (exfalso; vm_compute in Hrun; discriminate Hrun).
  assert (Hc : code = 400 /\ trace w' = trace pending_world ++ [E_unlink]).
  { vm_compute in Hrun. injection Hrun as <- _ <-. split; reflexivity. }
  destruct Hc as [-> Htr].
  destruct (rejected_upload_does_nothing sample_env text_upload pending_world
              msg w' Hrun) as (Hs & _ & _).
  exists msg, w'. split; [reflexivity |]. split; [exact Hs | exact Htr].
Defined.
(** ** The order of the stages *)

Lemma ordered_from_app j k evs l :
  ordered_from j evs = true -> bounded k evs = true -> (j <= k)%nat ->
  ordered_from k l = true ->
  ordered_from j (evs ++ l) = true.
Proof.
  revert j. induction evs as [| e evs IH]; intros j Ho Hb Hjk Hl; cbn in *.
  - clear Ho Hb. revert j k Hjk Hl. induction l as [| e l IHl]; intros j k Hjk Hl;
      cbn in *; [reflexivity |].
    destruct (phase e) as [p |]; [| eapply IHl; eassumption].
    apply andb_true_iff in Hl as [H1 H2]. apply Nat.leb_le in H1.
    apply andb_true_iff. split; [apply Nat.leb_le; lia | exact H2].
  - apply andb_true_iff in Hb as [Hb1 Hb2].
    destruct (phase e) as [p |].
    + apply andb_true_iff in Ho as [H1 H2]. apply Nat.leb_le in Hb1.
      apply andb_true_iff. split; [exact H1 |].
      apply IH; auto.
    + apply IH; auto.
Qed.

Lemma bounded_app k evs l :
  bounded k (evs ++ l) = bounded k evs && bounded k l.
Proof. unfold bounded. apply forallb_app. Qed.

Lemma bounded_weaken k k' evs :
  bounded k evs = true -> (k <= k')%nat -> bounded k' evs = true.
Proof.
  unfold bounded. rewrite !forallb_forall. intros H Hk e He.
  specialize (H e He). destruct (phase e); [| reflexivity].
  apply Nat.leb_le in H. apply Nat.leb_le. lia.
Qed.

(** The rule of the family: a stage that appends events of stages [k] to
    [k'], in order, keeps the trace ordered. *)
Lemma ordered_extend t0 k k' w w' l :
  ordered t0 k w ->
  trace w' = trace w ++ l ->
  ordered_from k l = true -> bounded k' l = true -> (k <= k')%nat ->
  ordered t0 k' w'.
Proof.
  intros (evs & Htr & Ho & Hb) Hw Hl Hbl Hk.
  exists (evs ++ l). rewrite Hw, Htr, <- app_assoc. split; [reflexivity |].
  split.
  - eapply ordered_from_app; eauto. lia.
  - rewrite bounded_app, Hbl, (bounded_weaken k k' evs Hb Hk). reflexivity.
Qed.

Lemma ordered_weaken t0 k k' w :
  ordered t0 k w -> (k <= k')%nat -> ordered t0 k' w.
Proof.
  intros H Hk. apply (ordered_extend t0 k k' w w []); auto.
  symmetry. apply app_nil_r.
Qed.

Lemma ordered_from_spec k evs :
  ordered_from k evs = true ->
  (forall i a p, evs !! i = Some a -> phase a = Some p -> (k <= p)%nat) /\
  in_stage_order evs.
Proof.
  revert k. induction evs as [| e evs IH]; intros k H; cbn in H.
  - split; [intros i a p Hi; destruct i; discriminate |].
    intros i j a b p q _ Hi. destruct i; discriminate.
  - assert (Hcases : exists k', ordered_from k' evs = true /\ (k <= k')%nat /\
                                (forall p, phase e = Some p -> (k <= p)%nat /\ k' = p)).
    { destruct (phase e) as [p |].
      - apply andb_true_iff in H as [H1 H2]. apply Nat.leb_le in H1.
        exists p. split; [exact H2 |]. split; [exact H1 |].
        intros p' [= <-]. auto.
      - exists k. split; [exact H |]. split; [lia |]. intros p [=]. }
    destruct Hcases as (k' & Hk' & Hle & He).
    destruct (IH k' Hk') as [Hlow Hord].
    split.
    + intros [| i] a p Hi Hp; cbn in Hi.
      * injection Hi as <-. apply (He p Hp).
      * specialize (Hlow i a p Hi Hp). lia.
    + intros [| i] [| j] a b p q Hij Hi Hj Hp Hq; cbn in Hi, Hj; try lia.
      * injection Hi as <-. destruct (He p Hp) as [_ ->].
        exact (Hlow j b q Hj Hq).
      * apply (Hord i j a b p q); auto. lia.
Qed.

Ltac order_step H k' :=
  eapply (ordered_extend _ _ k' _ _ _ H);
  [ cbn; rewrite <- ?app_assoc; try reflexivity;
    try (rewrite app_nil_r; reflexivity)
  | reflexivity | reflexivity | lia ].

Ltac order_done k' :=
  match goal with
  | H : ordered ?t0 ?k ?w |- ordered ?t0 _ ?w => exact H
  | H : ordered ?t0 ?k ?w |- ordered ?t0 _ ?w => apply (ordered_weaken t0 k _ w H); lia
  | H : ordered ?t0 ?k ?w |- ordered ?t0 _ _ => order_step H k'
  end.

Lemma ordered_parse_file env t0 w :
  ordered t0 0 w ->
  wp (parse_file env) (fun _ => ordered t0 0) (fun _ => False) w.
Proof.
  intros H.
  unfold parse_file, documentAIService.parsePdfDocument,
    documentAIService.parseHandwrittenDocument, documentAIService.processDocument.
  wp_run; order_done 0%nat.
Qed.

Lemma ordered_close_documentAI t0 k w :
  ordered t0 k w -> wp close_documentAI (fun _ => ordered t0 k) (fun _ => False) w.
Proof. intros H. unfold close_documentAI. wp_run; order_done k. Qed.

Lemma ordered_create_record env req f t0 w :
  ordered t0 0 w ->
  wp (create_record env req f) (fun _ => ordered t0 1) (ordered t0 7) w.
Proof.
  intros H. unfold create_record, create, mongo_step.
  wp_run; first [order_done 1%nat | order_done 7%nat].
Qed.

Lemma ordered_initiate env req id t0 w :
  ordered t0 1 w ->
  wp (initiate env req id) (fun _ => ordered t0 2) (fun _ => False) w.
Proof.
  intros H. unfold initiate.
  destruct (phone_provided _); cbn [when];
    [| apply wp_ret; apply (ordered_weaken t0 1 2 w H); lia].
  apply wp_try. apply wp_bind. unfold wp at 1, now, gets.
  apply wp_bind. unfold wp at 1, on_timeline, assign, modify.
  apply wp_bind. apply wp_initiateVerificationCall.
  - intros vr. apply wp_bind. unfold wp at 1, assign, modify.
    apply wp_bind. unfold wp at 1, assign, modify.
    apply wp_bind. apply wp_findByIdAndUpdate; intros Hm.
    + unfold wp, on_timeline, assign, modify. order_step H 2%nat.
    + intros e. unfold wp. run_handlers. order_step H 2%nat.
  - intros e. unfold wp. run_handlers. order_step H 2%nat.
Qed.

Lemma ordered_poll_iteration env id cid t0 w :
  ordered t0 3 w ->
  wp (poll_iteration env id cid) (fun _ => ordered t0 3) (fun _ => False) w.
Proof.
  intros H.
  unfold poll_iteration, setTimeout, retellService.getCallStatus,
    keep_transcript, findByIdAndUpdate, mongo_step.
  wp_run; order_done 3%nat.
Qed.

Lemma ordered_final_check env cid t0 w :
  ordered t0 3 w ->
  wp (final_check env cid) (fun _ => ordered t0 3) (fun _ => False) w.
Proof.
  intros H.
  unfold final_check, retellService.getCallStatus, keep_transcript.
  wp_run; order_done 3%nat.
Qed.

Lemma ordered_poll env id t0 w :
  ordered t0 2 w ->
  wp (poll env id) (fun _ => ordered t0 3) (fun _ => False) w.
Proof.
  intros H.
  destruct (call_started (Vars.verificationCallId (vars w))) eqn:Hs.
  - destruct (Vars.verificationCallId (vars w)) as [cid |] eqn:Hv;
      [| discriminate]. cbn in Hs.
    unfold wp. rewrite (poll_unfold env id w cid Hv Hs).
    destruct (poll_while_run env id cid Hs poll_fuel (poll_start w))
      as (w1 & evs1 & Hrun1 & _).
    { cbn. lia. }
    { cbn. change (Z.of_nat poll_fuel) with 36. unfold maxWaitTime. lia. }
    { reflexivity. }
    unfold bind. rewrite Hrun1.
    assert (HI : ordered t0 3 w1).
    { eapply (poll_while_invariant env id cid (ordered t0 3)); [| exact Hrun1 |].
      - intros w2 H2 _. apply ordered_poll_iteration. exact H2.
      - apply (ordered_extend t0 2 3 w (poll_start w) []); auto.
        symmetry. apply app_nil_r. }
    exact (ordered_final_check env cid t0 w1 HI).
  - unfold poll, wp. run_handlers. rewrite Hs. cbn.
    apply (ordered_weaken t0 2 3 w H). lia.
Qed.

Lemma ordered_close_verification t0 k w :
  ordered t0 k w -> wp close_verification (fun _ => ordered t0 k) (fun _ => False) w.
Proof. intros H. unfold close_verification. wp_run; order_done k. Qed.

Lemma ordered_structuring env req t0 w :
  ordered t0 3 w ->
  wp (structuring env req) (fun _ => ordered t0 4) (fun _ => False) w.
Proof.
  intros H. unfold structuring.
  unfold wp. run_handlers. rewrite processHealthRecord_run. cbn.
  order_done 4%nat.
Qed.

Lemma ordered_apply_correction env id c t0 w :
  ordered t0 5 w ->
  wp (apply_correction env id c) (fun _ => ordered t0 5) (ordered t0 5) w.
Proof.
  intros H. unfold apply_correction, findByIdAndUpdate, mongo_step.
  wp_run; order_done 5%nat.
Qed.

Lemma ordered_for_each env id cs t0 w :
  ordered t0 5 w ->
  wp (for_each cs (apply_correction env id)) (fun _ => ordered t0 5)
    (ordered t0 5) w.
Proof.
  revert w. induction cs as [| c cs IH]; intros w H; cbn [for_each].
  - apply wp_ret. exact H.
  - apply wp_bind.
    eapply wp_mono; [apply ordered_apply_correction; exact H | |];
      cbn beta; auto.
Qed.

Lemma ordered_analyse_transcript env id t0 w :
  ordered t0 4 w ->
  wp (analyse_transcript env id) (fun _ => ordered t0 5) (fun _ => False) w.
Proof.
  intros H. unfold analyse_transcript.
  apply wp_bind. unfold wp at 1, gets.
  destruct (retellService.has_transcript _ _); cbn [when];
    [| apply wp_ret; apply (ordered_weaken t0 4 5 w H); lia].
  apply wp_try. apply wp_bind. unfold wp at 1, assign, modify.
  apply wp_bind. unfold wp at 1. rewrite processCallTranscript_run.
  apply wp_bind. unfold wp at 1, assign, modify.
  match goal with
  | |- wp _ _ _ ?w1 => assert (H1 : ordered t0 5 w1) by order_step H 5%nat
  end.
  destruct (negb (bool_decide (tr_corrections _ = []))); cbn [when];
    [| apply wp_ret; exact H1].
  apply wp_bind.
  eapply wp_mono; [apply ordered_for_each; exact H1 | |].
  - cbn beta. intros _ w2 H2.
    unfold findByIdAndUpdate, mongo_step. wp_run; try intros _; order_done 5%nat.
  - cbn beta. intros w2 H2 e. apply wp_ret. exact H2.
Qed.

Lemma ordered_close_groqAI t0 k w :
  ordered t0 k w -> wp close_groqAI (fun _ => ordered t0 k) (fun _ => False) w.
Proof. intros H. unfold close_groqAI. wp_run; order_done k. Qed.

Lemma ordered_archive env f t0 w :
  ordered t0 5 w ->
  wp (archive env f) (fun _ => ordered t0 6) (fun _ => False) w.
Proof.
  intros H. unfold archive, s3Service.uploadFileToS3.
  wp_run; order_done 6%nat.
Qed.

Lemma ordered_finalize env id t0 w :
  ordered t0 6 w ->
  wp (finalize env id) (fun _ => ordered t0 7) (ordered t0 7) w.
Proof.
  intros H. unfold finalize, findByIdAndUpdate, findById, mongo_step.
  wp_run; order_done 7%nat.
Qed.

Lemma ordered_pipeline env req f t0 w :
  ordered t0 0 w ->
  wp (pipeline env req f) (fun _ => ordered t0 7) (ordered t0 7) w.
Proof.
  intros H. unfold pipeline.
  apply wp_bind.
  eapply wp_mono; [apply ordered_create_record; exact H | | auto].
  cbn beta. intros id w1 H1.
  apply wp_bind. eapply wp_mono; [apply ordered_initiate; exact H1 | | intros ? []].
  cbn beta. intros _ w2 H2.
  apply wp_bind. eapply wp_mono; [apply ordered_poll; exact H2 | | intros ? []].
  cbn beta. intros _ w3 H3.
  apply wp_bind.
  eapply wp_mono; [apply ordered_close_verification; exact H3 | | intros ? []].
  cbn beta. intros _ w4 H4.
  apply wp_bind. eapply wp_mono; [apply ordered_structuring; exact H4 | | intros ? []].
  cbn beta. intros _ w5 H5.
  apply wp_bind.
  eapply wp_mono; [apply ordered_analyse_transcript; exact H5 | | intros ? []].
  cbn beta. intros _ w6 H6.
  apply wp_bind. eapply wp_mono; [apply ordered_close_groqAI; exact H6 | | intros ? []].
  cbn beta. intros _ w7 H7.
  apply wp_bind. eapply wp_mono; [apply ordered_archive; exact H7 | | intros ? []].
  cbn beta. intros _ w8 H8.
  apply ordered_finalize. exact H8.
Qed.

(** X21.  The stages of an upload run in one order, whatever happens:
    extraction, creation of the record, initiation of the verification call,
    polling, structuring, transcript analysis, archival, the final read.  No
    event of an earlier stage follows one of a later stage; in particular
    structuring starts only when polling is over. *)
Theorem upload_stages_run_in_order env req w :
  exists evs,
    trace (uploadHealthRecord env req w).2 = trace w ++ evs /\
    in_stage_order evs.
Proof.
  assert (Hwp : wp (uploadHealthRecord env req) (fun _ => ordered (trace w) 7)
                  (fun _ => False) w).
  { assert (H0 : forall w0, trace w0 = trace w -> ordered (trace w) 0 w0).
    { intros w0 E. exists []. rewrite E, app_nil_r. auto. }
    unfold uploadHealthRecord. apply wp_try.
    destruct (Req.file req) as [f |];
      [| apply wp_ret; apply (ordered_weaken _ 0); [auto | lia]].
    destruct (fs_uploads_dir env);
      [| apply wp_ret; apply (ordered_weaken _ 0); [auto | lia]].
    destruct (fs_file_exists env);
      [| apply wp_ret; apply (ordered_weaken _ 0); [auto | lia]].
    cbn [negb].
    apply wp_bind. unfold wp at 1, now, gets. cbn.
    apply wp_bind. unfold wp at 1, assign, modify. cbn.
    apply wp_bind.
    eapply wp_mono; [apply ordered_parse_file; apply H0; reflexivity | | intros ? []].
    cbn beta. intros ok w2 H2. destruct ok.
    - apply wp_bind.
      eapply wp_mono; [apply ordered_close_documentAI; exact H2 | | intros ? []].
      cbn beta. intros _ w3 H3.
      eapply wp_mono; [apply ordered_pipeline; exact H3 | auto |].
      cbn beta. intros w' H' e. unfold wp. run_handlers.
      order_step H' 7%nat.
    - apply wp_ret. apply (ordered_weaken _ 0); [exact H2 | lia]. }
  unfold wp in Hwp.
  destruct (uploadHealthRecord env req w) as [[resp | e |] w']; try contradiction.
  destruct Hwp as (evs & Htr & Ho & _). exists evs. split; [exact Htr |].
  apply (ordered_from_spec 0 evs Ho).
Qed.
(** ** An upload whose verification call cannot be started *)

Lemma wp_conj {A} (m : M A) Q1 Q2 R1 R2 w :
  wp m Q1 R1 w -> wp m Q2 R2 w ->
  wp m (fun a w' => Q1 a w' /\ Q2 a w') (fun w' => R1 w' /\ R2 w') w.
Proof. unfold wp. destruct (m w) as [[a | e |] w']; auto. Qed.

Ltac failed_done :=
  unfold call_failed, failure_on_record in *; cbn in *;
  repeat match goal with
         | H : _ /\ _ |- _ => destruct H
         end;
  repeat split; auto; try congruence.

Lemma failed_close_verification w :
  call_failed w -> wp close_verification (fun _ => call_failed) (fun _ => False) w.
Proof. intros H. unfold close_verification. wp_run; failed_done. Qed.

Lemma failed_structuring env req w :
  call_failed w -> wp (structuring env req) (fun _ => call_failed) (fun _ => False) w.
Proof.
  intros H. unfold structuring.
  unfold wp. run_handlers. rewrite processHealthRecord_run. cbn. failed_done.
Qed.

Lemma failed_close_groqAI w :
  call_failed w -> wp close_groqAI (fun _ => call_failed) (fun _ => False) w.
Proof. intros H. unfold close_groqAI. wp_run; failed_done. Qed.

Lemma failed_archive env f w :
  call_failed w -> wp (archive env f) (fun _ => call_failed) (fun _ => False) w.
Proof.
  intros H. unfold archive, s3Service.uploadFileToS3. wp_run; failed_done.
Qed.

Lemma failed_finalize env id w :
  call_failed w ->
  wp (finalize env id)
    (fun resp _ => forall i r p, resp = Created i r p -> failure_on_record r)
    (fun _ => True) w.
Proof.
  intros H. unfold finalize, findByIdAndUpdate, findById, mongo_step.
  wp_run; auto; intros i r p [= <- <- <-];
    match goal with
    | E : alter _ _ _ !! _ = Some _ |- _ =>
        rewrite lookup_alter_eq in E;
        destruct (store w !! id) as [r0 |]; [| discriminate E];
        cbn in E; injection E as <-
    end;
    failed_done.
Qed.

(** The call cannot be started: the [catch] of the initiation marks the
    timeline, and the handler holds no call id. *)
Lemma stalled_initiate env req id t0 w :
  phone_provided (Req.patientPhone req) = true ->
  platform_up env = false ->
  staged t0 (Some id) false false w ->
  wp (initiate env req id)
    (fun _ w' =>
       (exists phone, trace w' = trace w ++ [E_initiateVerificationCall phone]) /\
       staged (trace w') (Some id) false false w' /\ call_failed w')
    (fun _ => False) w.
Proof.
  intros Hp Hdown H. unfold initiate. rewrite Hp. cbn [when].
  unfold wp, try_catch. unfold bind at 1, now, gets. unfold bind at 1.
  unfold on_timeline at 1, assign, modify. unfold bind at 1.
  match goal with
  | |- context [retellService.initiateVerificationCall env ?n ?p ?w1] =>
      destruct (initiateVerificationCall_down env n p w1) as [e ->]
  end.
  { rewrite Hdown. apply andb_false_r. }
  run_handlers. split; [eauto |].
  split; [| split; [reflexivity | eauto]].
  unfold staged, quiet, silent in *. cbn.
  destruct H as ((_ & Hv1 & Hv2 & Hv3 & Hv4) & Hpd & Hst & _).
  repeat split; auto; try discriminate.
  exists []. rewrite app_nil_r. auto.
Qed.

Lemma poll_skipped env id w :
  Vars.verificationCallId (vars w) = None -> poll env id w = (Ok tt, w).
Proof. intros E. unfold poll. run_handlers. rewrite E. reflexivity. Qed.

Lemma analyse_transcript_skipped env id w :
  Vars.callTranscript (vars w) = None ->
  Vars.callTranscriptObject (vars w) = None ->
  analyse_transcript env id w = (Ok tt, w).
Proof.
  intros E1 E2. unfold analyse_transcript. run_handlers. rewrite E1, E2.
  reflexivity.
Qed.

Lemma count_fetch_le evs :
  (count is_fetch evs <= count is_verification_call evs)%nat.
Proof.
  induction evs as [| e evs IH]; cbn; [lia |]. destruct e; cbn; lia.
Qed.

(** X22.  When a phone number is given but the verification call cannot be
    started, the upload goes on without it: with a store that answers the
    answer is 201, the record ends [processing_complete], its timeline
    carries the verification status [error] with the error message, the
    call platform is called once, for the initiation, and its status is
    never requested. *)
Theorem failed_call_initiation_is_recorded env req f w :
  Req.file req = Some f ->
  supported (extname f) = true ->
  fs_uploads_dir env = true -> fs_file_exists env = true ->
  reliable_store env ->
  phone_provided (Req.patientPhone req) = true ->
  platform_up env = false ->
  exists id r p w' evs,
    uploadHealthRecord env req w = (Ok (Created id r p), w') /\
    store w' !! id = Some r /\
    processingStatus r = processing_complete /\
    verification_status (timeline (processingMetadata r)) = js "error" /\
    is_Some (verification_error (timeline (processingMetadata r))) /\
    trace w' = trace w ++ evs /\
    count is_verification_call evs = 1%nat /\
    count is_fetch evs = 0%nat.
Proof.
  intros Hf Hs Hd He Hrel Hp Hdown.
  assert (Hnofail : forall t0 w0, failed env t0 w0 -> False).
  { intros t0 w0 [_ [n Hn]]. rewrite Hrel in Hn. discriminate. }
  assert (Hwp : wp (uploadHealthRecord env req)
                  (fun resp w' =>
                     exists id r p evs,
                       resp = Created id r p /\ store w' !! id = Some r /\
                       processingStatus r = processing_complete /\
                       failure_on_record r /\
                       trace w' = trace w ++ evs /\
                       count is_verification_call evs = 1%nat /\
                       count is_fetch evs = 0%nat)
                  (fun _ => False) w).
  { unfold uploadHealthRecord. rewrite Hf, Hd, He. cbn [negb].
    apply wp_try.
    apply wp_bind. unfold wp at 1, now, gets. cbn.
    apply wp_bind. unfold wp at 1, assign, modify. cbn.
    set (w1 := with_vars (init_vars (extname f) (clock w)) w).
    assert (Hq : quiet (trace w) w1).
    { unfold quiet. cbn. repeat split; auto. exists []. rewrite app_nil_r. auto. }
    apply wp_bind.
    eapply wp_mono; [apply staged_parse_file; exact Hq | | intros ? []].
    cbn beta. intros ok w2 [Hok H2].
    change (Vars.fileExtension (vars w1)) with (extname f) in Hok.
    rewrite Hs in Hok. subst ok.
    apply wp_bind.
    eapply wp_mono; [apply staged_close_documentAI; exact H2 | | intros ? []].
    cbn beta. intros _ w3 H3. unfold pipeline.
    apply wp_bind.
    eapply wp_mono; [apply staged_create_record; exact H3 | |].
    2:{ cbn beta. intros w' H'. destruct (Hnofail _ _ H'). }
    cbn beta. intros id w4 H4.
    assert (Hsil4 : silent (trace w) w4) by apply H4.
    destruct Hsil4 as (evs4 & Htr4 & Hc4).
    apply wp_bind.
    eapply wp_mono; [apply (stalled_initiate env req id (trace w)); eauto | | intros ? []].
    cbn beta. intros _ w5 ([phone Htr5] & H5 & F5).
    apply wp_bind. unfold wp at 1.
    rewrite poll_skipped by apply H5.
    assert (Hrest :
      forall w6, staged (trace w5) (Some id) false false w6 -> call_failed w6 ->
        wp (close_verification ;; structuring env req ;; analyse_transcript env id ;;
            close_groqAI ;; archive env f ;; finalize env id)
          (fun resp w' =>
             (silent (trace w5) w' /\
              exists r p, resp = Created id r p /\ store w' !! id = Some r /\
                          processingStatus r = processing_complete) /\
             (forall i r p, resp = Created i r p -> failure_on_record r))
          (fun _ => False) w6).
    { intros w6 H6 F6.
      apply wp_bind.
      eapply wp_mono;
        [apply wp_conj; [apply staged_close_verification; exact H6
                        | apply failed_close_verification; exact F6] | | intros ? [[] _]].
      cbn beta. intros _ w7 [H7 F7].
      apply wp_bind.
      eapply wp_mono;
        [apply wp_conj; [apply staged_structuring; exact H7
                        | apply failed_structuring; exact F7] | | intros ? [[] _]].
      cbn beta. intros _ w8 [H8 F8].
      apply wp_bind. unfold wp at 1.
      rewrite analyse_transcript_skipped by apply H8.
      pose proof H8 as H9. pose proof F8 as F9.
      apply wp_bind.
      eapply wp_mono;
        [apply wp_conj; [apply staged_close_groqAI; exact H9
                        | apply failed_close_groqAI; exact F9] | | intros ? [[] _]].
      cbn beta. intros _ w10 [H10 F10].
      apply wp_bind.
      eapply wp_mono;
        [apply wp_conj; [apply staged_archive; exact H10
                        | apply failed_archive; exact F10] | | intros ? [[] _]].
      cbn beta. intros _ w11 [H11 F11].
      eapply wp_mono;
        [apply wp_conj; [apply staged_finalize; exact H11
                        | apply failed_finalize; exact F11] | | ].
      - cbn beta. auto.
      - cbn beta. intros w' [H' _]. destruct (Hnofail _ _ H'). }
    eapply wp_mono; [apply Hrest; assumption | | intros ? []].
    cbn beta. intros resp w' [[(evs' & Htr' & Hc') (r & p & -> & Hr & Hps)] Hfail].
    exists id, r, p, (evs4 ++ [E_initiateVerificationCall phone] ++ evs').
    split; [reflexivity |]. split; [exact Hr |]. split; [exact Hps |].
    split; [exact (Hfail id r p eq_refl) |].
    split; [rewrite Htr', Htr5, Htr4, <- !app_assoc; reflexivity |].
    pose proof (count_fetch_le evs4) as Hf4. pose proof (count_fetch_le evs') as Hf'.
    rewrite !count_app, Hc4, Hc'. cbn. split; [reflexivity | lia]. }
  unfold wp in Hwp.
  destruct (uploadHealthRecord env req w) as [[resp | e |] w']; try contradiction.
  destruct Hwp as (id & r & p & evs & -> & Hr & Hps & [Hv He'] & Htr & Hc & Hfe).
  exists id, r, p, w', evs. auto 10.
Qed.

(** X22, instance: the call platform refuses to create the call. *)
Lemma failed_call_initiation_is_recorded_witness :
  phone_provided (Req.patientPhone sample_upload) = true /\
  platform_up platform_down_env = false /\
  exists id r p w' evs,
    uploadHealthRecord platform_down_env sample_upload sample_world
    = (Ok (Created id r p), w') /\
    processingStatus r = processing_complete /\
    verification_status (timeline (processingMetadata r)) = js "error" /\
    trace w' = trace sample_world ++ evs /\
    count is_fetch evs = 0%nat.
Proof.
  split; [reflexivity |]. split; [reflexivity |].
  destruct (failed_call_initiation_is_recorded platform_down_env sample_upload
              sample_file sample_world eq_refl eq_refl eq_refl eq_refl
              (fun _ => eq_refl) eq_refl eq_refl)
    as (id & r & p & w' & evs & Hrun & _ & Hps & Hv & _ & Htr & _ & Hfe).
  exists id, r, p, w', evs.
  split; [exact Hrun |]. split; [exact Hps |]. split; [exact Hv |].
  split; [exact Htr | exact Hfe].
Defined.
(** ** An upload whose verification call does not end in time *)

Lemma never_terminal_reply env n data :
  never_terminal env -> reply (retell_get_call env n) = Some data ->
  retellService.terminal (call_status data) = false.
Proof.
  intros H E. specialize (H n). unfold answered_terminal in H.
  rewrite E in H. exact H.
Qed.

Ltac waiting_done Hnever :=
  unfold waiting, timed_out in *; cbn in *;
  repeat match goal with
         | H : _ /\ _ |- _ => destruct H
         end;
  try match goal with
      | E : reply (retell_get_call _ ?n) = Some ?d,
        T : retellService.terminal (call_status ?d) = true |- _ =>
          rewrite (never_terminal_reply _ n d Hnever E) in T; discriminate T
      end;
  repeat split; auto; try congruence.

Lemma waiting_poll_iteration env id cid w :
  never_terminal env -> waiting w ->
  wp (poll_iteration env id cid) (fun _ => waiting) (fun _ => False) w.
Proof.
  intros Hnever H.
  unfold poll_iteration, setTimeout, retellService.getCallStatus,
    keep_transcript, findByIdAndUpdate, mongo_step,
    retellService.call_status_of.
  wp_run; waiting_done Hnever.
Qed.

Lemma timed_out_final_check env cid w :
  never_terminal env -> waiting w ->
  wp (final_check env cid) (fun _ => timed_out) (fun _ => False) w.
Proof.
  intros Hnever H.
  assert (He : Vars.callEnded (vars w) = false) by apply H.
  unfold final_check, retellService.getCallStatus, keep_transcript,
    retellService.call_status_of.
  unfold wp. unfold bind at 1, var, gets. cbn. rewrite He. cbn [negb when].
  run_handlers. repeat case_match; simplify_eq; cbn in *;
    try match goal with
        | E : reply (retell_get_call _ ?n) = Some ?d |- _ =>
            rewrite (never_terminal_reply _ n d Hnever E) in *
        end;
    cbn in *; try discriminate; waiting_done Hnever.
Qed.

Lemma timed_out_poll env id cid w :
  never_terminal env ->
  Vars.verificationCallId (vars w) = Some cid -> truthy cid = true ->
  Vars.callTranscript (vars w) = None ->
  Vars.callTranscriptObject (vars w) = None ->
  Vars.transcriptResult (vars w) = None ->
  wp (poll env id) (fun _ => timed_out) (fun _ => False) w.
Proof.
  intros Hnever Hv Hs E1 E2 E3.
  unfold wp. rewrite (poll_unfold env id w cid Hv Hs).
  destruct (poll_while_run env id cid Hs poll_fuel (poll_start w))
    as (w1 & evs1 & Hrun1 & _).
  { cbn. lia. }
  { cbn. change (Z.of_nat poll_fuel) with 36. unfold maxWaitTime. lia. }
  { reflexivity. }
  unfold bind. rewrite Hrun1.
  assert (HI : waiting w1).
  { eapply (poll_while_invariant env id cid waiting); [| exact Hrun1 |].
    - intros w2 H2 _. apply waiting_poll_iteration; assumption.
    - unfold waiting, poll_start. cbn. auto. }
  exact (timed_out_final_check env cid w1 Hnever HI).
Qed.

Ltac timed_done :=
  unfold timed_out in *; cbn in *;
  repeat match goal with
         | H : _ /\ _ |- _ => destruct H
         end;
  repeat split; auto; try congruence.

Lemma timed_out_close_verification w :
  timed_out w -> wp close_verification (fun _ => timed_out) (fun _ => False) w.
Proof. intros H. unfold close_verification. wp_run; timed_done. Qed.

Lemma timed_out_structuring env req w :
  timed_out w -> wp (structuring env req) (fun _ => timed_out) (fun _ => False) w.
Proof.
  intros H. unfold structuring.
  unfold wp. run_handlers. rewrite processHealthRecord_run. cbn. timed_done.
Qed.

Lemma timed_out_close_groqAI w :
  timed_out w -> wp close_groqAI (fun _ => timed_out) (fun _ => False) w.
Proof. intros H. unfold close_groqAI. wp_run; timed_done. Qed.

Lemma timed_out_archive env f w :
  timed_out w -> wp (archive env f) (fun _ => timed_out) (fun _ => False) w.
Proof.
  intros H. unfold archive, s3Service.uploadFileToS3. wp_run; timed_done.
Qed.

Lemma timed_out_finalize env id w :
  timed_out w ->
  wp (finalize env id)
    (fun resp _ =>
       forall i r p, resp = Created i r p ->
         processingStatus r = processing_complete /\
         verification_status (timeline (processingMetadata r)) = js "timeout")
    (fun _ => True) w.
Proof.
  intros H. unfold finalize, findByIdAndUpdate, findById, mongo_step.
  wp_run; auto; intros i r p [= <- <- <-];
    match goal with
    | E : alter _ _ _ !! _ = Some _ |- _ =>
        rewrite lookup_alter_eq in E;
        destruct (store w !! id) as [r0 |]; [| discriminate E];
        cbn in E; injection E as <-
    end;
    timed_done;
    match goal with
    | E : Vars.transcriptResult _ = None |- _ => rewrite E; reflexivity
    end.
Qed.

(** The call is started: the handler holds its id. *)
Lemma started_initiate env req f id t0 s0 data w :
  phone_provided (Req.patientPhone req) = true ->
  retell_update_voice env = true -> retell_update_prompt env = true ->
  retell_update_duration env = true -> retell_create_call env = Some data ->
  mongo_ok env (mongo_ops w) = true ->
  staged t0 (Some id) false false w ->
  ready env req f t0 s0 (Some id) 1 w ->
  wp (initiate env req id)
    (fun _ w' =>
       ready env req f t0 s0 (Some id) 1 w' /\
       Vars.verificationCallId (vars w') = Some (call_id data) /\
       Vars.callTranscript (vars w') = None /\
       Vars.callTranscriptObject (vars w') = None /\
       Vars.transcriptResult (vars w') = None)
    (fun _ => False) w.
Proof.
  intros Hp H1 H2 H3 H4 Hm Hst Hr.
  assert (Hph : truthy (default [] (Req.patientPhone req)) = true).
  { unfold phone_provided in Hp. destruct (Req.patientPhone req); [| discriminate].
    apply andb_true_iff in Hp as [Hp _]. exact Hp. }
  destruct Hst as ((_ & _ & Ht1 & Ht2 & Ht3) & _).
  assert (Hid : wp (initiate env req id)
                  (fun _ w' =>
                     Vars.verificationCallId (vars w') = Some (call_id data) /\
                     Vars.callTranscript (vars w') = None /\
                     Vars.callTranscriptObject (vars w') = None /\
                     Vars.transcriptResult (vars w') = None)
                  (fun _ => False) w).
  { unfold initiate. rewrite Hp. cbn [when].
    unfold wp, try_catch. unfold bind at 1, now, gets. unfold bind at 1.
    unfold on_timeline at 1, assign, modify. unfold bind at 1.
    rewrite (initiateVerificationCall_up env _ _ data _ Hph H1 H2 H3 H4).
    unfold findByIdAndUpdate, mongo_step. run_handlers. rewrite Hm. cbn.
    auto. }
  pose proof (wp_conj _ _ _ _ _ _ (ready_initiate env req f id t0 s0 w Hr) Hid)
    as Hc.
  eapply wp_mono; [exact Hc | | intros ? [[] _]].
  cbn beta. intros a w' [Hr' Hrest]. split; [exact Hr' | exact Hrest].
Qed.

(** X23.  When the verification call is started but no status request is
    ever answered with a terminal status, the upload gives up waiting and
    goes on: with a store that answers the answer is 201, no transcript
    analysis is requested, the record ends [processing_complete] and its
    timeline carries the verification status [timeout]. *)
Theorem unanswered_call_times_out env req f data w :
  Req.file req = Some f ->
  supported (extname f) = true ->
  fs_uploads_dir env = true -> fs_file_exists env = true ->
  reliable_store env ->
  phone_provided (Req.patientPhone req) = true ->
  retell_update_voice env = true -> retell_update_prompt env = true ->
  retell_update_duration env = true -> retell_create_call env = Some data ->
  truthy (call_id data) = true ->
  never_terminal env ->
  exists id r p w' evs,
    uploadHealthRecord env req w = (Ok (Created id r p), w') /\
    store w' !! id = Some r /\
    processingStatus r = processing_complete /\
    verification_status (timeline (processingMetadata r)) = js "timeout" /\
    trace w' = trace w ++ evs /\
    count is_analysis evs = 0%nat.
Proof.
  intros Hf Hs Hd He Hrel Hp H1 H2 H3 H4 Hcid Hnever.
  assert (Hnofail : forall w0, store_failed env w0 -> False).
  { intros w0 [n Hn]. rewrite Hrel in Hn. discriminate. }
  assert (Hwp : wp (uploadHealthRecord env req)
                  (fun resp w' =>
                     exists id r,
                       resp = Created id r (preview (Some (extracted env (extname f)))) /\
                       completed env req f (trace w) (store w) id r w' /\
                       processingStatus r = processing_complete /\
                       verification_status (timeline (processingMetadata r))
                       = js "timeout")
                  (fun _ => False) w).
  { unfold uploadHealthRecord. rewrite Hf, Hd, He. cbn [negb].
    apply wp_try.
    apply wp_bind. unfold wp at 1, now, gets. cbn.
    apply wp_bind. unfold wp at 1, assign, modify. cbn.
    set (w1 := with_vars (init_vars (extname f) (clock w)) w).
    assert (Hq : quiet (trace w) w1).
    { unfold quiet. cbn. repeat split; auto. exists []. rewrite app_nil_r. auto. }
    apply wp_bind.
    eapply wp_mono;
      [exact (wp_conj _ _ _ _ _ _ (staged_parse_file env (trace w) w1 Hq)
                (ready_parse_file env req f w1 eq_refl Hs eq_refl))
      | | intros ? [[] _]].
    cbn beta. intros ok w2 [[_ S2] [-> R2]].
    apply wp_bind.
    eapply wp_mono;
      [exact (wp_conj _ _ _ _ _ _ (staged_close_documentAI (trace w) w2 S2)
                (ready_close_documentAI env req f (trace w) (store w) w2 R2))
      | | intros ? [[] _]].
    cbn beta. intros _ w3 [S3 R3]. unfold pipeline.
    assert (Hs3 : store w3 = store w).
    { destruct R3 as (_ & Ho & _). apply map_eq. intros j. apply Ho. discriminate. }
    apply wp_bind.
    eapply wp_mono;
      [exact (wp_conj _ _ _ _ _ _ (staged_create_record env req f (trace w) w3 S3)
                (ready_create_record env req f (trace w) (store w) w3 Hs3 R3))
      | | intros w' [_ H']; destruct (Hnofail _ H')].
    cbn beta. intros id w4 [S4 R4].
    apply wp_bind.
    eapply wp_mono;
      [exact (started_initiate env req f id (trace w) (store w) data w4
                Hp H1 H2 H3 H4 (Hrel _) S4 R4)
      | | intros ? []].
    cbn beta. intros _ w5 (R5 & Hv5 & Ht1 & Ht2 & Ht3).
    apply wp_bind.
    eapply wp_mono;
      [exact (wp_conj _ _ _ _ _ _ (ready_poll env req f id (trace w) (store w) w5 R5)
                (timed_out_poll env id (call_id data) w5 Hnever Hv5 Hcid Ht1 Ht2 Ht3))
      | | intros ? [[] _]].
    cbn beta. intros _ w6 [R6 T6].
    apply wp_bind.
    eapply wp_mono;
      [exact (wp_conj _ _ _ _ _ _
                (ready_close_verification env req f id (trace w) (store w) 1 w6 R6)
                (timed_out_close_verification w6 T6))
      | | intros ? [[] _]].
    cbn beta. intros _ w7 [R7 T7].
    apply wp_bind.
    eapply wp_mono;
      [exact (wp_conj _ _ _ _ _ _
                (ready_structuring env req f id (trace w) (store w) w7 R7)
                (timed_out_structuring env req w7 T7))
      | | intros ? [[] _]].
    cbn beta. intros _ w8 [R8 T8].
    pose proof (ready_analyse_transcript env req f id (trace w) (store w) w8 R8)
      as R9.
    unfold wp in R9.
    apply wp_bind. unfold wp at 1.
    rewrite analyse_transcript_skipped in * by apply T8.
    apply wp_bind.
    eapply wp_mono;
      [exact (wp_conj _ _ _ _ _ _
                (ready_close_groqAI env req f id (trace w) (store w) 3 w8 R9)
                (timed_out_close_groqAI w8 T8))
      | | intros ? [[] _]].
    cbn beta. intros _ w10 [R10 T10].
    apply wp_bind.
    eapply wp_mono;
      [exact (wp_conj _ _ _ _ _ _
                (ready_archive env req f id (trace w) (store w) w10 R10)
                (timed_out_archive env f w10 T10))
      | | intros ? [[] _]].
    cbn beta. intros _ w11 [R11 T11].
    eapply wp_mono;
      [exact (wp_conj _ _ _ _ _ _
                (ready_finalize env req f id (trace w) (store w) w11 R11)
                (timed_out_finalize env id w11 T11))
      | | intros w' [H' _]; destruct (Hnofail _ H')].
    cbn beta. intros resp w' [(r & -> & Hc) Ht].
    destruct (Ht id r _ eq_refl) as [Hps Hv]. eauto 10. }
  unfold wp in Hwp.
  destruct (uploadHealthRecord env req w) as [[resp | e |] w']; try contradiction.
  destruct Hwp as (id & r & -> & Hc & Hps & Hv).
  destruct Hc as (_ & _ & Hr & _ & _ & _ & _ & _ & _ & evs & Htr & Hst).
  eexists id, r, _, w', evs. split; [reflexivity |].
  split; [exact Hr |]. split; [exact Hps |]. split; [exact Hv |].
  split; [exact Htr |].
  destruct Hst as [[_ Hvc] | [Hc0 _]]; [| exact Hc0].
  rewrite Hps in Hvc. discriminate.
Qed.

(** X23, instance: the platform keeps answering [registered]. *)
Lemma unanswered_call_times_out_witness :
  never_terminal silent_platform_env /\
  exists id r p w' evs,
    uploadHealthRecord silent_platform_env sample_upload sample_world
    = (Ok (Created id r p), w') /\
    processingStatus r = processing_complete /\
    verification_status (timeline (processingMetadata r)) = js "timeout" /\
    trace w' = trace sample_world ++ evs /\
    count is_analysis evs = 0%nat.
Proof.
  assert (Hn : never_terminal silent_platform_env) by (intros n; reflexivity).
  split; [exact Hn |].
  destruct (unanswered_call_times_out silent_platform_env sample_upload
              sample_file registered_call sample_world
              eq_refl eq_refl eq_refl eq_refl (fun _ => eq_refl) eq_refl
              eq_refl eq_refl eq_refl eq_refl eq_refl Hn)
    as (id & r & p & w' & evs & Hrun & _ & Hps & Hv & Htr & Hc).
  exists id, r, p, w', evs.
  split; [exact Hrun |]. split; [exact Hps |]. split; [exact Hv |].
  split; [exact Htr | exact Hc].
Defined.
(** ** A store failure in mid-pipeline *)

Ltac half_trace :=
  match goal with
  | H : trace ?w = ?t0 ++ ?evs |- exists evs', _ = ?t0 ++ evs' /\ _ =>
      rewrite ?H; rewrite <- ?app_assoc; eexists;
      split; [reflexivity | rewrite ?count_app; cbn; lia]
  end.

Ltac half_done_tac :=
  unfold not_yet, half_done, as_created in *; cbn in *;
  repeat match goal with
         | H : _ /\ _ |- _ => destruct H
         | H : exists _, _ |- _ => destruct H
         end;
  repeat split; eauto 6; try half_trace; try lia; try congruence.

Lemma not_yet_parse_file env t0 s0 n w :
  not_yet t0 s0 n w ->
  wp (parse_file env) (fun _ => not_yet t0 s0 n) (fun _ => False) w.
Proof.
  intros H.
  unfold parse_file, documentAIService.parsePdfDocument,
    documentAIService.parseHandwrittenDocument, documentAIService.processDocument.
  wp_run; half_done_tac.
Qed.

Lemma not_yet_close_documentAI t0 s0 n w :
  not_yet t0 s0 n w ->
  wp close_documentAI (fun _ => not_yet t0 s0 n) (fun _ => False) w.
Proof. intros H. unfold close_documentAI. wp_run; half_done_tac. Qed.

Lemma half_done_create_record env req f t0 s0 n w :
  mongo_ok env n = true ->
  is_Some (Vars.parsedData (vars w)) ->
  not_yet t0 s0 n w ->
  wp (create_record env req f)
    (fun id w' => s0 !! id = None /\ half_done t0 id (S n) 0 w')
    (fun _ => False) w.
Proof.
  intros Hm [d Hd] (Hn & Hs0 & evs & Htr & Hc).
  pose proof (is_fresh (dom (store w))) as Hfresh.
  apply not_elem_of_dom in Hfresh.
  unfold create_record, create, mongo_step.
  unfold wp. unfold bind at 1, gets. cbn.
  rewrite Hd.
  run_handlers. rewrite Hn, Hm. cbn.
  split; [rewrite <- Hs0; exact Hfresh |].
  unfold half_done, as_created. cbn. split; [congruence |].
  split; [rewrite lookup_insert_eq; eexists; split; [reflexivity |]; auto |].
  rewrite Htr, <- !app_assoc. eexists. split; [reflexivity |].
  rewrite count_app. cbn. lia.
Qed.

Lemma initiate_skipped env req id w :
  phone_provided (Req.patientPhone req) = false ->
  initiate env req id w = (Ok tt, w).
Proof. intros Hp. unfold initiate. rewrite Hp. reflexivity. Qed.

Lemma half_done_close_verification t0 id n c w :
  half_done t0 id n c w ->
  wp close_verification (fun _ => half_done t0 id n c) (fun _ => False) w.
Proof. intros H. unfold close_verification. wp_run; half_done_tac. Qed.

Lemma half_done_structuring env req t0 id n c w :
  half_done t0 id n c w ->
  wp (structuring env req) (fun _ => half_done t0 id n c) (fun _ => False) w.
Proof.
  intros H. unfold structuring.
  unfold wp. run_handlers. rewrite processHealthRecord_run. cbn. half_done_tac.
Qed.

Lemma half_done_close_groqAI t0 id n c w :
  half_done t0 id n c w ->
  wp close_groqAI (fun _ => half_done t0 id n c) (fun _ => False) w.
Proof. intros H. unfold close_groqAI. wp_run; half_done_tac. Qed.

Lemma half_done_archive env f t0 id n w :
  half_done t0 id n 0 w ->
  wp (archive env f) (fun _ => half_done t0 id n 1) (fun _ => False) w.
Proof.
  intros H. unfold archive, s3Service.uploadFileToS3. wp_run; half_done_tac.
Qed.

Lemma half_done_finalize env id t0 n c w :
  mongo_ok env n = false ->
  half_done t0 id n c w ->
  wp (finalize env id) (fun _ _ => False)
    (fun w' => (exists r, store w' !! id = Some r /\ as_created r) /\
               exists evs, trace w' = t0 ++ evs /\ count is_s3_upload evs = c) w.
Proof.
  intros Hm (Hn & Hr & evs & Htr & Hc).
  unfold finalize, findByIdAndUpdate, mongo_step.
  unfold wp. unfold bind at 1, gets. cbn.
  destruct (Vars.structuredData (vars w)); [| unfold throw; eauto].
  destruct (Vars.fileUrl (vars w)); [| unfold throw; eauto].
  run_handlers. rewrite Hn, Hm. cbn. split; [exact Hr |].
  rewrite Htr, <- !app_assoc. eexists. split; [reflexivity |].
  rewrite count_app. cbn. lia.
Qed.

(** X24.  There is no rollback: when the store accepts the creation of the
    record but refuses the final update, an upload without a phone number
    is answered 500, yet the record stays in the store as it was created, in
    the state [document_ai_complete], without file URL and without
    structured data, although the file has been sent to S3. *)
Theorem failed_final_update_leaves_partial_record env req f w :
  Req.file req = Some f ->
  supported (extname f) = true ->
  fs_uploads_dir env = true -> fs_file_exists env = true ->
  phone_provided (Req.patientPhone req) = false ->
  mongo_ok env (mongo_ops w) = true ->
  mongo_ok env (S (mongo_ops w)) = false ->
  exists id r w' evs,
    uploadHealthRecord env req w = (Ok (Error 500 (js "Server error")), w') /\
    store w !! id = None /\
    store w' !! id = Some r /\
    processingStatus r = document_ai_complete /\
    fileUrl r = None /\ structuredData r = None /\
    trace w' = trace w ++ evs /\
    count is_s3_upload evs = 1%nat.
Proof.
  intros Hf Hs Hd He Hp Hm1 Hm2.
  assert (Hwp : wp (uploadHealthRecord env req)
                  (fun resp w' =>
                     resp = Error 500 (js "Server error") /\
                     exists id r evs,
                       store w !! id = None /\ store w' !! id = Some r /\
                       as_created r /\ trace w' = trace w ++ evs /\
                       count is_s3_upload evs = 1%nat)
                  (fun _ => False) w).
  { unfold uploadHealthRecord. rewrite Hf, Hd, He. cbn [negb].
    apply wp_try.
    apply wp_bind. unfold wp at 1, now, gets. cbn.
    apply wp_bind. unfold wp at 1, assign, modify. cbn.
    set (w1 := with_vars (init_vars (extname f) (clock w)) w).
    assert (Hq : quiet (trace w) w1).
    { unfold quiet. cbn. repeat split; auto. exists []. rewrite app_nil_r. auto. }
    assert (N1 : not_yet (trace w) (store w) (mongo_ops w) w1).
    { unfold not_yet. cbn. repeat split; auto. exists []. rewrite app_nil_r. auto. }
    apply wp_bind.
    eapply wp_mono;
      [exact (wp_conj _ _ _ _ _ _ (staged_parse_file env (trace w) w1 Hq)
                (not_yet_parse_file env _ _ _ w1 N1))
      | | intros ? [[] _]].
    cbn beta. intros ok w2 [[Hok S2] N2].
    change (Vars.fileExtension (vars w1)) with (extname f) in Hok.
    rewrite Hs in Hok. subst ok.
    apply wp_bind.
    eapply wp_mono;
      [exact (wp_conj _ _ _ _ _ _ (staged_close_documentAI (trace w) w2 S2)
                (not_yet_close_documentAI _ _ _ w2 N2))
      | | intros ? [[] _]].
    cbn beta. intros _ w3 [S3 N3]. unfold pipeline.
    apply wp_bind.
    eapply wp_mono;
      [exact (wp_conj _ _ _ _ _ _ (staged_create_record env req f (trace w) w3 S3)
                (half_done_create_record env req f _ _ _ w3 Hm1
                   (proj1 (proj2 S3)) N3))
      | | intros ? [_ []]].
    cbn beta. intros id w4 [S4 [Hfree P4]].
    apply wp_bind. unfold wp at 1. rewrite (initiate_skipped env req id w4 Hp).
    apply wp_bind. unfold wp at 1. rewrite poll_skipped by apply S4.
    apply wp_bind.
    eapply wp_mono;
      [exact (wp_conj _ _ _ _ _ _ (staged_close_verification id (trace w) w4 S4)
                (half_done_close_verification _ _ _ _ w4 P4))
      | | intros ? [[] _]].
    cbn beta. intros _ w5 [S5 P5].
    apply wp_bind.
    eapply wp_mono;
      [exact (wp_conj _ _ _ _ _ _ (staged_structuring env req id (trace w) w5 S5)
                (half_done_structuring env req _ _ _ _ w5 P5))
      | | intros ? [[] _]].
    cbn beta. intros _ w6 [S6 P6].
    apply wp_bind. unfold wp at 1.
    rewrite analyse_transcript_skipped by apply S6.
    apply wp_bind.
    eapply wp_mono;
      [exact (wp_conj _ _ _ _ _ _ (staged_close_groqAI id (trace w) w6 S6)
                (half_done_close_groqAI _ _ _ _ w6 P6))
      | | intros ? [[] _]].
    cbn beta. intros _ w7 [S7 P7].
    apply wp_bind.
    eapply wp_mono;
      [exact (wp_conj _ _ _ _ _ _ (staged_archive env f id (trace w) w7 S7)
                (half_done_archive env f _ _ _ w7 P7))
      | | intros ? [[] _]].
    cbn beta. intros _ w8 [S8 P8].
    eapply wp_mono; [exact (half_done_finalize env id _ _ _ w8 Hm2 P8) | intros ? ? [] |].
    cbn beta. intros w' ((r & Hr & Hc) & evs & Htr & Hcnt) e.
    unfold wp. run_handlers. split; [reflexivity |].
    exists id, r, (evs ++ [E_unlink]).
    split; [exact Hfree |]. split; [exact Hr |]. split; [exact Hc |].
    split; [rewrite Htr, <- app_assoc; reflexivity |].
    rewrite count_app. cbn. lia. }
  unfold wp in Hwp.
  destruct (uploadHealthRecord env req w) as [[resp | e |] w']; try contradiction.
  destruct Hwp as (-> & id & r & evs & Hfree & Hr & (H1 & H2 & H3) & Htr & Hc).
  exists id, r, w', evs. auto 10.
Qed.

(** X24, instance. *)
Lemma failed_final_update_leaves_partial_record_witness :
  exists id r w' evs,
    uploadHealthRecord flaky_store_env upload_without_phone sample_world
    = (Ok (Error 500 (js "Server error")), w') /\
    store w' !! id = Some r /\
    processingStatus r = document_ai_complete /\
    fileUrl r = None /\
    trace w' = trace sample_world ++ evs /\
    count is_s3_upload evs = 1%nat.
Proof.
  destruct (failed_final_update_leaves_partial_record flaky_store_env
              upload_without_phone sample_file sample_world
              eq_refl eq_refl eq_refl eq_refl eq_refl eq_refl eq_refl)
    as (id & r & w' & evs & Hrun & _ & Hr & Hps & Hu & _ & Htr & Hc).
  exists id, r, w', evs. auto 10.
Defined.
